(** * MetaTrader 5 MCP server: protocol core

    A shallow embedding of the two server variants of the repository,
    [src/mt5-server.ts] (twelve tools, built on the MCP SDK) and
    [server.js] (eight tools, with its own Content-Length framing on
    standard input), and the properties of their validation, dispatch,
    error normalisation and framing.

    Layout: the JavaScript values the code manipulates (module [Js]), the
    HTTP client and the effect monad of the handlers (module [Axios]), the
    argument guards (module [Guards]), the two servers (modules
    [Mt5Server] and [ServerJs]), and then the theorems. *)

From Stdlib Require Import List String Ascii NArith ZArith Bool Lia.
From Stdlib Require Decimal DecimalN DecimalPos.
From Stdlib.Strings Require Import Byte.
Import ListNotations.

Set Warnings "-register-all".

Local Open Scope N_scope.
Local Open Scope list_scope.

(* ===================================================================== *)
(** ** JavaScript values *)
(* ===================================================================== *)

Module Js.

(** A JavaScript string is a sequence of UTF-16 code units; [length] of the
    list is the string's [.length]. *)
Definition jsstring := list N.

(** String literals of the source (all of them ASCII). *)
Definition lit (s : string) : jsstring :=
  map (fun a => N_of_ascii a) (list_ascii_of_string s).

Fixpoint jsstring_eqb (a b : jsstring) : bool :=
  match a, b with
  | [], [] => true
  | x :: a', y :: b' => (x =? y) && jsstring_eqb a' b'
  | _, _ => false
  end.

(** [s.startsWith(p)], returning what follows the prefix. *)
Fixpoint strip_prefix (p s : jsstring) : option jsstring :=
  match p with
  | [] => Some s
  | x :: p' =>
      match s with
      | [] => None
      | y :: s' => if x =? y then strip_prefix p' s' else None
      end
  end.

(** Decimal digits. *)
Fixpoint uint_units (d : Decimal.uint) : jsstring :=
  match d with
  | Decimal.Nil => []
  | Decimal.D0 d' => 48 :: uint_units d'
  | Decimal.D1 d' => 49 :: uint_units d'
  | Decimal.D2 d' => 50 :: uint_units d'
  | Decimal.D3 d' => 51 :: uint_units d'
  | Decimal.D4 d' => 52 :: uint_units d'
  | Decimal.D5 d' => 53 :: uint_units d'
  | Decimal.D6 d' => 54 :: uint_units d'
  | Decimal.D7 d' => 55 :: uint_units d'
  | Decimal.D8 d' => 56 :: uint_units d'
  | Decimal.D9 d' => 57 :: uint_units d'
  end.

Definition is_digit (c : N) : bool := (48 <=? c) && (c <=? 57).

(** The digits of a string of decimal digits; a code unit that is not a
    digit ends the reading. *)
Fixpoint units_uint (s : jsstring) : Decimal.uint :=
  match s with
  | [] => Decimal.Nil
  | c :: s' =>
      if c =? 48 then Decimal.D0 (units_uint s')
      else if c =? 49 then Decimal.D1 (units_uint s')
      else if c =? 50 then Decimal.D2 (units_uint s')
      else if c =? 51 then Decimal.D3 (units_uint s')
      else if c =? 52 then Decimal.D4 (units_uint s')
      else if c =? 53 then Decimal.D5 (units_uint s')
      else if c =? 54 then Decimal.D6 (units_uint s')
      else if c =? 55 then Decimal.D7 (units_uint s')
      else if c =? 56 then Decimal.D8 (units_uint s')
      else if c =? 57 then Decimal.D9 (units_uint s')
      else Decimal.Nil
  end.

(** [String(n)] for a non-negative integer [n], as in
    [`Content-Length: ${responseContent.length}`]. *)
Definition decimal (n : N) : jsstring := uint_units (N.to_uint n).

(** [parseInt(digits, 10)] on a non-empty string of decimal digits (the
    capture of [\d+]).  The value is kept exact; JavaScript rounds it to a
    double from 2^53 on, far above the length of any string. *)
Definition parseInt (digits : jsstring) : N := N.of_uint (units_uint digits).

(** *** Numbers

    A number is modelled by the decimal that [Number::toString] prints and
    [JSON.parse] reads: sign, significand and power of ten.  The guards and
    handlers only take [typeof] of a number, test its truthiness and
    convert it to a string. *)
Inductive Number :=
| NaN
| Infinity (negative : bool)
| Zero (negative : bool)
| Finite (negative : bool) (significand : positive) (exponent : Z).

(** Drops the trailing zeros of a reversed digit string, counting them. *)
Fixpoint strip_zeros (rev_digits : jsstring) : jsstring * nat :=
  match rev_digits with
  | c :: r =>
      if c =? 48 then let '(r', k) := strip_zeros r in (r', S k)
      else (rev_digits, O)
  | [] => ([], O)
  end.

Definition zeros (k : nat) : jsstring := repeat 48 k.

(** [Number::toString(x)] for a positive finite [x] = [s * 10^e]
    (ECMAScript, Number::toString, steps 5 to 10). *)
Definition positive_toString (s : positive) (e : Z) : jsstring :=
  let '(rd, z) := strip_zeros (rev (uint_units (Pos.to_uint s))) in
  let digits := rev rd in
  let k := Z.of_nat (List.length digits) in
  let n := (k + e + Z.of_nat z)%Z in
  if ((k <=? n) && (n <=? 21))%Z then
    digits ++ zeros (Z.to_nat (n - k))
  else if ((0 <? n) && (n <=? 21))%Z then
    firstn (Z.to_nat n) digits ++ lit "." ++ skipn (Z.to_nat n) digits
  else if ((-6 <? n) && (n <=? 0))%Z then
    lit "0." ++ zeros (Z.to_nat (- n)) ++ digits
  else
    let exponent :=
      lit "e" ++ (if (0 <=? n - 1)%Z then lit "+" else lit "-")
      ++ decimal (Z.to_N (Z.abs (n - 1))) in
    match digits with
    | [d] => d :: exponent
    | d :: more => d :: lit "." ++ more ++ exponent
    | [] => exponent
    end.

Definition Number_toString (x : Number) : jsstring :=
  match x with
  | NaN => lit "NaN"
  | Infinity false => lit "Infinity"
  | Infinity true => lit "-Infinity"
  | Zero _ => lit "0"
  | Finite false s e => positive_toString s e
  | Finite true s e => lit "-" ++ positive_toString s e
  end.

(** The number of an integer literal. *)
Definition int (z : Z) : Number :=
  match z with
  | Z0 => Zero false
  | Zpos p => Finite false p 0
  | Zneg p => Finite true p 0
  end.

(** *** Values

    The values that reach the servers are decoded JSON, and [undefined]
    for what is absent.  An object keeps its own properties in enumeration
    order, each key once. *)
Inductive JsValue :=
| JUndefined
| JNull
| JBool (b : bool)
| JNumber (n : Number)
| JString (s : jsstring)
| JArray (items : list JsValue)
| JObject (properties : list (jsstring * JsValue)).

Definition typeof (v : JsValue) : jsstring :=
  match v with
  | JUndefined => lit "undefined"
  | JNull => lit "object"
  | JBool _ => lit "boolean"
  | JNumber _ => lit "number"
  | JString _ => lit "string"
  | JArray _ => lit "object"
  | JObject _ => lit "object"
  end.

(** [ToBoolean]: what [v ? a : b] and [v || w] test. *)
Definition truthy (v : JsValue) : bool :=
  match v with
  | JUndefined | JNull => false
  | JBool b => b
  | JNumber NaN | JNumber (Zero _) => false
  | JNumber _ => true
  | JString s => match s with [] => false | _ => true end
  | JArray _ | JObject _ => true
  end.

Definition is_undefined (v : JsValue) : bool :=
  match v with JUndefined => true | _ => false end.

Definition is_null (v : JsValue) : bool :=
  match v with JNull => true | _ => false end.

(** [v === s] for a string literal [s]. *)
Definition is_string (s : jsstring) (v : JsValue) : bool :=
  match v with JString t => jsstring_eqb t s | _ => false end.

Fixpoint own (properties : list (jsstring * JsValue)) (key : jsstring)
  : option JsValue :=
  match properties with
  | [] => None
  | (k, v) :: rest => if jsstring_eqb k key then Some v else own rest key
  end.

Definition has_own (properties : list (jsstring * JsValue)) (key : jsstring) : bool :=
  match own properties key with Some _ => true | None => false end.

(** *** Completions

    An expression either yields a value or throws.  The errors of the two
    servers: the [TypeError] of the engine, the [SyntaxError] of [JSON.parse],
    a plain [Error], the error of the HTTP client (for which [axios.isAxiosError] holds) and the SDK's
    [McpError]. *)
Inductive ErrorCode := MethodNotFound | InvalidParams | InternalError.

(** The JSON-RPC numbers of the SDK's [ErrorCode] members. *)
Definition code_number (c : ErrorCode) : Z :=
  match c with
  | MethodNotFound => -32601
  | InvalidParams => -32602
  | InternalError => -32603
  end.

Record AxiosResponse := { status : N; data : JsValue }.

Inductive Thrown :=
| TypeError (message : jsstring)
| SyntaxError (message : jsstring)
| Error (message : jsstring)
| AxiosError (message : jsstring) (response : option AxiosResponse)
| McpError (code : ErrorCode) (message : jsstring).

Inductive Completion (A : Type) :=
| Normal (value : A)
| Throw (error : Thrown).
Arguments Normal {A} value.
Arguments Throw {A} error.

Definition bindC {A B} (c : Completion A) (k : A -> Completion B) : Completion B :=
  match c with
  | Normal a => k a
  | Throw e => Throw e
  end.

(** [a && b] and [a || b] on boolean operands: [b] is not evaluated, so
    cannot throw, when [a] decides. *)
Definition and_then (a b : Completion bool) : Completion bool :=
  match a with
  | Normal true => b
  | _ => a
  end.

Definition or_else (a b : Completion bool) : Completion bool :=
  match a with
  | Normal false => b
  | _ => a
  end.

(** [v.key] for the property names the source reads ([account], [symbol],
    [ticket], [message], [params], ...): none of them is defined on
    [Object.prototype], [Array.prototype] or the wrappers of primitives,
    so only an own property of an object is found.  Reading a property of
    [undefined] or [null] throws. *)
Definition get (v : JsValue) (key : jsstring) : Completion JsValue :=
  match v with
  | JUndefined =>
      Throw (TypeError (lit "Cannot read properties of undefined (reading '"
                          ++ key ++ lit "')"))
  | JNull =>
      Throw (TypeError (lit "Cannot read properties of null (reading '"
                          ++ key ++ lit "')"))
  | JObject properties =>
      Normal (match own properties key with Some x => x | None => JUndefined end)
  | _ => Normal JUndefined
  end.

(** [v?.key]. *)
Definition get_opt (v : JsValue) (key : jsstring) : Completion JsValue :=
  match v with
  | JUndefined | JNull => Normal JUndefined
  | _ => get v key
  end.

(** [ToString], the conversion of a template literal [`${v}`].  An array is
    joined with commas ([Array.prototype.toString]); a plain object prints
    as [[object Object]], unless it has an own [toString] property: decoded
    JSON holds no function, so neither that property nor [valueOf] yields a
    primitive and the conversion throws. *)
Fixpoint ToString (v : JsValue) : Completion jsstring :=
  match v with
  | JUndefined => Normal (lit "undefined")
  | JNull => Normal (lit "null")
  | JBool true => Normal (lit "true")
  | JBool false => Normal (lit "false")
  | JNumber n => Normal (Number_toString n)
  | JString s => Normal s
  | JArray items =>
      (fix join (l : list JsValue) : Completion jsstring :=
         match l with
         | [] => Normal []
         | x :: rest =>
             bindC (match x with
                    | JUndefined | JNull => Normal []
                    | _ => ToString x
                    end)
               (fun s =>
                  match rest with
                  | [] => Normal s
                  | _ => bindC (join rest) (fun t => Normal (s ++ lit "," ++ t))
                  end)
         end) items
  | JObject properties =>
      if has_own properties (lit "toString")
      then Throw (TypeError (lit "Cannot convert object to primitive value"))
      else Normal (lit "[object Object]")
  end.

(** *** JSON.stringify *)

Definition hex_digit (d : N) : N := if d <? 10 then 48 + d else 87 + d.

(** [\uXXXX], four lower-case hexadecimal digits. *)
Definition unicode_escape (c : N) : jsstring :=
  lit "\u" ++ [hex_digit (N.shiftr c 12 mod 16); hex_digit (N.shiftr c 8 mod 16);
               hex_digit (N.shiftr c 4 mod 16); hex_digit (c mod 16)].

Definition is_high_surrogate (c : N) : bool := (55296 <=? c) && (c <=? 56319).
Definition is_low_surrogate (c : N) : bool := (56320 <=? c) && (c <=? 57343).

Definition quote_unit (c : N) : jsstring :=
  if c =? 8 then lit "\b"
  else if c =? 9 then lit "\t"
  else if c =? 10 then lit "\n"
  else if c =? 12 then lit "\f"
  else if c =? 13 then lit "\r"
  else if c =? 34 then [92; 34]
  else if c =? 92 then [92; 92]
  else if (c <? 32) || is_high_surrogate c || is_low_surrogate c then unicode_escape c
  else [c].

Fixpoint quote_units (s : jsstring) : jsstring :=
  match s with
  | [] => []
  | c :: rest =>
      if is_high_surrogate c then
        match rest with
        | d :: rest' =>
            if is_low_surrogate d then c :: d :: quote_units rest'
            else unicode_escape c ++ quote_units rest
        | [] => unicode_escape c
        end
      else quote_unit c ++ quote_units rest
  end.

(** [QuoteJSONString]. *)
Definition quote (s : jsstring) : jsstring := [34] ++ quote_units s ++ [34].

Fixpoint join_with (sep : jsstring) (parts : list jsstring) : jsstring :=
  match parts with
  | [] => []
  | [x] => x
  | x :: rest => x ++ sep ++ join_with sep rest
  end.

Definition newline : jsstring := [10].

Definition wrap (opening closing gap stepback indent : jsstring)
    (partial : list jsstring) : jsstring :=
  match partial with
  | [] => opening ++ closing
  | _ =>
      match gap with
      | [] => opening ++ join_with (lit ",") partial ++ closing
      | _ =>
          opening ++ newline ++ indent
          ++ join_with (lit "," ++ newline ++ indent) partial
          ++ newline ++ stepback ++ closing
      end
  end.

(** [SerializeJSONProperty] with its two helpers for arrays and objects.
    [None] is [undefined]: the value has no JSON text. *)
Fixpoint serialize (gap indent : jsstring) (v : JsValue) : option jsstring :=
  match v with
  | JUndefined => None
  | JNull => Some (lit "null")
  | JBool true => Some (lit "true")
  | JBool false => Some (lit "false")
  | JNumber NaN | JNumber (Infinity _) => Some (lit "null")
  | JNumber n => Some (Number_toString n)
  | JString s => Some (quote s)
  | JArray items =>
      let partial :=
        (fix each (l : list JsValue) : list jsstring :=
           match l with
           | [] => []
           | x :: rest =>
               match serialize gap (indent ++ gap) x with
               | Some s => s
               | None => lit "null"
               end :: each rest
           end) items in
      Some (wrap (lit "[") (lit "]") gap indent (indent ++ gap) partial)
  | JObject properties =>
      let partial :=
        (fix each (l : list (jsstring * JsValue)) : list jsstring :=
           match l with
           | [] => []
           | (k, x) :: rest =>
               match serialize gap (indent ++ gap) x with
               | Some s =>
                   (quote k ++ lit ":" ++ match gap with [] => [] | _ => lit " " end ++ s)
                   :: each rest
               | None => each rest
               end
           end) properties in
      Some (wrap (lit "{") (lit "}") gap indent (indent ++ gap) partial)
  end.

(** [JSON.stringify(v, null, space)] for a number of spaces (at most ten
    are used), and [JSON.stringify(v)] at [space = 0].  The result is a
    string or [undefined]. *)
Definition JSON_stringify (space : nat) (v : JsValue) : JsValue :=
  match serialize (repeat 32 (Nat.min 10 space)) [] v with
  | Some s => JString s
  | None => JUndefined
  end.

(** *** UTF-8

    [chunk.toString()] decodes the bytes of one chunk, on its own, as UTF-8:
    a byte that cannot continue or start a sequence, and a sequence cut off
    by the end of the chunk, give U+FFFD each. *)
Record Utf8State := {
  code_point : N;
  bytes_seen : N;
  bytes_needed : N;
  lower_boundary : N;
  upper_boundary : N
}.

Definition utf8_start : Utf8State :=
  {| code_point := 0; bytes_seen := 0; bytes_needed := 0;
     lower_boundary := 0x80; upper_boundary := 0xBF |}.

Definition replacement : N := 0xFFFD.

(** The code units of a code point. *)
Definition utf16 (cp : N) : jsstring :=
  if cp <? 0x10000 then [cp]
  else [0xD800 + (cp - 0x10000) / 0x400; 0xDC00 + (cp - 0x10000) mod 0x400].

Definition utf8_lead (b : N) : Utf8State * jsstring :=
  if b <=? 0x7F then (utf8_start, [b])
  else if (0xC2 <=? b) && (b <=? 0xDF) then
    ({| code_point := N.land b 0x1F; bytes_seen := 0; bytes_needed := 1;
        lower_boundary := 0x80; upper_boundary := 0xBF |}, [])
  else if (0xE0 <=? b) && (b <=? 0xEF) then
    ({| code_point := N.land b 0xF; bytes_seen := 0; bytes_needed := 2;
        lower_boundary := if b =? 0xE0 then 0xA0 else 0x80;
        upper_boundary := if b =? 0xED then 0x9F else 0xBF |}, [])
  else if (0xF0 <=? b) && (b <=? 0xF4) then
    ({| code_point := N.land b 0x7; bytes_seen := 0; bytes_needed := 3;
        lower_boundary := if b =? 0xF0 then 0x90 else 0x80;
        upper_boundary := if b =? 0xF4 then 0x8F else 0xBF |}, [])
  else (utf8_start, [replacement]).

Definition utf8_step (st : Utf8State) (b : N) : Utf8State * jsstring :=
  if bytes_needed st =? 0 then utf8_lead b
  else if (b <? lower_boundary st) || (upper_boundary st <? b) then
    let '(st', out) := utf8_lead b in (st', replacement :: out)
  else
    let cp := N.lor (N.shiftl (code_point st) 6) (N.land b 0x3F) in
    if bytes_seen st + 1 =? bytes_needed st then (utf8_start, utf16 cp)
    else ({| code_point := cp; bytes_seen := bytes_seen st + 1;
             bytes_needed := bytes_needed st;
             lower_boundary := 0x80; upper_boundary := 0xBF |}, []).

Fixpoint utf8_run (st : Utf8State) (bytes : list byte) : jsstring :=
  match bytes with
  | [] => if bytes_needed st =? 0 then [] else [replacement]
  | b :: rest =>
      let '(st', out) := utf8_step st (Byte.to_N b) in out ++ utf8_run st' rest
  end.

(** [buffer.toString()] of a chunk of bytes. *)
Definition utf8_decode (bytes : list byte) : jsstring := utf8_run utf8_start bytes.

Definition byte_of (n : N) : byte :=
  match Byte.of_N n with Some b => b | None => x00 end.

Definition utf8_code_point (cp : N) : list byte :=
  if cp <? 0x80 then [byte_of cp]
  else if cp <? 0x800 then
    [byte_of (0xC0 + N.shiftr cp 6); byte_of (0x80 + N.land cp 0x3F)]
  else if cp <? 0x10000 then
    [byte_of (0xE0 + N.shiftr cp 12); byte_of (0x80 + N.land (N.shiftr cp 6) 0x3F);
     byte_of (0x80 + N.land cp 0x3F)]
  else
    [byte_of (0xF0 + N.shiftr cp 18); byte_of (0x80 + N.land (N.shiftr cp 12) 0x3F);
     byte_of (0x80 + N.land (N.shiftr cp 6) 0x3F); byte_of (0x80 + N.land cp 0x3F)].

(** The bytes of a string on a stream ([process.stdout.write(s)],
    [Buffer.from(s)]); a surrogate without its partner is written as
    U+FFFD. *)
Fixpoint utf8_encode (s : jsstring) : list byte :=
  match s with
  | [] => []
  | c :: rest =>
      if is_high_surrogate c then
        match rest with
        | d :: rest' =>
            if is_low_surrogate d
            then utf8_code_point (0x10000 + (c - 0xD800) * 0x400 + (d - 0xDC00))
                 ++ utf8_encode rest'
            else utf8_code_point replacement ++ utf8_encode rest
        | [] => utf8_code_point replacement
        end
      else if is_low_surrogate c then utf8_code_point replacement ++ utf8_encode rest
      else utf8_code_point c ++ utf8_encode rest
  end.

End Js.

Import Js.

(* ===================================================================== *)
(** ** The HTTP client and the effects of a handler *)
(* ===================================================================== *)

Module Axios.

(** The two clients of [axios.create]: [apiClient] has the base URL
    [MT5_API_ENDPOINT] (the account API, with the bearer token when
    [MT5_API_KEY] is set), [flaskClient] the base URL [MT5_FLASK_API] (the
    optimization API). *)
Inductive Client := apiClient | flaskClient.

Inductive Method := GET | POST | PUT | DELETE.

(** A call of a client, as the code makes it: the method, the URL (a path,
    as the code passes it) and the body.  What the client makes of it on the
    wire, joining the path to the base URL, normalising and encoding it, and
    following a redirect, is the client's own work and not part of this
    model. *)
Record HttpRequest := {
  client : Client;
  method : Method;
  url : jsstring;
  body : option JsValue
}.

(** What happens to a request on the wire: a response with a status and a
    decoded body, or no response at all (connection refused, timeout, DNS
    failure) with the text of the transport error. *)
Inductive HttpOutcome :=
| HttpResponse (status : N) (data : JsValue)
| TransportFailure (message : jsstring).

(** The backends: the outcome with which the client settles the [n]-th call
    of the process. *)
Definition Network := nat -> HttpRequest -> HttpOutcome.

(** An [async] computation: it reads the network, appends the calls of the
    client it makes to the log of the process and completes normally or
    throws. *)
Definition Async (A : Type) :=
  Network -> list HttpRequest -> list HttpRequest * Completion A.

Definition ret {A} (a : A) : Async A := fun _ log => (log, Normal a).

Definition throw {A} (e : Thrown) : Async A := fun _ log => (log, Throw e).

Definition bind {A B} (m : Async A) (k : A -> Async B) : Async B :=
  fun net log =>
    match m net log with
    | (log', Normal a) => k a net log'
    | (log', Throw e) => (log', Throw e)
    end.

(** [try { m } catch (error) { handler }]. *)
Definition try_catch {A} (m : Async A) (handler : Thrown -> Async A) : Async A :=
  fun net log =>
    match m net log with
    | (log', Normal a) => (log', Normal a)
    | (log', Throw e) => handler e net log'
    end.

(** A synchronous expression inside an [async] function. *)
Definition lift {A} (c : Completion A) : Async A := fun _ log => (log, c).

(** A call of the client.  The call is logged as the code makes it, once,
    with the path as passed.  The status is the one the client settles
    with: from 200 to 299 it resolves the promise with the response (axios'
    default [validateStatus]); any other status rejects it with an error
    that carries the response, and a transport failure with an error that
    has none. *)
Definition request (req : HttpRequest) : Async AxiosResponse :=
  fun net log =>
    (log ++ [req],
     match net (List.length log) req with
     | HttpResponse st d =>
         if (200 <=? st) && (st <? 300)
         then Normal {| status := st; data := d |}
         else Throw (AxiosError (lit "Request failed with status code " ++ decimal st)
                       (Some {| status := st; data := d |}))
     | TransportFailure msg => Throw (AxiosError msg None)
     end).

Definition axios_get (c : Client) (path : jsstring) : Async AxiosResponse :=
  request {| client := c; method := GET; url := path; body := None |}.

Definition axios_post (c : Client) (path : jsstring) (payload : JsValue)
  : Async AxiosResponse :=
  request {| client := c; method := POST; url := path; body := Some payload |}.

Definition axios_put (c : Client) (path : jsstring) (payload : JsValue)
  : Async AxiosResponse :=
  request {| client := c; method := PUT; url := path; body := Some payload |}.

Definition axios_delete (c : Client) (path : jsstring) : Async AxiosResponse :=
  request {| client := c; method := DELETE; url := path; body := None |}.

(** [axios.isAxiosError(error)]. *)
Definition isAxiosError (e : Thrown) : bool :=
  match e with AxiosError _ _ => true | _ => false end.

(** [error.message]; the SDK's [McpError] prefixes the message it is built
    with. *)
Definition error_message (e : Thrown) : jsstring :=
  match e with
  | TypeError m | SyntaxError m | Error m | AxiosError m _ => m
  | McpError c m =>
      lit "MCP error -" ++ decimal (Z.to_N (- code_number c)) ++ lit ": " ++ m
  end.

(** [error.response?.data?.message || error.message] of an axios error. *)
Definition failure_message (e : Thrown) : Completion JsValue :=
  bindC (match e with
         | AxiosError _ (Some r) => get_opt (data r) (lit "message")
         | _ => Normal JUndefined
         end)
    (fun m => Normal (if truthy m then m else JString (error_message e))).

End Axios.

Module AsyncNotations.
Notation "x <- m ;; k" := (Axios.bind m (fun x => k))
  (at level 61, m at next level, right associativity).
Notation "a &&& b" := (and_then a b) (at level 40, left associativity).
Notation "a ||| b" := (or_else a b) (at level 50, left associativity).
End AsyncNotations.

(* ===================================================================== *)
(** ** Argument guards *)
(* ===================================================================== *)

Module Guards.
Import AsyncNotations.

(** [typeof e === 'name'], where evaluating [e] may throw. *)
Definition typeof_is (name : string) (e : Completion JsValue) : Completion bool :=
  bindC e (fun v => Normal (jsstring_eqb (typeof v) (lit name))).

(** [e === undefined]. *)
Definition undefined_is (e : Completion JsValue) : Completion bool :=
  bindC e (fun v => Normal (is_undefined v)).

(** [typeof args === 'object' && args !== null], the head of every guard. *)
Definition is_object (args : JsValue) : Completion bool :=
  typeof_is "object" (Normal args) &&& Normal (negb (is_null args)).

Definition field (args : JsValue) (key : string) : Completion JsValue :=
  get args (lit key).

(** The guards of [server.js] and, word for word, of [mt5-server.ts]. *)
Definition isAccountInfoArg (args : JsValue) : Completion bool :=
  is_object args &&&
  (undefined_is (field args "account") ||| typeof_is "number" (field args "account")).

Definition isSymbolPriceArg (args : JsValue) : Completion bool :=
  is_object args &&&
  typeof_is "string" (field args "symbol").

Definition isOrderArg (args : JsValue) : Completion bool :=
  is_object args &&&
  typeof_is "string" (field args "symbol") &&&
  typeof_is "string" (field args "type") &&&
  typeof_is "number" (field args "volume").

Definition isModifyOrderArg (args : JsValue) : Completion bool :=
  is_object args &&&
  typeof_is "number" (field args "ticket").

Definition isCloseOrderArg (args : JsValue) : Completion bool :=
  is_object args &&&
  typeof_is "number" (field args "ticket").

(** The guards of the optimization tools, in [mt5-server.ts] only. *)
Definition isRunOptimizationArg (args : JsValue) : Completion bool :=
  is_object args &&&
  typeof_is "string" (field args "symbol") &&&
  typeof_is "string" (field args "ea") &&&
  typeof_is "string" (field args "period") &&&
  typeof_is "string" (field args "date_from") &&&
  typeof_is "string" (field args "date_to") &&&
  typeof_is "number" (field args "deposit") &&&
  typeof_is "object" (field args "params").

Definition isOptimizationIdArg (args : JsValue) : Completion bool :=
  is_object args &&& typeof_is "string" (field args "optimization_id").

Definition isSaveOptimizationResultsArg (args : JsValue) : Completion bool :=
  is_object args &&& typeof_is "string" (field args "optimization_id").

End Guards.

(* ===================================================================== *)
(** ** The tool catalogue *)
(* ===================================================================== *)

Module Registry.

(** One entry of [inputSchema.properties]. *)
Record ParamSchema := {
  key : jsstring;
  type : jsstring;
  param_description : jsstring;
  enum : option (list jsstring);
  default : option jsstring
}.

(** One entry of the [tools] array. *)
Record Tool := {
  name : jsstring;
  description : jsstring;
  properties : list ParamSchema;
  required : list jsstring
}.

(** The double quote inside a description. *)
Definition dq : jsstring := [34].

Definition get_account_info : Tool := {|
  name := lit "get_account_info";
  description := lit "Get account information from MetaTrader 5";
  properties := [
    {| key := lit "account"; type := lit "number";
       param_description := lit "Account number (optional, uses default if not provided)";
       enum := None; default := None |} ];
  required := []
|}.

Definition get_symbol_price : Tool := {|
  name := lit "get_symbol_price";
  description := lit "Get current price for a symbol";
  properties := [
    {| key := lit "symbol"; type := lit "string";
       param_description := lit "Symbol name (e.g., " ++ dq ++ lit "EURUSD" ++ dq ++ lit ", " ++ dq ++ lit "BTCUSD" ++ dq ++ lit ")";
       enum := None; default := None |} ];
  required := [lit "symbol"]
|}.

Definition get_open_positions : Tool := {|
  name := lit "get_open_positions";
  description := lit "Get all open positions";
  properties := [];
  required := []
|}.

Definition get_pending_orders : Tool := {|
  name := lit "get_pending_orders";
  description := lit "Get all pending orders";
  properties := [];
  required := []
|}.

Definition create_order : Tool := {|
  name := lit "create_order";
  description := lit "Create a new trading order";
  properties := [
    {| key := lit "symbol"; type := lit "string";
       param_description := lit "Symbol name (e.g., " ++ dq ++ lit "EURUSD" ++ dq ++ lit ")";
       enum := None; default := None |};
    {| key := lit "type"; type := lit "string";
       param_description := lit "Order type: " ++ dq ++ lit "BUY" ++ dq ++ lit ", " ++ dq ++ lit "SELL" ++ dq ++ lit ", " ++ dq ++ lit "BUYLIMIT" ++ dq ++ lit ", " ++ dq ++ lit "SELLLIMIT" ++ dq ++ lit ", " ++ dq ++ lit "BUYSTOP" ++ dq ++ lit ", " ++ dq ++ lit "SELLSTOP" ++ dq;
       enum := None; default := None |};
    {| key := lit "volume"; type := lit "number";
       param_description := lit "Order volume in lots";
       enum := None; default := None |};
    {| key := lit "price"; type := lit "number";
       param_description := lit "Order price (required for limit and stop orders)";
       enum := None; default := None |};
    {| key := lit "sl"; type := lit "number";
       param_description := lit "Stop loss price (optional)";
       enum := None; default := None |};
    {| key := lit "tp"; type := lit "number";
       param_description := lit "Take profit price (optional)";
       enum := None; default := None |};
    {| key := lit "comment"; type := lit "string";
       param_description := lit "Order comment (optional)";
       enum := None; default := None |} ];
  required := [lit "symbol"; lit "type"; lit "volume"]
|}.

Definition modify_order : Tool := {|
  name := lit "modify_order";
  description := lit "Modify stop loss or take profit for an order or position";
  properties := [
    {| key := lit "ticket"; type := lit "number";
       param_description := lit "Order or position ticket number";
       enum := None; default := None |};
    {| key := lit "sl"; type := lit "number";
       param_description := lit "New stop loss price";
       enum := None; default := None |};
    {| key := lit "tp"; type := lit "number";
       param_description := lit "New take profit price";
       enum := None; default := None |} ];
  required := [lit "ticket"]
|}.

Definition close_position : Tool := {|
  name := lit "close_position";
  description := lit "Close an open position";
  properties := [
    {| key := lit "ticket"; type := lit "number";
       param_description := lit "Position ticket number";
       enum := None; default := None |} ];
  required := [lit "ticket"]
|}.

Definition delete_order : Tool := {|
  name := lit "delete_order";
  description := lit "Delete a pending order";
  properties := [
    {| key := lit "ticket"; type := lit "number";
       param_description := lit "Order ticket number";
       enum := None; default := None |} ];
  required := [lit "ticket"]
|}.

Definition run_optimization : Tool := {|
  name := lit "run_optimization";
  description := lit "Start a strategy optimization run via the MT5 Flask API bridge";
  properties := [
    {| key := lit "symbol"; type := lit "string";
       param_description := lit "Symbol to optimize (e.g., " ++ dq ++ lit "EURUSD" ++ dq ++ lit ")";
       enum := None; default := None |};
    {| key := lit "ea"; type := lit "string";
       param_description := lit "Expert Advisor file (e.g., " ++ dq ++ lit "MyExpert.ex5" ++ dq ++ lit ")";
       enum := None; default := None |};
    {| key := lit "period"; type := lit "string";
       param_description := lit "Timeframe (e.g., " ++ dq ++ lit "H1" ++ dq ++ lit ")";
       enum := None; default := None |};
    {| key := lit "date_from"; type := lit "string";
       param_description := lit "Start date (YYYY-MM-DD)";
       enum := None; default := None |};
    {| key := lit "date_to"; type := lit "string";
       param_description := lit "End date (YYYY-MM-DD)";
       enum := None; default := None |};
    {| key := lit "deposit"; type := lit "number";
       param_description := lit "Initial deposit";
       enum := None; default := None |};
    {| key := lit "params"; type := lit "object";
       param_description := lit "Optimization parameters (ranges/steps)";
       enum := None; default := None |};
    {| key := lit "optimization_mode"; type := lit "string";
       param_description := lit "Optimization mode (" ++ dq ++ lit "genetic" ++ dq ++ lit " or " ++ dq ++ lit "all_possible" ++ dq ++ lit ")";
       enum := Some [lit "genetic"; lit "all_possible"]; default := Some (lit "genetic") |};
    {| key := lit "other_options"; type := lit "object";
       param_description := lit "Additional options (optional)";
       enum := None; default := None |} ];
  required := [lit "symbol"; lit "ea"; lit "period"; lit "date_from"; lit "date_to"; lit "deposit"; lit "params"]
|}.

Definition get_optimization_status : Tool := {|
  name := lit "get_optimization_status";
  description := lit "Query the status of a running optimization";
  properties := [
    {| key := lit "optimization_id"; type := lit "string";
       param_description := lit "Optimization run ID";
       enum := None; default := None |} ];
  required := [lit "optimization_id"]
|}.

Definition get_optimization_results : Tool := {|
  name := lit "get_optimization_results";
  description := lit "Fetch results/statistics of a completed optimization";
  properties := [
    {| key := lit "optimization_id"; type := lit "string";
       param_description := lit "Optimization run ID";
       enum := None; default := None |} ];
  required := [lit "optimization_id"]
|}.

Definition save_optimization_results : Tool := {|
  name := lit "save_optimization_results";
  description := lit "Save optimization results to a file (CSV/JSON)";
  properties := [
    {| key := lit "optimization_id"; type := lit "string";
       param_description := lit "Optimization run ID";
       enum := None; default := None |};
    {| key := lit "format"; type := lit "string";
       param_description := lit "File format";
       enum := Some [lit "csv"; lit "json"]; default := Some (lit "json") |};
    {| key := lit "path"; type := lit "string";
       param_description := lit "File path to save results (optional)";
       enum := None; default := None |} ];
  required := [lit "optimization_id"]
|}.


(** The [tools] array of [server.js]. *)
Definition trading_tools : list Tool :=
  [get_account_info; get_symbol_price; get_open_positions; get_pending_orders;
   create_order; modify_order; close_position; delete_order].

(** The tools that [mt5-server.ts] lists: the same eight and the four
    optimization tools. *)
Definition tools : list Tool :=
  trading_tools ++
  [run_optimization; get_optimization_status; get_optimization_results;
   save_optimization_results].

(** The object literal of an entry, as the list-tools reply carries it. *)
Definition param_js (p : ParamSchema) : jsstring * JsValue :=
  (key p,
   JObject ([(lit "type", JString (type p))]
            ++ match enum p with
               | Some values => [(lit "enum", JArray (map JString values))]
               | None => []
               end
            ++ [(lit "description", JString (param_description p))]
            ++ match default p with
               | Some d => [(lit "default", JString d)]
               | None => []
               end)).

Definition tool_js (t : Tool) : JsValue :=
  JObject [(lit "name", JString (name t));
           (lit "description", JString (description t));
           (lit "inputSchema",
            JObject [(lit "type", JString (lit "object"));
                     (lit "properties", JObject (map param_js (properties t)));
                     (lit "required", JArray (map JString (required t)))])].

End Registry.

(* ===================================================================== *)
(** ** What both servers share *)
(* ===================================================================== *)

Module Shared.
Import Axios AsyncNotations.

(** [{ content: [{ type: 'text', text: JSON.stringify(response.data, null, 2) }] }] *)
Definition text_block (text : JsValue) : JsValue :=
  JObject [(lit "type", JString (lit "text")); (lit "text", text)].

Definition tool_result (response : AxiosResponse) : JsValue :=
  JObject [(lit "content", JArray [text_block (JSON_stringify 2 (data response))])].

(** The body of [if (axios.isAxiosError(error))]: the message is read off
    the error, converted by the template literal and returned in a block
    marked [isError]. *)
Definition api_error_result (error : Thrown) : Async JsValue :=
  message <- lift (Axios.failure_message error) ;;
  shown <- lift (ToString message) ;;
  ret (JObject [(lit "content",
                 JArray [text_block (JString (lit "MetaTrader 5 API error: " ++ shown))]);
                (lit "isError", JBool true)]).

(** [switch (v) { case 'label': return body; ... default: return d; }] *)
Fixpoint switch {A} (v : JsValue) (cases : list (jsstring * Async A)) (default : Async A)
  : Async A :=
  match cases with
  | [] => default
  | (label, body) :: rest => if is_string label v then body else switch v rest default
  end.

End Shared.

(* ===================================================================== *)
(** ** src/mt5-server.ts *)
(* ===================================================================== *)

Module Mt5Server.
Import Axios AsyncNotations Guards Shared.

Definition handleGetAccountInfo (args : JsValue) : Async JsValue :=
  valid <- lift (isAccountInfoArg args) ;;
  if negb valid
  then throw (McpError InvalidParams (lit "Invalid account info arguments"))
  else
    account <- lift (field args "account") ;;
    endpoint <- (if truthy account
                 then shown <- lift (ToString account) ;; ret (lit "/account/" ++ shown)
                 else ret (lit "/account")) ;;
    response <- axios_get apiClient endpoint ;;
    ret (tool_result response).

Definition handleGetSymbolPrice (args : JsValue) : Async JsValue :=
  valid <- lift (isSymbolPriceArg args) ;;
  if negb valid
  then throw (McpError InvalidParams (lit "Invalid symbol price arguments"))
  else
    symbol <- lift (field args "symbol") ;;
    shown <- lift (ToString symbol) ;;
    response <- axios_get apiClient (lit "/symbol/" ++ shown) ;;
    ret (tool_result response).

Definition handleGetOpenPositions : Async JsValue :=
  response <- axios_get apiClient (lit "/positions") ;;
  ret (tool_result response).

Definition handleGetPendingOrders : Async JsValue :=
  response <- axios_get apiClient (lit "/orders") ;;
  ret (tool_result response).

Definition handleCreateOrder (args : JsValue) : Async JsValue :=
  valid <- lift (isOrderArg args) ;;
  if negb valid
  then throw (McpError InvalidParams (lit "Invalid order arguments"))
  else
    response <- axios_post apiClient (lit "/order") args ;;
    ret (tool_result response).

Definition handleModifyOrder (args : JsValue) : Async JsValue :=
  valid <- lift (isModifyOrderArg args) ;;
  if negb valid
  then throw (McpError InvalidParams (lit "Invalid modify order arguments"))
  else
    ticket <- lift (field args "ticket") ;;
    shown <- lift (ToString ticket) ;;
    sl <- lift (field args "sl") ;;
    tp <- lift (field args "tp") ;;
    response <- axios_put apiClient (lit "/order/" ++ shown)
                  (JObject [(lit "sl", sl); (lit "tp", tp)]) ;;
    ret (tool_result response).

Definition handleClosePosition (args : JsValue) : Async JsValue :=
  valid <- lift (isCloseOrderArg args) ;;
  if negb valid
  then throw (McpError InvalidParams (lit "Invalid close position arguments"))
  else
    ticket <- lift (field args "ticket") ;;
    shown <- lift (ToString ticket) ;;
    response <- axios_delete apiClient (lit "/position/" ++ shown) ;;
    ret (tool_result response).

Definition handleDeleteOrder (args : JsValue) : Async JsValue :=
  valid <- lift (isCloseOrderArg args) ;;
  if negb valid
  then throw (McpError InvalidParams (lit "Invalid delete order arguments"))
  else
    ticket <- lift (field args "ticket") ;;
    shown <- lift (ToString ticket) ;;
    response <- axios_delete apiClient (lit "/order/" ++ shown) ;;
    ret (tool_result response).

Definition handleRunOptimization (args : JsValue) : Async JsValue :=
  valid <- lift (isRunOptimizationArg args) ;;
  if negb valid
  then throw (McpError InvalidParams (lit "Invalid run_optimization arguments"))
  else
    response <- axios_post flaskClient (lit "/optimize") args ;;
    ret (tool_result response).

Definition handleGetOptimizationStatus (args : JsValue) : Async JsValue :=
  valid <- lift (isOptimizationIdArg args) ;;
  if negb valid
  then throw (McpError InvalidParams (lit "Invalid get_optimization_status arguments"))
  else
    id <- lift (field args "optimization_id") ;;
    shown <- lift (ToString id) ;;
    response <- axios_get flaskClient (lit "/optimization_status/" ++ shown) ;;
    ret (tool_result response).

Definition handleGetOptimizationResults (args : JsValue) : Async JsValue :=
  valid <- lift (isOptimizationIdArg args) ;;
  if negb valid
  then throw (McpError InvalidParams (lit "Invalid get_optimization_results arguments"))
  else
    id <- lift (field args "optimization_id") ;;
    shown <- lift (ToString id) ;;
    response <- axios_get flaskClient (lit "/optimization_results/" ++ shown) ;;
    ret (tool_result response).

Definition handleSaveOptimizationResults (args : JsValue) : Async JsValue :=
  valid <- lift (isSaveOptimizationResultsArg args) ;;
  if negb valid
  then throw (McpError InvalidParams (lit "Invalid save_optimization_results arguments"))
  else
    response <- axios_post flaskClient (lit "/save_results") args ;;
    ret (tool_result response).

(** The handler registered for [ListToolsRequestSchema]. *)
Definition listTools : Async JsValue :=
  ret (JObject [(lit "tools", JArray (map Registry.tool_js Registry.tools))]).

(** [request.params.arguments], read when the chosen case calls its handler. *)
Definition with_arguments (request : JsValue) (handler : JsValue -> Async JsValue)
  : Async JsValue :=
  params <- lift (get request (lit "params")) ;;
  arguments <- lift (get params (lit "arguments")) ;;
  handler arguments.

(** The [catch] clause of the call-tool handler. *)
Definition on_error (error : Thrown) : Async JsValue :=
  if isAxiosError error then api_error_result error
  else
    match error with
    | McpError _ _ => throw error
    | _ => throw (McpError InternalError (lit "Unexpected error: " ++ error_message error))
    end.

(** The [switch] inside the [try] of the call-tool handler, on the value
    [name] of [request.params.name]. *)
Definition route (request name : JsValue) : Async JsValue :=
  switch name
    [(lit "get_account_info", with_arguments request handleGetAccountInfo);
     (lit "get_symbol_price", with_arguments request handleGetSymbolPrice);
     (lit "get_open_positions", handleGetOpenPositions);
     (lit "get_pending_orders", handleGetPendingOrders);
     (lit "create_order", with_arguments request handleCreateOrder);
     (lit "modify_order", with_arguments request handleModifyOrder);
     (lit "close_position", with_arguments request handleClosePosition);
     (lit "delete_order", with_arguments request handleDeleteOrder);
     (lit "run_optimization", with_arguments request handleRunOptimization);
     (lit "get_optimization_status", with_arguments request handleGetOptimizationStatus);
     (lit "get_optimization_results", with_arguments request handleGetOptimizationResults);
     (lit "save_optimization_results",
      with_arguments request handleSaveOptimizationResults)]
    (shown <- lift (ToString name) ;;
     throw (McpError MethodNotFound (lit "Unknown tool: " ++ shown))).

Definition dispatch (request : JsValue) : Async JsValue :=
  params <- lift (get request (lit "params")) ;;
  name <- lift (get params (lit "name")) ;;
  route request name.

(** The handler registered for [CallToolRequestSchema].  The SDK calls it
    with the decoded request and sends what it returns as the result of the
    call; what it throws, the SDK sends as the error of the call. *)
Definition callTool (request : JsValue) : Async JsValue :=
  try_catch (dispatch request) on_error.

End Mt5Server.

(* ===================================================================== *)
(** ** server.js *)
(* ===================================================================== *)

Module ServerJs.
Import Axios AsyncNotations Guards Shared.

Definition serverInfo : JsValue :=
  JObject [(lit "name", JString (lit "metatrader5-mcp-server"));
           (lit "version", JString (lit "1.0.0"))].

Definition tools : JsValue := JArray (map Registry.tool_js Registry.trading_tools).

(** [try { m } catch (error) { throw error; }], which every handler wraps
    around its request. *)
Definition rethrowing {A} (m : Async A) : Async A :=
  try_catch m (fun error => throw error).

Definition handleGetAccountInfo (args : JsValue) : Async JsValue :=
  valid <- lift (isAccountInfoArg args) ;;
  if negb valid
  then throw (Error (lit "Invalid account info arguments"))
  else
    rethrowing
      (account <- lift (field args "account") ;;
       endpoint <- (if truthy account
                    then shown <- lift (ToString account) ;; ret (lit "/account/" ++ shown)
                    else ret (lit "/account")) ;;
       response <- axios_get apiClient endpoint ;;
       ret (tool_result response)).

Definition handleGetSymbolPrice (args : JsValue) : Async JsValue :=
  valid <- lift (isSymbolPriceArg args) ;;
  if negb valid
  then throw (Error (lit "Invalid symbol price arguments"))
  else
    rethrowing
      (symbol <- lift (field args "symbol") ;;
       shown <- lift (ToString symbol) ;;
       response <- axios_get apiClient (lit "/symbol/" ++ shown) ;;
       ret (tool_result response)).

Definition handleGetOpenPositions : Async JsValue :=
  rethrowing
    (response <- axios_get apiClient (lit "/positions") ;;
     ret (tool_result response)).

Definition handleGetPendingOrders : Async JsValue :=
  rethrowing
    (response <- axios_get apiClient (lit "/orders") ;;
     ret (tool_result response)).

Definition handleCreateOrder (args : JsValue) : Async JsValue :=
  valid <- lift (isOrderArg args) ;;
  if negb valid
  then throw (Error (lit "Invalid order arguments"))
  else
    rethrowing
      (response <- axios_post apiClient (lit "/order") args ;;
       ret (tool_result response)).

Definition handleModifyOrder (args : JsValue) : Async JsValue :=
  valid <- lift (isModifyOrderArg args) ;;
  if negb valid
  then throw (Error (lit "Invalid modify order arguments"))
  else
    rethrowing
      (ticket <- lift (field args "ticket") ;;
       shown <- lift (ToString ticket) ;;
       sl <- lift (field args "sl") ;;
       tp <- lift (field args "tp") ;;
       response <- axios_put apiClient (lit "/order/" ++ shown)
                     (JObject [(lit "sl", sl); (lit "tp", tp)]) ;;
       ret (tool_result response)).

Definition handleClosePosition (args : JsValue) : Async JsValue :=
  valid <- lift (isCloseOrderArg args) ;;
  if negb valid
  then throw (Error (lit "Invalid close position arguments"))
  else
    rethrowing
      (ticket <- lift (field args "ticket") ;;
       shown <- lift (ToString ticket) ;;
       response <- axios_delete apiClient (lit "/position/" ++ shown) ;;
       ret (tool_result response)).

Definition handleDeleteOrder (args : JsValue) : Async JsValue :=
  valid <- lift (isCloseOrderArg args) ;;
  if negb valid
  then throw (Error (lit "Invalid delete order arguments"))
  else
    rethrowing
      (ticket <- lift (field args "ticket") ;;
       shown <- lift (ToString ticket) ;;
       response <- axios_delete apiClient (lit "/order/" ++ shown) ;;
       ret (tool_result response)).

(** [{ jsonrpc: '2.0', id: request.id, result }] *)
Definition result_envelope (request result : JsValue) : Async JsValue :=
  id <- lift (get request (lit "id")) ;;
  ret (JObject [(lit "jsonrpc", JString (lit "2.0")); (lit "id", id);
                (lit "result", result)]).

(** [{ jsonrpc: '2.0', id: request.id, error: { code, message } }] *)
Definition error_envelope (request : JsValue) (code : Z) (message : Async jsstring)
  : Async JsValue :=
  id <- lift (get request (lit "id")) ;;
  text <- message ;;
  ret (JObject [(lit "jsonrpc", JString (lit "2.0")); (lit "id", id);
                (lit "error",
                 JObject [(lit "code", JNumber (int code));
                          (lit "message", JString text)])]).

(** A [case] of the inner switch: the handler's result is assigned, the
    switch is left and the result returned in its envelope. *)
Definition answered (request : JsValue) (handler : Async JsValue) : Async JsValue :=
  result <- handler ;;
  result_envelope request result.

Definition with_arguments (request : JsValue) (handler : JsValue -> Async JsValue)
  : Async JsValue :=
  params <- lift (get request (lit "params")) ;;
  arguments <- lift (get params (lit "arguments")) ;;
  handler arguments.

(** The [catch] clause of the [call_tool] case. *)
Definition on_error (request : JsValue) (error : Thrown) : Async JsValue :=
  if isAxiosError error then
    result <- api_error_result error ;;
    result_envelope request result
  else
    error_envelope request (-32603)
      (ret (lit "Unexpected error: " ++ error_message error)).

(** The [switch] inside the [try] of the [call_tool] case, on the value
    [name] of [request.params.name]. *)
Definition route (request name : JsValue) : Async JsValue :=
  switch name
    [(lit "get_account_info",
      answered request (with_arguments request handleGetAccountInfo));
     (lit "get_symbol_price",
      answered request (with_arguments request handleGetSymbolPrice));
     (lit "get_open_positions", answered request handleGetOpenPositions);
     (lit "get_pending_orders", answered request handleGetPendingOrders);
     (lit "create_order", answered request (with_arguments request handleCreateOrder));
     (lit "modify_order", answered request (with_arguments request handleModifyOrder));
     (lit "close_position",
      answered request (with_arguments request handleClosePosition));
     (lit "delete_order", answered request (with_arguments request handleDeleteOrder))]
    (error_envelope request (-32601)
       (shown <- lift (ToString name) ;; ret (lit "Unknown tool: " ++ shown))).

Definition dispatch (request : JsValue) : Async JsValue :=
  params <- lift (get request (lit "params")) ;;
  name <- lift (get params (lit "name")) ;;
  route request name.

Definition call_tool (request : JsValue) : Async JsValue :=
  try_catch (dispatch request) (on_error request).

Definition handleMcpRequest (request : JsValue) : Async JsValue :=
  method <- lift (get request (lit "method")) ;;
  switch method
    [(lit "list_tools", result_envelope request (JObject [(lit "tools", tools)]));
     (lit "call_tool", call_tool request);
     (lit "initialize",
      result_envelope request
        (JObject [(lit "success", JBool true);
                  (lit "serverInfo", serverInfo);
                  (lit "capabilities", JObject [(lit "tools", JObject [])])]))]
    (error_envelope request (-32601)
       (shown <- lift (ToString method) ;; ret (lit "Method not found: " ++ shown))).

(** *** Framing on standard input *)

Definition header_name : jsstring := lit "Content-Length: ".
Definition blank_line : jsstring := [13; 10; 13; 10].

Fixpoint take_digits (s : jsstring) : jsstring :=
  match s with
  | c :: rest => if is_digit c then c :: take_digits rest else []
  | [] => []
  end.

(** The regular expression [Content-Length: (\d+)\r\n\r\n] tried at the
    start of [s]: the capture and the length of the whole match.  [\d+] is
    greedy, and giving a digit back cannot help: a digit is not [\r]. *)
Definition match_here (s : jsstring) : option (jsstring * nat) :=
  match strip_prefix header_name s with
  | None => None
  | Some rest =>
      match take_digits rest with
      | [] => None
      | digits =>
          match strip_prefix blank_line (skipn (List.length digits) rest) with
          | Some _ =>
              Some (digits, List.length header_name + List.length digits
                            + List.length blank_line)%nat
          | None => None
          end
      end
  end.

(** [s.match(/Content-Length: (\d+)\r\n\r\n/)]: the leftmost match, as
    ([match.index], [match[1]], [match[0].length]), or [None] for [null].
    [index] counts the code units already passed over. *)
Fixpoint regex_match (index : nat) (s : jsstring) : option (nat * jsstring * nat) :=
  match match_here s with
  | Some (digits, len) => Some (index, digits, len)
  | None =>
      match s with
      | [] => None
      | _ :: rest => regex_match (S index) rest
      end
  end.

(** [s.substring(from, to)] for [from <= to <= s.length]. *)
Definition substring (from to : nat) (s : jsstring) : jsstring :=
  firstn (to - from) (skipn from s).

(** The [while (true)] loop of the [data] listener, for a loop body [body]
    run on each [content] cut out of the buffer.  Each turn that goes on
    shortens the buffer, so [fuel] above its length is never used up. *)
Fixpoint drain {S : Type} (body : jsstring -> S -> S) (fuel : nat)
    (buffer : jsstring) (st : S) : jsstring * S :=
  match fuel with
  | O => (buffer, st)
  | Datatypes.S fuel' =>
      match regex_match 0 buffer with
      | None => (buffer, st)
      | Some (index, digits, len) =>
          let contentLength := parseInt digits in
          let headerEndIndex := (index + len)%nat in
          let contentEndIndex := N.of_nat headerEndIndex + contentLength in
          if N.of_nat (List.length buffer) <? contentEndIndex then (buffer, st)
          else
            let content := substring headerEndIndex (N.to_nat contentEndIndex) buffer in
            let buffer' := skipn (N.to_nat contentEndIndex) buffer in
            drain body fuel' buffer' (body content st)
      end
  end.

(** The listener [process.stdin.on('data', ...)]: the chunk is decoded and
    appended to the buffer, then the loop runs.  The listener's turns are
    taken one after the other. *)
Definition on_data {S : Type} (body : jsstring -> S -> S)
    (state : jsstring * S) (chunk : list byte) : jsstring * S :=
  let buffer := fst state ++ utf8_decode chunk in
  drain body (Datatypes.S (List.length buffer)) buffer (snd state).

(** The chunks of a stream, from an empty buffer. *)
Definition feed {S : Type} (body : jsstring -> S -> S) (st : S)
    (chunks : list (list byte)) : jsstring * S :=
  fold_left (on_data body) chunks ([], st).

(** What the process has done: the strings written to standard output,
    the errors reported by [console.error] and the HTTP requests issued. *)
Record Process := {
  stdout : list jsstring;
  stderr : list Thrown;
  requests : list HttpRequest
}.

(** [`Content-Length: ${responseContent.length}\r\n\r\n` + responseContent] *)
Definition frame (responseContent : jsstring) : jsstring :=
  header_name ++ decimal (N.of_nat (List.length responseContent)) ++ blank_line
  ++ responseContent.

(** The [try]/[catch] inside the loop, for the decoder [JSON_parse] of the
    engine and the backends [net]. *)
Definition serve (JSON_parse : jsstring -> Completion JsValue) (net : Network)
    (content : jsstring) (p : Process) : Process :=
  match JSON_parse content with
  | Throw error =>
      {| stdout := stdout p; stderr := stderr p ++ [error]; requests := requests p |}
  | Normal request =>
      match handleMcpRequest request net (requests p) with
      | (log, Throw error) =>
          {| stdout := stdout p; stderr := stderr p ++ [error]; requests := log |}
      | (log, Normal response) =>
          match JSON_stringify 0 response with
          | JString responseContent =>
              {| stdout := stdout p ++ [frame responseContent];
                 stderr := stderr p; requests := log |}
          | _ =>
              {| stdout := stdout p;
                 stderr := stderr p ++ [TypeError (lit
                   "Cannot read properties of undefined (reading 'length')")];
                 requests := log |}
          end
      end
  end.

(** The loop body that only records each [content] it is given. *)
Definition collect (content : jsstring) (seen : list jsstring) : list jsstring :=
  seen ++ [content].

End ServerJs.

(** The framing as the specification words it: the header states the byte
    length of the serialized payload. *)
Module SpecFraming.

Definition encode (payload : jsstring) : list byte :=
  utf8_encode (ServerJs.header_name)
  ++ utf8_encode (decimal (N.of_nat (List.length (utf8_encode payload))))
  ++ utf8_encode ServerJs.blank_line
  ++ utf8_encode payload.

Definition encode_all (payloads : list jsstring) : list byte :=
  List.concat (map encode payloads).

End SpecFraming.

(* ===================================================================== *)
(** ** Notions used to state the properties *)
(* ===================================================================== *)

Module Notions.
Import Axios AsyncNotations Guards Shared.

(** What an argument guard looks at: [args] is an array or a plain object,
    and a property of it has a given [typeof]. *)
Definition object_like (args : JsValue) : bool :=
  match args with
  | JArray _ | JObject _ => true
  | _ => false
  end.

(** The value of a property of an array or object; [undefined] for what
    cannot be read. *)
Definition prop (args : JsValue) (key : string) : JsValue :=
  match get args (lit key) with
  | Normal v => v
  | Throw _ => JUndefined
  end.

Definition has_type (name : string) (args : JsValue) (key : string) : bool :=
  jsstring_eqb (typeof (prop args key)) (lit name).

(** The eight guards of the two files. *)
Definition guards : list (JsValue -> Completion bool) :=
  [isAccountInfoArg; isSymbolPriceArg; isOrderArg; isModifyOrderArg; isCloseOrderArg;
   isRunOptimizationArg; isOptimizationIdArg; isSaveOptimizationResultsArg].


(** A request that names a tool and gives it arguments:
    [request.params.name] and [request.params.arguments]. *)
Definition names_tool (request : JsValue) (name : jsstring) (args : JsValue) : Prop :=
  exists params,
    get request (lit "params") = Normal params
    /\ get params (lit "name") = Normal (JString name)
    /\ get params (lit "arguments") = Normal args.

(** A request as a client sends it:
    [{ jsonrpc, id, method, params: { name, arguments } }]. *)
Definition tool_call (id : JsValue) (method name : string) (args : JsValue) : JsValue :=
  JObject [(lit "jsonrpc", JString (lit "2.0"));
           (lit "id", id);
           (lit "method", JString (lit method));
           (lit "params",
            JObject [(lit "name", JString (lit name)); (lit "arguments", args)])].

(** [error.response?.data?.message || error.message], as a value. *)
Definition chosen_message (message : jsstring) (response : option AxiosResponse)
  : JsValue :=
  let m := match response with
           | Some r => prop (data r) "message"
           | None => JUndefined
           end in
  if truthy m then m else JString message.

(** The result that reports a failure of the backend. *)
Definition api_error_block (shown : jsstring) : JsValue :=
  JObject [(lit "content",
            JArray [text_block (JString (lit "MetaTrader 5 API error: " ++ shown))]);
           (lit "isError", JBool true)].

(** The envelopes of [server.js]. *)
Definition js_result (request result : JsValue) : JsValue :=
  JObject [(lit "jsonrpc", JString (lit "2.0")); (lit "id", prop request "id");
           (lit "result", result)].

Definition js_error (request : JsValue) (code : Z) (message : jsstring) : JsValue :=
  JObject [(lit "jsonrpc", JString (lit "2.0")); (lit "id", prop request "id");
           (lit "error",
            JObject [(lit "code", JNumber (int code));
                     (lit "message", JString message)])].

(** The request asks [server.js] for a tool call. *)
Definition is_tool_call (request : JsValue) : Prop :=
  get request (lit "method") = Normal (JString (lit "call_tool")).

(** A status that axios takes for a success. *)
Definition ok_status (st : N) : bool := (200 <=? st) && (st <? 300).

(** The two shapes of an envelope of [server.js]: it carries a [result] or
    an [error], never both. *)
Definition is_envelope (v : JsValue) : Prop :=
  exists request,
    (exists result, v = js_result request result)
    \/ (exists code message, v = js_error request code message).

(** What a handler does once its arguments are looked at: it throws
    without any request, it answers without any request, or it issues
    exactly one request and wraps the response. *)
Inductive Plan :=
| Reject (error : Thrown)
| Reply (answer : JsValue)
| Call (req : HttpRequest).

Definition run_plan (wrap : JsValue -> Async JsValue) (p : Plan) : Async JsValue :=
  match p with
  | Reject error => throw error
  | Reply answer => ret answer
  | Call req => response <- request req ;; wrap (tool_result response)
  end.

Definition local_error (p : Plan) : Prop :=
  match p with
  | Reject error => isAxiosError error = false
  | Reply answer => is_envelope answer
  | Call _ => True
  end.

Definition follows (m : Async JsValue) (wrap : JsValue -> Async JsValue) (p : Plan) : Prop :=
  local_error p /\ forall net log, m net log = run_plan wrap p net log.

(** A handler that checks its arguments: they fail the guard and it throws
    [invalid], or they pass and it issues one request. *)
Definition checked (guard : JsValue -> Completion bool) (args : JsValue)
    (invalid : Thrown) (m : Async JsValue) : Prop :=
  (guard args = Normal false /\ forall net log, m net log = (log, Throw invalid))
  \/ (guard args = Normal true
      /\ exists req, forall net log, m net log = run_plan ret (Call req) net log).

(** The backends put only printable values in the [message] of a body:
    anything but an object that carries an own [toString] entry (or an
    array holding one). *)
Definition readable (net : Network) : Prop :=
  forall n req st body m,
    net n req = HttpResponse st body ->
    get_opt body (lit "message") = Normal m ->
    exists shown, ToString m = Normal shown.

(** What the text of the error block reports for an outcome of the
    request: the non-empty [message] of the error body, or else the text of
    the client's error. *)
Definition reported (outcome : HttpOutcome) (text : jsstring) : Prop :=
  match outcome with
  | HttpResponse st body =>
      ok_status st = false
      /\ ((text <> [] /\ prop body "message" = JString text)
          \/ (prop body "message" = JUndefined
              /\ text = lit "Request failed with status code " ++ decimal st))
  | TransportFailure message => text = message
  end.

(** A backend that answers every request with HTTP 500 and the body
    [{"message":"MT5 not initialized"}]. *)
Definition not_initialized : Network :=
  fun _ _ => HttpResponse 500 (JObject [(lit "message", JString (lit "MT5 not initialized"))]).

(** A backend that answers every request with HTTP 200 and the body
    [{"ticket":123}]. *)
Definition ticket_123 : Network :=
  fun _ _ => HttpResponse 200 (JObject [(lit "ticket", JNumber (int 123))]).

(** The arguments [{symbol:"EURUSD", type:"BUY", volume:0.1}]. *)
Definition buy_eurusd : JsValue :=
  JObject [(lit "symbol", JString (lit "EURUSD"));
           (lit "type", JString (lit "BUY"));
           (lit "volume", JNumber (Finite false 1 (-1)))].

(** [JSON.stringify({ticket:123}, null, 2)]: three lines, the middle one
    indented by two spaces. *)
Definition ticket_123_text : jsstring :=
  lit "{" ++ [10] ++ lit "  " ++ [34] ++ lit "ticket" ++ [34] ++ lit ": 123" ++ [10] ++ lit "}".

(** The text [{"ticket":123}] without any white space. *)
Definition ticket_123_compact : jsstring :=
  lit "{" ++ [34] ++ lit "ticket" ++ [34] ++ lit ":123}".

(** The result of a tool call: its content blocks and its error mark. *)
Definition content_blocks (result : JsValue) : list JsValue :=
  match prop result "content" with
  | JArray blocks => blocks
  | _ => []
  end.

Definition error_marked (result : JsValue) : bool :=
  truthy (prop result "isError").

(** The envelope of [server.js] is tagged by the property it carries. *)
Definition success_tagged (envelope : JsValue) : Prop :=
  match envelope with
  | JObject properties =>
      has_own properties (lit "result") = true /\ has_own properties (lit "error") = false
  | _ => False
  end.

Definition error_tagged (envelope : JsValue) (code : Z) : Prop :=
  match envelope with
  | JObject properties =>
      has_own properties (lit "result") = false
      /\ prop (prop envelope "error") "code" = JNumber (int code)
  | _ => False
  end.

(** All code units of a string are ASCII. *)
Definition ascii_only (s : jsstring) : Prop := Forall (fun c => c < 128) s.

(** The loop of the listener on a whole buffer. *)
Definition process {S : Type} (body : jsstring -> S -> S) (buffer : jsstring) (st : S)
  : jsstring * S :=
  ServerJs.drain body (Datatypes.S (List.length buffer)) buffer st.

(** The length of the header of a frame. *)
Definition header_length (content : jsstring) : nat :=
  (List.length ServerJs.header_name
   + List.length (decimal (N.of_nat (List.length content)))
   + List.length ServerJs.blank_line)%nat.

(** A stand-in for [JSON.parse] that agrees with it on the two payloads of
    the examples: the text of an [initialize] request, and a text that is
    not JSON. *)
Definition initialize_text : jsstring :=
  lit "{" ++ [34] ++ lit "id" ++ [34] ++ lit ":1," ++ [34] ++ lit "method" ++ [34]
  ++ lit ":" ++ [34] ++ lit "initialize" ++ [34] ++ lit "}".

Definition parse_example (text : jsstring) : Completion JsValue :=
  if jsstring_eqb text initialize_text
  then Normal (JObject [(lit "id", JNumber (int 1));
                        (lit "method", JString (lit "initialize"))])
  else Throw (SyntaxError (lit "Unexpected token")).

(** The JSON text of the one-letter string U+00E9 (e with an acute accent),
    between its quotes: three code units, four bytes in UTF-8. *)
Definition e_acute_text : jsstring := [34; 233; 34].

(** The process before anything has arrived. *)
Definition idle : ServerJs.Process :=
  {| ServerJs.stdout := []; ServerJs.stderr := []; ServerJs.requests := [] |}.

(** A backend that answers every request with HTTP 500 and the body
    [{"message":{"toString":null}}]: valid JSON, with a message that no
    template literal can print. *)
Definition unprintable : Network :=
  fun _ _ =>
    HttpResponse 500 (JObject [(lit "message", JObject [(lit "toString", JNull)])]).

(** The text of an open brace and the letter U+00E9: two code units, three
    bytes in UTF-8, and no JSON. *)
Definition brace_e_acute : jsstring := [123; 233].

End Notions.

(* ===================================================================== *)
(** ** Notions used for the rest of the two files *)
(* ===================================================================== *)

Module Coverage.
Import Axios AsyncNotations Guards Shared Notions.

(** The reply of [server.js] answers this request: it carries the [id] of
    the request and a [result] or an [error]. *)
Definition echoes (request envelope : JsValue) : Prop :=
  (exists result, envelope = js_result request result)
  \/ (exists code message, envelope = js_error request code message).

(** The names in the [tools] array of a list-tools reply. *)
Definition tool_names (reply : JsValue) : list JsValue :=
  match prop reply "tools" with
  | JArray entries => map (fun entry => prop entry "name") entries
  | _ => []
  end.

(** [args[key]] for a key that is a value, [undefined] where nothing can
    be read. *)
Definition property (args : JsValue) (key : jsstring) : JsValue :=
  match get args key with
  | Normal v => v
  | Throw _ => JUndefined
  end.

(** Every parameter that the schema of the tool requires has, in the
    arguments, the [typeof] that the schema declares for it. *)
Definition required_typed (tool : Registry.Tool) (args : JsValue) : bool :=
  forallb
    (fun s => jsstring_eqb (typeof (property args (Registry.key s))) (Registry.type s))
    (filter (fun s => existsb (jsstring_eqb (Registry.key s)) (Registry.required tool))
       (Registry.properties tool)).

(** Both servers answer the call with this one call of the HTTP client. *)
Definition both_send (request : JsValue) (net : Network) (log : list HttpRequest)
    (req : HttpRequest) : Prop :=
  fst (Mt5Server.callTool request net log) = log ++ [req]
  /\ (is_tool_call request ->
      fst (ServerJs.handleMcpRequest request net log) = log ++ [req]).

End Coverage.

(* ===================================================================== *)
(** * Properties *)
(* ===================================================================== *)

Import Axios AsyncNotations Guards Shared Notions Coverage.

(** ** Strings *)

Lemma jsstring_eqb_eq (a b : jsstring) : jsstring_eqb a b = true <-> a = b.
Proof.
  revert b; induction a as [|x a IH]; intros [|y b]; simpl; split;
    try congruence; try discriminate.
  - intros H. apply andb_true_iff in H as [Hx Hab].
    apply N.eqb_eq in Hx. apply IH in Hab. congruence.
  - intros H. injection H as -> ->. rewrite N.eqb_refl. simpl. now apply IH.
Qed.

Lemma jsstring_eqb_refl (a : jsstring) : jsstring_eqb a a = true.
Proof. now apply jsstring_eqb_eq. Qed.

Lemma jsstring_eqb_neq (a b : jsstring) : a <> b -> jsstring_eqb a b = false.
Proof.
  intros H. destruct (jsstring_eqb a b) eqn:E; [|reflexivity].
  apply jsstring_eqb_eq in E. contradiction.
Qed.

(** ** The guards never throw *)

Lemma and_then_normal (a b : bool) : Normal a &&& Normal b = Normal (a && b).
Proof. now destruct a. Qed.

Lemma or_else_normal (a b : bool) : Normal a ||| Normal b = Normal (a || b).
Proof. now destruct a. Qed.

Lemma typeof_is_object_like (name : string) (args : JsValue) (key : string) :
  object_like args = true ->
  typeof_is name (field args key) = Normal (has_type name args key).
Proof.
  unfold has_type, prop, field, typeof_is.
  destruct args; simpl; try discriminate; reflexivity.
Qed.

Lemma undefined_is_object_like (args : JsValue) (key : string) :
  object_like args = true ->
  undefined_is (field args key) = Normal (is_undefined (prop args key)).
Proof.
  unfold prop, field, undefined_is.
  destruct args; simpl; try discriminate; reflexivity.
Qed.

Lemma is_object_spec (args : JsValue) : is_object args = Normal (object_like args).
Proof. now destruct args. Qed.

Lemma and_then_false (b : Completion bool) : Normal false &&& b = Normal false.
Proof. reflexivity. Qed.

Lemma and_then_false_l (a b : Completion bool) :
  a = Normal false -> a &&& b = Normal false.
Proof. now intros ->. Qed.

(** Rewrites a guard into the conjunction it computes. *)
Ltac guard_spec args :=
  rewrite is_object_spec;
  destruct (object_like args) eqn:Hobj;
  [ rewrite ?(typeof_is_object_like _ args _ Hobj),
            ?(undefined_is_object_like args _ Hobj),
            ?or_else_normal, ?and_then_normal;
    reflexivity
  | repeat (rewrite and_then_false); reflexivity ].

Lemma isAccountInfoArg_spec (args : JsValue) :
  isAccountInfoArg args =
  Normal (object_like args
          && (is_undefined (prop args "account") || has_type "number" args "account")).
Proof. unfold isAccountInfoArg. guard_spec args. Qed.

Lemma isSymbolPriceArg_spec (args : JsValue) :
  isSymbolPriceArg args = Normal (object_like args && has_type "string" args "symbol").
Proof. unfold isSymbolPriceArg. guard_spec args. Qed.

Lemma isOrderArg_spec (args : JsValue) :
  isOrderArg args =
  Normal (object_like args && has_type "string" args "symbol"
          && has_type "string" args "type" && has_type "number" args "volume").
Proof. unfold isOrderArg. guard_spec args. Qed.

Lemma isModifyOrderArg_spec (args : JsValue) :
  isModifyOrderArg args = Normal (object_like args && has_type "number" args "ticket").
Proof. unfold isModifyOrderArg. guard_spec args. Qed.

Lemma isCloseOrderArg_spec (args : JsValue) :
  isCloseOrderArg args = Normal (object_like args && has_type "number" args "ticket").
Proof. unfold isCloseOrderArg. guard_spec args. Qed.

Lemma isRunOptimizationArg_spec (args : JsValue) :
  isRunOptimizationArg args =
  Normal (object_like args && has_type "string" args "symbol"
          && has_type "string" args "ea" && has_type "string" args "period"
          && has_type "string" args "date_from" && has_type "string" args "date_to"
          && has_type "number" args "deposit" && has_type "object" args "params").
Proof. unfold isRunOptimizationArg. guard_spec args. Qed.

Lemma isOptimizationIdArg_spec (args : JsValue) :
  isOptimizationIdArg args =
  Normal (object_like args && has_type "string" args "optimization_id").
Proof. unfold isOptimizationIdArg. guard_spec args. Qed.

Lemma isSaveOptimizationResultsArg_spec (args : JsValue) :
  isSaveOptimizationResultsArg args =
  Normal (object_like args && has_type "string" args "optimization_id").
Proof. unfold isSaveOptimizationResultsArg. guard_spec args. Qed.

(** C10.  Every argument guard is total and pure: on every value (undefined,
    null, a boolean, a number, a string, an array or an object of any shape)
    it yields a boolean and does not throw; run inside a handler it issues no
    request and leaves the log of the process as it was. *)
Theorem C10_guards_total_and_pure (guard : JsValue -> Completion bool) (args : JsValue) :
  In guard guards ->
  exists b : bool,
    guard args = Normal b
    /\ forall net log, lift (guard args) net log = (log, Normal b).
Proof.
  intros Hin.
  assert (H : exists b, guard args = Normal b).
  { simpl in Hin.
    repeat (destruct Hin as [<- | Hin]; [eexists; solve
      [ apply isAccountInfoArg_spec | apply isSymbolPriceArg_spec | apply isOrderArg_spec
      | apply isModifyOrderArg_spec | apply isCloseOrderArg_spec
      | apply isRunOptimizationArg_spec | apply isOptimizationIdArg_spec
      | apply isSaveOptimizationResultsArg_spec ] |]).
    contradiction. }
  destruct H as [b Hb]. exists b. split; [exact Hb|].
  intros net log. unfold lift. now rewrite Hb.
Qed.

Lemma C10_guards_total_and_pure_witness :
  exists b : bool,
    isOrderArg JNull = Normal b
    /\ forall net log, lift (isOrderArg JNull) net log = (log, Normal b).
Proof.
  apply (C10_guards_total_and_pure isOrderArg JNull).
  simpl. tauto.
Defined.

(** ** Each handler checks its arguments and then issues one request *)

Lemma field_object_like (args : JsValue) (key : string) :
  object_like args = true -> field args key = Normal (prop args key).
Proof.
  unfold prop, field. destruct args; simpl; try discriminate; reflexivity.
Qed.

Lemma has_type_number (args : JsValue) (key : string) :
  has_type "number" args key = true -> exists n, prop args key = JNumber n.
Proof.
  unfold has_type. destruct (prop args key); simpl; try discriminate. eauto.
Qed.

Lemma has_type_string (args : JsValue) (key : string) :
  has_type "string" args key = true -> exists s, prop args key = JString s.
Proof.
  unfold has_type. destruct (prop args key); simpl; try discriminate. eauto.
Qed.

(** Splits the conjunction a guard has computed. *)
Ltac split_guard H :=
  repeat match type of H with
         | (_ && _)%bool = true =>
             let H1 := fresh "Hty" in
             apply andb_true_iff in H as [H H1]
         end.

(** Settles a handler once its guard is rewritten to a boolean: the
    arguments are rejected, or the path and the body are computed. *)
Ltac settle_handler spec args :=
  rewrite spec;
  match goal with
  | |- checked _ _ _ (bind (lift (Normal ?b)) _) =>
      destruct b eqn:Hguard;
      [ right; split; [rewrite spec, Hguard; reflexivity|];
        split_guard Hguard;
        repeat match goal with
               | H : has_type "number" args _ = true |- _ =>
                   apply has_type_number in H as [? H]
               | H : has_type "string" args _ = true |- _ =>
                   apply has_type_string in H as [? H]
               end;
        rewrite ?(field_object_like args _ Hguard);
        repeat match goal with H : prop args _ = _ |- _ => rewrite ?H; clear H end;
        eexists; intros net log; reflexivity
      | left; split; [rewrite spec, Hguard; reflexivity|]; intros net log; reflexivity ]
  end.

Lemma ts_handleGetSymbolPrice_checked (args : JsValue) :
  checked isSymbolPriceArg args
    (McpError InvalidParams (lit "Invalid symbol price arguments"))
    (Mt5Server.handleGetSymbolPrice args).
Proof.
  unfold Mt5Server.handleGetSymbolPrice. settle_handler isSymbolPriceArg_spec args.
Qed.

Lemma ts_handleGetAccountInfo_checked (args : JsValue) :
  checked isAccountInfoArg args
    (McpError InvalidParams (lit "Invalid account info arguments"))
    (Mt5Server.handleGetAccountInfo args).
Proof.
  unfold Mt5Server.handleGetAccountInfo. rewrite isAccountInfoArg_spec.
  destruct (object_like args && _)%bool eqn:Hguard.
  - right. split; [rewrite isAccountInfoArg_spec, Hguard; reflexivity|].
    apply andb_true_iff in Hguard as [Hobj Hacc].
    rewrite (field_object_like args _ Hobj).
    unfold has_type in Hacc.
    destruct (prop args "account") as [| | |n| | |]; simpl in Hacc; try discriminate.
    + eexists; intros net log; reflexivity.
    + destruct (truthy (JNumber n)) eqn:Ht; eexists; intros net log;
        unfold bind, lift; simpl negb; cbv iota; rewrite Ht; reflexivity.
  - left. split; [rewrite isAccountInfoArg_spec, Hguard; reflexivity|].
    intros net log; reflexivity.
Qed.

Lemma ts_handleGetOpenPositions_plan :
  forall net log,
    Mt5Server.handleGetOpenPositions net log
    = run_plan ret (Call {| client := apiClient; method := GET;
                            url := lit "/positions"; body := None |}) net log.
Proof. reflexivity. Qed.

Lemma ts_handleGetPendingOrders_plan :
  forall net log,
    Mt5Server.handleGetPendingOrders net log
    = run_plan ret (Call {| client := apiClient; method := GET;
                            url := lit "/orders"; body := None |}) net log.
Proof. reflexivity. Qed.

Lemma ts_handleCreateOrder_checked (args : JsValue) :
  checked isOrderArg args (McpError InvalidParams (lit "Invalid order arguments"))
    (Mt5Server.handleCreateOrder args).
Proof. unfold Mt5Server.handleCreateOrder. settle_handler isOrderArg_spec args. Qed.

Lemma ts_handleModifyOrder_checked (args : JsValue) :
  checked isModifyOrderArg args
    (McpError InvalidParams (lit "Invalid modify order arguments"))
    (Mt5Server.handleModifyOrder args).
Proof. unfold Mt5Server.handleModifyOrder. settle_handler isModifyOrderArg_spec args. Qed.

Lemma ts_handleClosePosition_checked (args : JsValue) :
  checked isCloseOrderArg args
    (McpError InvalidParams (lit "Invalid close position arguments"))
    (Mt5Server.handleClosePosition args).
Proof. unfold Mt5Server.handleClosePosition. settle_handler isCloseOrderArg_spec args. Qed.

Lemma ts_handleDeleteOrder_checked (args : JsValue) :
  checked isCloseOrderArg args
    (McpError InvalidParams (lit "Invalid delete order arguments"))
    (Mt5Server.handleDeleteOrder args).
Proof. unfold Mt5Server.handleDeleteOrder. settle_handler isCloseOrderArg_spec args. Qed.

Lemma ts_handleRunOptimization_checked (args : JsValue) :
  checked isRunOptimizationArg args
    (McpError InvalidParams (lit "Invalid run_optimization arguments"))
    (Mt5Server.handleRunOptimization args).
Proof.
  unfold Mt5Server.handleRunOptimization. settle_handler isRunOptimizationArg_spec args.
Qed.

Lemma ts_handleGetOptimizationStatus_checked (args : JsValue) :
  checked isOptimizationIdArg args
    (McpError InvalidParams (lit "Invalid get_optimization_status arguments"))
    (Mt5Server.handleGetOptimizationStatus args).
Proof.
  unfold Mt5Server.handleGetOptimizationStatus.
  settle_handler isOptimizationIdArg_spec args.
Qed.

Lemma ts_handleGetOptimizationResults_checked (args : JsValue) :
  checked isOptimizationIdArg args
    (McpError InvalidParams (lit "Invalid get_optimization_results arguments"))
    (Mt5Server.handleGetOptimizationResults args).
Proof.
  unfold Mt5Server.handleGetOptimizationResults.
  settle_handler isOptimizationIdArg_spec args.
Qed.

Lemma ts_handleSaveOptimizationResults_checked (args : JsValue) :
  checked isSaveOptimizationResultsArg args
    (McpError InvalidParams (lit "Invalid save_optimization_results arguments"))
    (Mt5Server.handleSaveOptimizationResults args).
Proof.
  unfold Mt5Server.handleSaveOptimizationResults.
  settle_handler isSaveOptimizationResultsArg_spec args.
Qed.

Lemma rethrowing_id {A} (m : Async A) (net : Network) (log : list HttpRequest) :
  ServerJs.rethrowing m net log = m net log.
Proof.
  unfold ServerJs.rethrowing, try_catch, throw.
  destruct (m net log) as [log' [a|e]]; reflexivity.
Qed.

(** The same for the handlers of [server.js], whose request sits in a
    [try] that throws again what it catches. *)
Ltac settle_js_handler spec args :=
  rewrite spec;
  match goal with
  | |- checked _ _ _ (bind (lift (Normal ?b)) _) =>
      destruct b eqn:Hguard;
      [ right; split; [rewrite spec, Hguard; reflexivity|];
        split_guard Hguard;
        repeat match goal with
               | H : has_type "number" args _ = true |- _ =>
                   apply has_type_number in H as [? H]
               | H : has_type "string" args _ = true |- _ =>
                   apply has_type_string in H as [? H]
               end;
        rewrite ?(field_object_like args _ Hguard);
        repeat match goal with H : prop args _ = _ |- _ => rewrite ?H; clear H end;
        eexists; intros net log;
        cbv beta iota delta [bind lift negb];
        rewrite rethrowing_id; reflexivity
      | left; split; [rewrite spec, Hguard; reflexivity|]; intros net log; reflexivity ]
  end.

Lemma js_handleGetAccountInfo_checked (args : JsValue) :
  checked isAccountInfoArg args (Error (lit "Invalid account info arguments"))
    (ServerJs.handleGetAccountInfo args).
Proof.
  unfold ServerJs.handleGetAccountInfo. rewrite isAccountInfoArg_spec.
  destruct (object_like args && _)%bool eqn:Hguard.
  - right. split; [rewrite isAccountInfoArg_spec, Hguard; reflexivity|].
    apply andb_true_iff in Hguard as [Hobj Hacc].
    rewrite (field_object_like args _ Hobj).
    unfold has_type in Hacc.
    destruct (prop args "account") as [| | |n| | |]; simpl in Hacc; try discriminate.
    + eexists; intros net log. cbv beta iota delta [bind lift negb].
      rewrite rethrowing_id. reflexivity.
    + destruct (truthy (JNumber n)) eqn:Ht; eexists; intros net log;
        cbv beta iota delta [bind lift negb]; rewrite rethrowing_id;
        unfold bind, lift; rewrite Ht; reflexivity.
  - left. split; [rewrite isAccountInfoArg_spec, Hguard; reflexivity|].
    intros net log; reflexivity.
Qed.

Lemma js_handleGetSymbolPrice_checked (args : JsValue) :
  checked isSymbolPriceArg args (Error (lit "Invalid symbol price arguments"))
    (ServerJs.handleGetSymbolPrice args).
Proof.
  unfold ServerJs.handleGetSymbolPrice. settle_js_handler isSymbolPriceArg_spec args.
Qed.

Lemma js_handleGetOpenPositions_plan :
  forall net log,
    ServerJs.handleGetOpenPositions net log
    = run_plan ret (Call {| client := apiClient; method := GET;
                            url := lit "/positions"; body := None |}) net log.
Proof. intros. unfold ServerJs.handleGetOpenPositions. now rewrite rethrowing_id. Qed.

Lemma js_handleGetPendingOrders_plan :
  forall net log,
    ServerJs.handleGetPendingOrders net log
    = run_plan ret (Call {| client := apiClient; method := GET;
                            url := lit "/orders"; body := None |}) net log.
Proof. intros. unfold ServerJs.handleGetPendingOrders. now rewrite rethrowing_id. Qed.

Lemma js_handleCreateOrder_checked (args : JsValue) :
  checked isOrderArg args (Error (lit "Invalid order arguments"))
    (ServerJs.handleCreateOrder args).
Proof. unfold ServerJs.handleCreateOrder. settle_js_handler isOrderArg_spec args. Qed.

Lemma js_handleModifyOrder_checked (args : JsValue) :
  checked isModifyOrderArg args (Error (lit "Invalid modify order arguments"))
    (ServerJs.handleModifyOrder args).
Proof. unfold ServerJs.handleModifyOrder. settle_js_handler isModifyOrderArg_spec args. Qed.

Lemma js_handleClosePosition_checked (args : JsValue) :
  checked isCloseOrderArg args (Error (lit "Invalid close position arguments"))
    (ServerJs.handleClosePosition args).
Proof.
  unfold ServerJs.handleClosePosition. settle_js_handler isCloseOrderArg_spec args.
Qed.

Lemma js_handleDeleteOrder_checked (args : JsValue) :
  checked isCloseOrderArg args (Error (lit "Invalid delete order arguments"))
    (ServerJs.handleDeleteOrder args).
Proof. unfold ServerJs.handleDeleteOrder. settle_js_handler isCloseOrderArg_spec args. Qed.

(** ** What can be thrown before a request *)

Lemma get_throws (v : JsValue) (key : jsstring) (e : Thrown) :
  get v key = Throw e -> isAxiosError e = false.
Proof. destruct v; simpl; intros H; inversion H; reflexivity. Qed.

Lemma get_again (v : JsValue) (key key' : jsstring) (x : JsValue) :
  get v key = Normal x -> exists y, get v key' = Normal y.
Proof. destruct v; simpl; intros H; try discriminate; eauto. Qed.

Lemma get_opt_prop (v : JsValue) (key : string) :
  get_opt v (lit key) = Normal (prop v key).
Proof. unfold prop. destruct v; reflexivity. Qed.

Lemma get_prop (v : JsValue) (key : string) (x : JsValue) :
  get v (lit key) = Normal x -> prop v key = x.
Proof. unfold prop. now intros ->. Qed.

Lemma JsValue_nested_ind (P : JsValue -> Prop) :
  P JUndefined -> P JNull -> (forall b, P (JBool b)) -> (forall n, P (JNumber n)) ->
  (forall s, P (JString s)) ->
  (forall items, Forall P items -> P (JArray items)) ->
  (forall properties, Forall (fun kv => P (snd kv)) properties -> P (JObject properties)) ->
  forall v, P v.
Proof.
  intros Hu Hn Hb Hnum Hs Ha Ho. fix IH 1.
  intros [| |b|n|s|items|properties];
    [apply Hu | apply Hn | apply Hb | apply Hnum | apply Hs | |].
  - apply Ha. revert items. fix IHl 1. intros [|x rest]; constructor.
    + apply IH.
    + apply IHl.
  - apply Ho. revert properties. fix IHl 1. intros [|[k x] rest]; constructor.
    + apply IH.
    + apply IHl.
Qed.

Lemma ToString_array_cons (x : JsValue) (rest : list JsValue) :
  ToString (JArray (x :: rest))
  = bindC (match x with JUndefined | JNull => Normal [] | _ => ToString x end)
      (fun s =>
         match rest with
         | [] => Normal s
         | _ => bindC (ToString (JArray rest)) (fun t => Normal (s ++ lit "," ++ t))
         end).
Proof. reflexivity. Qed.

Lemma ToString_throws (v : JsValue) (e : Thrown) :
  ToString v = Throw e -> isAxiosError e = false.
Proof.
  revert e. induction v as [| | [|] |n|s|items IH|properties _] using JsValue_nested_ind;
    intros e; try (simpl; discriminate).
  - induction IH as [|x rest Hx _ IHrest]; [simpl; discriminate|].
    rewrite ToString_array_cons.
    destruct (match x with JUndefined | JNull => Normal [] | _ => ToString x end)
      as [s|e'] eqn:Ex; cbv beta iota delta [bindC].
    + destruct rest as [|y rest']; [discriminate|].
      destruct (ToString (JArray (y :: rest'))) as [t|e''] eqn:Ej.
      * discriminate.
      * intros H; injection H as <-. now apply IHrest.
    + intros H; injection H as <-.
      destruct x; try discriminate; now apply Hx.
  - simpl. destruct (has_own properties (lit "toString")); [|discriminate].
    intros H; injection H as <-. reflexivity.
Qed.

(** ** Dispatch *)

Lemma switch_preserves {A} (Q : Async A -> Prop) (v : JsValue)
    (cases : list (jsstring * Async A)) (default : Async A) :
  Forall (fun c => Q (snd c)) cases -> Q default -> Q (switch v cases default).
Proof.
  intros Hcases Hdefault. induction Hcases as [|[label body] rest Hbody _ IH]; simpl.
  - exact Hdefault.
  - destruct (is_string label v); [exact Hbody | exact IH].
Qed.

Lemma switch_default {A} (name : jsstring) (cases : list (jsstring * Async A))
    (default : Async A) :
  ~ In name (map fst cases) -> switch (JString name) cases default = default.
Proof.
  induction cases as [|[label body] rest IH]; simpl; intros Hnot; [reflexivity|].
  rewrite jsstring_eqb_neq by (intros ->; apply Hnot; now left).
  apply IH. intros Hin. apply Hnot. now right.
Qed.

Lemma checked_follows (guard : JsValue -> Completion bool) (args : JsValue)
    (invalid : Thrown) (m : Async JsValue) :
  checked guard args invalid m ->
  isAxiosError invalid = false ->
  exists p, follows m ret p.
Proof.
  intros [[_ H] | [_ [req H]]] Hinv.
  - exists (Reject invalid). split; [exact Hinv | exact H].
  - exists (Call req). split; [exact I | exact H].
Qed.

Lemma ts_with_arguments (request params args : JsValue)
    (handler : JsValue -> Async JsValue) :
  get request (lit "params") = Normal params ->
  get params (lit "arguments") = Normal args ->
  forall net log, Mt5Server.with_arguments request handler net log = handler args net log.
Proof.
  intros Hp Ha net log. unfold Mt5Server.with_arguments, bind, lift.
  rewrite Hp. cbv beta iota. rewrite Ha. reflexivity.
Qed.

Lemma follows_ext (m m' : Async JsValue) (wrap : JsValue -> Async JsValue) (p : Plan) :
  (forall net log, m' net log = m net log) -> follows m wrap p -> follows m' wrap p.
Proof.
  intros Heq [Hl H]. split; [exact Hl|]. intros net log. rewrite Heq. apply H.
Qed.

Lemma ts_dispatch_route (request params name : JsValue) :
  get request (lit "params") = Normal params ->
  get params (lit "name") = Normal name ->
  forall net log, Mt5Server.dispatch request net log = Mt5Server.route request name net log.
Proof.
  intros Hp Hn net log. unfold Mt5Server.dispatch, bind, lift.
  rewrite Hp. cbv beta iota. rewrite Hn. reflexivity.
Qed.

Lemma ts_route_follows (request params name : JsValue) :
  get request (lit "params") = Normal params ->
  get params (lit "name") = Normal name ->
  exists p, follows (Mt5Server.route request name) ret p.
Proof.
  intros Hparams Hname.
  destruct (get_again _ _ (lit "arguments") _ Hname) as [args Hargs].
  pose proof (ts_with_arguments request params args) as Hw.
  apply (switch_preserves (fun m => exists p, follows m ret p)).
  - repeat match goal with
           | |- Forall _ (_ :: _) => apply Forall_cons
           | |- Forall _ [] => apply Forall_nil
           end; cbn [snd];
      try (match goal with
           | |- exists p, follows (Mt5Server.with_arguments _ ?h) _ p =>
               assert (Hc : exists p, follows (h args) ret p);
               [ eapply checked_follows;
                 [ solve [ apply ts_handleGetAccountInfo_checked
                         | apply ts_handleGetSymbolPrice_checked
                         | apply ts_handleCreateOrder_checked
                         | apply ts_handleModifyOrder_checked
                         | apply ts_handleClosePosition_checked
                         | apply ts_handleDeleteOrder_checked
                         | apply ts_handleRunOptimization_checked
                         | apply ts_handleGetOptimizationStatus_checked
                         | apply ts_handleGetOptimizationResults_checked
                         | apply ts_handleSaveOptimizationResults_checked ]
                 | reflexivity ]
               | destruct Hc as [p Hc]; exists p;
                 apply (follows_ext _ _ _ _ (Hw h Hparams Hargs) Hc) ]
           end).
    + eexists (Call _). split; [exact I|]. apply ts_handleGetOpenPositions_plan.
    + eexists (Call _). split; [exact I|]. apply ts_handleGetPendingOrders_plan.
  - destruct (ToString name) as [shown|e] eqn:Hshown.
    + exists (Reject (McpError MethodNotFound (lit "Unknown tool: " ++ shown))).
      split; [reflexivity|]. intros; reflexivity.
    + exists (Reject e). split; [apply (ToString_throws _ _ Hshown)|].
      intros; reflexivity.
Qed.

(** Whatever the request, the [try] block of the call-tool handler of
    [mt5-server.ts] throws before any request or issues exactly one. *)
Lemma ts_dispatch_follows (request : JsValue) :
  exists p, follows (Mt5Server.dispatch request) ret p.
Proof.
  destruct (get request (lit "params")) as [params|e] eqn:Hparams.
  2:{ exists (Reject e). split; [apply (get_throws _ _ _ Hparams)|].
      intros. unfold Mt5Server.dispatch, bind, lift. rewrite Hparams. reflexivity. }
  destruct (get params (lit "name")) as [name|e] eqn:Hname.
  2:{ exists (Reject e). split; [apply (get_throws _ _ _ Hname)|].
      intros. unfold Mt5Server.dispatch, bind, lift. rewrite Hparams. cbv beta iota.
      rewrite Hname. reflexivity. }
  destruct (ts_route_follows _ _ _ Hparams Hname) as [p H]. exists p.
  apply (follows_ext _ _ _ _ (ts_dispatch_route _ _ _ Hparams Hname) H).
Qed.

(** ** Outcomes of a tool call in mt5-server.ts *)

Lemma request_run (req : HttpRequest) (net : Network) (log : list HttpRequest) :
  request req net log
  = (log ++ [req],
     match net (List.length log) req with
     | HttpResponse st d =>
         if ok_status st
         then Normal {| status := st; data := d |}
         else Throw (AxiosError (lit "Request failed with status code " ++ decimal st)
                       (Some {| status := st; data := d |}))
     | TransportFailure msg => Throw (AxiosError msg None)
     end).
Proof. reflexivity. Qed.

Lemma api_error_result_run (message : jsstring) (response : option AxiosResponse)
    (net : Network) (log : list HttpRequest) :
  api_error_result (AxiosError message response) net log
  = (log,
     match ToString (chosen_message message response) with
     | Normal shown => Normal (api_error_block shown)
     | Throw e => Throw e
     end).
Proof.
  unfold api_error_result, failure_message, chosen_message, bind, lift.
  destruct response as [r|]; simpl.
  - rewrite get_opt_prop. simpl.
    destruct (ToString (if truthy (prop (data r) "message")
                        then prop (data r) "message" else JString message));
      reflexivity.
  - reflexivity.
Qed.

Lemma ts_callTool_plan (request : JsValue) :
  exists p,
    local_error p
    /\ forall net log,
         Mt5Server.callTool request net log
         = try_catch (run_plan ret p) Mt5Server.on_error net log.
Proof.
  destruct (ts_dispatch_follows request) as [p [Hl H]]. exists p. split; [exact Hl|].
  intros net log. unfold Mt5Server.callTool, try_catch. now rewrite H.
Qed.

Lemma ts_on_error_local (e : Thrown) (net : Network) (log : list HttpRequest) :
  isAxiosError e = false ->
  exists code message,
    Mt5Server.on_error e net log = (log, Throw (McpError code message)).
Proof.
  intros H. unfold Mt5Server.on_error. rewrite H.
  destruct e; try discriminate; eexists _, _; reflexivity.
Qed.

Lemma ts_on_error_axios (message : jsstring) (response : option AxiosResponse)
    (net : Network) (log : list HttpRequest) :
  Mt5Server.on_error (AxiosError message response) net log
  = (log,
     match ToString (chosen_message message response) with
     | Normal shown => Normal (api_error_block shown)
     | Throw e => Throw e
     end).
Proof. apply api_error_result_run. Qed.

(** The message of a backend error converts to a string when the backend
    is readable. *)
Lemma readable_chosen (net : Network) (n : nat) (req : HttpRequest) (st : N)
    (body : JsValue) (message : jsstring) :
  readable net ->
  net n req = HttpResponse st body ->
  exists shown,
    ToString (chosen_message message (Some {| status := st; data := body |}))
    = Normal shown.
Proof.
  intros Hr Hnet. unfold chosen_message. simpl.
  destruct (truthy (prop body "message")) eqn:Ht.
  - apply (Hr n req st body _ Hnet). apply get_opt_prop.
  - eexists; reflexivity.
Qed.

(** The three ways a plan ends under a [catch] that turns the errors of
    the HTTP client into a result. *)
Lemma plan_outcome (wrap : JsValue -> Async JsValue)
    (handler : Thrown -> Async JsValue) (p : Plan) (net : Network)
    (log : list HttpRequest) :
  match p with
  | Reject e => try_catch (run_plan wrap p) handler net log = handler e net log
  | Reply v => try_catch (run_plan wrap p) handler net log = (log, Normal v)
  | Call req =>
      match net (List.length log) req with
      | HttpResponse st d =>
          if ok_status st
          then try_catch (run_plan wrap p) handler net log
               = try_catch (wrap (tool_result {| status := st; data := d |})) handler
                   net (log ++ [req])
          else try_catch (run_plan wrap p) handler net log
               = handler (AxiosError (lit "Request failed with status code " ++ decimal st)
                            (Some {| status := st; data := d |})) net (log ++ [req])
      | TransportFailure msg =>
          try_catch (run_plan wrap p) handler net log
          = handler (AxiosError msg None) net (log ++ [req])
      end
  end.
Proof.
  destruct p as [e|v|req]; try reflexivity.
  unfold try_catch, run_plan, bind. rewrite request_run.
  destruct (net (List.length log) req) as [st d|msg]; [|reflexivity].
  destruct (ok_status st); reflexivity.
Qed.

Lemma ts_outcome (request : JsValue) (net : Network) (log : list HttpRequest) :
  readable net ->
  exists log' c,
    Mt5Server.callTool request net log = (log', c)
    /\ ((exists result, c = Normal result)
        \/ (exists code message, c = Throw (McpError code message))).
Proof.
  intros Hr. destruct (ts_callTool_plan request) as [p [Hl H]].
  rewrite H. pose proof (plan_outcome ret Mt5Server.on_error p net log) as Hp.
  destruct p as [e|v|req].
  - rewrite Hp. destruct (ts_on_error_local e net log Hl) as [code [message He]].
    rewrite He. eexists _, _. split; [reflexivity|]. right. eauto.
  - rewrite Hp. eexists _, _. split; [reflexivity|]. left. eauto.
  - destruct (net (List.length log) req) as [st d|msg] eqn:Hnet.
    + destruct (ok_status st).
      * rewrite Hp. eexists _, _. split; [reflexivity|]. left. eauto.
      * rewrite Hp, ts_on_error_axios.
        destruct (readable_chosen net _ req st d
                    (lit "Request failed with status code " ++ decimal st) Hr Hnet)
          as [shown Hs].
        rewrite Hs. eexists _, _. split; [reflexivity|]. left. eauto.
    + rewrite Hp, ts_on_error_axios. eexists _, _. split; [reflexivity|]. left.
      eexists. reflexivity.
Qed.

(** ** Outcomes of a tool call in server.js *)

Lemma js_with_arguments (request params args : JsValue)
    (handler : JsValue -> Async JsValue) :
  get request (lit "params") = Normal params ->
  get params (lit "arguments") = Normal args ->
  forall net log, ServerJs.with_arguments request handler net log = handler args net log.
Proof.
  intros Hp Ha net log. unfold ServerJs.with_arguments, bind, lift.
  rewrite Hp. cbv beta iota. rewrite Ha. reflexivity.
Qed.

Lemma result_envelope_run (request result : JsValue) (x : JsValue) (key : jsstring)
    (net : Network) (log : list HttpRequest) :
  get request key = Normal x ->
  ServerJs.result_envelope request result net log = (log, Normal (js_result request result)).
Proof.
  intros H. destruct (get_again _ _ (lit "id") _ H) as [id Hid].
  unfold ServerJs.result_envelope, js_result, bind, lift, ret.
  rewrite (get_prop _ "id" _ Hid), Hid. reflexivity.
Qed.

Lemma error_envelope_run (request : JsValue) (code : Z) (message : jsstring)
    (x : JsValue) (key : jsstring) (net : Network) (log : list HttpRequest) :
  get request key = Normal x ->
  ServerJs.error_envelope request code (ret message) net log
  = (log, Normal (js_error request code message)).
Proof.
  intros H. destruct (get_again _ _ (lit "id") _ H) as [id Hid].
  unfold ServerJs.error_envelope, js_error, bind, lift, ret.
  rewrite (get_prop _ "id" _ Hid), Hid. reflexivity.
Qed.

Lemma js_answered_follows (guard : JsValue -> Completion bool) (args : JsValue)
    (invalid : Thrown) (request : JsValue) (handler handler' : Async JsValue) :
  checked guard args invalid handler ->
  (forall net log, handler' net log = handler net log) ->
  isAxiosError invalid = false ->
  exists p, follows (ServerJs.answered request handler')
              (ServerJs.result_envelope request) p.
Proof.
  intros [[_ H] | [_ [req H]]] Heq Hinv.
  - exists (Reject invalid). split; [exact Hinv|]. intros net log.
    unfold ServerJs.answered, bind. rewrite Heq, H. reflexivity.
  - exists (Call req). split; [exact I|]. intros net log.
    unfold ServerJs.answered, bind. rewrite Heq, H. unfold run_plan, bind.
    destruct (Axios.request req net log) as [log1 [r|e]]; reflexivity.
Qed.

Lemma js_answered_call (request : JsValue) (handler : Async JsValue) (req : HttpRequest) :
  (forall net log, handler net log = run_plan ret (Call req) net log) ->
  follows (ServerJs.answered request handler) (ServerJs.result_envelope request) (Call req).
Proof.
  intros H. split; [exact I|]. intros net log.
  unfold ServerJs.answered, bind. rewrite H. unfold run_plan, bind.
  destruct (Axios.request req net log) as [log1 [r|e]]; reflexivity.
Qed.

Lemma js_dispatch_route (request params name : JsValue) :
  get request (lit "params") = Normal params ->
  get params (lit "name") = Normal name ->
  forall net log, ServerJs.dispatch request net log = ServerJs.route request name net log.
Proof.
  intros Hp Hn net log. unfold ServerJs.dispatch, bind, lift.
  rewrite Hp. cbv beta iota. rewrite Hn. reflexivity.
Qed.

Lemma js_route_follows (request params name : JsValue) :
  get request (lit "params") = Normal params ->
  get params (lit "name") = Normal name ->
  exists p, follows (ServerJs.route request name) (ServerJs.result_envelope request) p.
Proof.
  intros Hparams Hname.
  destruct (get_again _ _ (lit "arguments") _ Hname) as [args Hargs].
  pose proof (js_with_arguments request params args) as Hw.
  apply (switch_preserves
           (fun m => exists p, follows m (ServerJs.result_envelope request) p)).
  - repeat match goal with
           | |- Forall _ (_ :: _) => apply Forall_cons
           | |- Forall _ [] => apply Forall_nil
           end; cbn [snd];
      try (match goal with
           | |- exists p, follows (ServerJs.answered _ (ServerJs.with_arguments _ ?h)) _ p =>
               eapply (js_answered_follows _ args _ request (h args));
               [ solve [ apply js_handleGetAccountInfo_checked
                       | apply js_handleGetSymbolPrice_checked
                       | apply js_handleCreateOrder_checked
                       | apply js_handleModifyOrder_checked
                       | apply js_handleClosePosition_checked
                       | apply js_handleDeleteOrder_checked ]
               | apply (Hw h Hparams Hargs)
               | reflexivity ]
           end).
    + eexists. apply js_answered_call. apply js_handleGetOpenPositions_plan.
    + eexists. apply js_answered_call. apply js_handleGetPendingOrders_plan.
  - destruct (get_again _ _ (lit "id") _ Hparams) as [id Hid].
    destruct (ToString name) as [shown|e] eqn:Hshown.
    + exists (Reply (js_error request (-32601) (lit "Unknown tool: " ++ shown))).
      split; [exists request; right; eauto|]. intros net log.
      unfold ServerJs.error_envelope, js_error, bind, lift, ret.
      rewrite (get_prop _ "id" _ Hid), Hid. reflexivity.
    + exists (Reject e). split; [apply (ToString_throws _ _ Hshown)|].
      intros net log. unfold ServerJs.error_envelope, bind, lift.
      rewrite Hid. reflexivity.
Qed.

(** Whatever the request, the [try] block of the [call_tool] case throws
    before any request, answers without one, or issues exactly one. *)
Lemma js_dispatch_follows (request : JsValue) :
  exists p, follows (ServerJs.dispatch request) (ServerJs.result_envelope request) p.
Proof.
  destruct (get request (lit "params")) as [params|e] eqn:Hparams.
  2:{ exists (Reject e). split; [apply (get_throws _ _ _ Hparams)|].
      intros. unfold ServerJs.dispatch, bind, lift. rewrite Hparams. reflexivity. }
  destruct (get params (lit "name")) as [name|e] eqn:Hname.
  2:{ exists (Reject e). split; [apply (get_throws _ _ _ Hname)|].
      intros. unfold ServerJs.dispatch, bind, lift. rewrite Hparams. cbv beta iota.
      rewrite Hname. reflexivity. }
  destruct (js_route_follows _ _ _ Hparams Hname) as [p H]. exists p.
  apply (follows_ext _ _ _ _ (js_dispatch_route _ _ _ Hparams Hname) H).
Qed.

Lemma js_handleMcpRequest_call_tool (request : JsValue) :
  is_tool_call request ->
  forall net log,
    ServerJs.handleMcpRequest request net log = ServerJs.call_tool request net log.
Proof.
  intros H net log. unfold ServerJs.handleMcpRequest, bind, lift.
  rewrite H. reflexivity.
Qed.

Lemma js_call_tool_plan (request : JsValue) :
  exists p,
    local_error p
    /\ forall net log,
         ServerJs.call_tool request net log
         = try_catch (run_plan (ServerJs.result_envelope request) p)
             (ServerJs.on_error request) net log.
Proof.
  destruct (js_dispatch_follows request) as [p [Hl H]]. exists p. split; [exact Hl|].
  intros net log. unfold ServerJs.call_tool, try_catch. now rewrite H.
Qed.

Lemma js_on_error_axios (request : JsValue) (message : jsstring)
    (response : option AxiosResponse) (x : JsValue) (key : jsstring)
    (net : Network) (log : list HttpRequest) :
  get request key = Normal x ->
  ServerJs.on_error request (AxiosError message response) net log
  = (log,
     match ToString (chosen_message message response) with
     | Normal shown => Normal (js_result request (api_error_block shown))
     | Throw e => Throw e
     end).
Proof.
  intros H. unfold ServerJs.on_error. cbv beta iota delta [isAxiosError bind].
  rewrite api_error_result_run.
  destruct (ToString (chosen_message message response)); [|reflexivity].
  apply (result_envelope_run _ _ _ _ _ _ H).
Qed.

Lemma js_on_error_local (request : JsValue) (e : Thrown) (x : JsValue) (key : jsstring)
    (net : Network) (log : list HttpRequest) :
  get request key = Normal x ->
  isAxiosError e = false ->
  ServerJs.on_error request e net log
  = (log, Normal (js_error request (-32603) (lit "Unexpected error: " ++ error_message e))).
Proof.
  intros H He. unfold ServerJs.on_error. rewrite He.
  apply (error_envelope_run _ _ _ _ _ _ _ H).
Qed.

Lemma is_envelope_tagged (v : JsValue) :
  is_envelope v ->
  (success_tagged v /\ forall code, ~ error_tagged v code)
  \/ (exists code, error_tagged v code /\ ~ success_tagged v).
Proof.
  intros [request [[result ->] | [code [message ->]]]].
  - left. split; [split; reflexivity|]. intros code [H _]. discriminate H.
  - right. exists code. split; [split; reflexivity|]. intros [H _]. discriminate H.
Qed.

Lemma try_catch_normal {A} (m : Async A) (handler : Thrown -> Async A)
    (net : Network) (log log' : list HttpRequest) (a : A) :
  m net log = (log', Normal a) -> try_catch m handler net log = (log', Normal a).
Proof. intros H. unfold try_catch. now rewrite H. Qed.

Lemma js_outcome (request : JsValue) (net : Network) (log : list HttpRequest) :
  is_tool_call request ->
  readable net ->
  exists log' envelope,
    ServerJs.handleMcpRequest request net log = (log', Normal envelope)
    /\ is_envelope envelope.
Proof.
  intros Hcall Hr. rewrite (js_handleMcpRequest_call_tool _ Hcall).
  destruct (js_call_tool_plan request) as [p [Hl H]]. rewrite H.
  pose proof (plan_outcome (ServerJs.result_envelope request)
                (ServerJs.on_error request) p net log) as Hp.
  assert (Hres : forall result, is_envelope (js_result request result))
    by (intros result; exists request; left; eauto).
  assert (Herr : forall code message, is_envelope (js_error request code message))
    by (intros code message; exists request; right; eauto).
  destruct p as [e|v|req].
  - rewrite Hp, (js_on_error_local _ _ _ _ _ _ Hcall Hl). eauto.
  - rewrite Hp. eauto.
  - destruct (net (List.length log) req) as [st d|msg] eqn:Hnet.
    + destruct (ok_status st).
      * rewrite Hp.
        rewrite (try_catch_normal _ _ _ _ _ _ (result_envelope_run _ _ _ _ _ _ Hcall)).
        eauto.
      * rewrite Hp, (js_on_error_axios _ _ _ _ _ _ _ Hcall).
        destruct (readable_chosen net _ req st d
                    (lit "Request failed with status code " ++ decimal st) Hr Hnet)
          as [shown Hs].
        rewrite Hs. eauto.
    + rewrite Hp, (js_on_error_axios _ _ _ _ _ _ _ Hcall). simpl. eauto.
Qed.

(** ** Unknown tools *)

(** C3.  A call that names a tool outside the registry of twelve tools is
    answered with MethodNotFound (-32601) and issues no HTTP request: the
    log is unchanged.  In mt5-server.ts the handler rejects with
    [McpError(ErrorCode.MethodNotFound)], the error the SDK sends back; in
    server.js [handleMcpRequest] returns the error envelope with that code. *)
Theorem C3_unknown_tool_is_method_not_found (request : JsValue) (name : jsstring)
    (args : JsValue) (net : Network) (log : list HttpRequest) :
  names_tool request name args ->
  ~ In name (map Registry.name Registry.tools) ->
  Mt5Server.callTool request net log
  = (log, Throw (McpError MethodNotFound (lit "Unknown tool: " ++ name)))
  /\ code_number MethodNotFound = (-32601)%Z
  /\ (is_tool_call request ->
      ServerJs.handleMcpRequest request net log
      = (log, Normal (js_error request (-32601) (lit "Unknown tool: " ++ name)))).
Proof.
  intros [params [Hparams [Hname _]]] Hnot. split; [|split; [reflexivity|]].
  - unfold Mt5Server.callTool, try_catch.
    rewrite (ts_dispatch_route _ _ _ Hparams Hname).
    unfold Mt5Server.route. rewrite switch_default by exact Hnot. reflexivity.
  - intros Hcall. rewrite (js_handleMcpRequest_call_tool _ Hcall).
    unfold ServerJs.call_tool, try_catch.
    rewrite (js_dispatch_route _ _ _ Hparams Hname).
    unfold ServerJs.route. rewrite switch_default.
    + unfold ServerJs.error_envelope, js_error, bind, lift, ret.
      destruct (get_again _ _ (lit "id") _ Hparams) as [id Hid].
      rewrite (get_prop _ "id" _ Hid), Hid. reflexivity.
    + intros Hin. apply Hnot. simpl in Hin |- *. tauto.
Qed.

Lemma C3_unknown_tool_is_method_not_found_witness :
  Mt5Server.callTool (tool_call (JNumber (int 7)) "call_tool" "launch_rocket" JUndefined)
    (fun _ _ => TransportFailure []) []
  = ([], Throw (McpError MethodNotFound (lit "Unknown tool: launch_rocket")))
  /\ code_number MethodNotFound = (-32601)%Z
  /\ (is_tool_call (tool_call (JNumber (int 7)) "call_tool" "launch_rocket" JUndefined) ->
      ServerJs.handleMcpRequest
        (tool_call (JNumber (int 7)) "call_tool" "launch_rocket" JUndefined)
        (fun _ _ => TransportFailure []) []
      = ([], Normal (js_error
                       (tool_call (JNumber (int 7)) "call_tool" "launch_rocket" JUndefined)
                       (-32601) (lit "Unknown tool: launch_rocket")))).
Proof.
  apply (C3_unknown_tool_is_method_not_found
           (tool_call (JNumber (int 7)) "call_tool" "launch_rocket" JUndefined)
           (lit "launch_rocket") JUndefined).
  - eexists. repeat split; reflexivity.
  - simpl. intros H.
    repeat (destruct H as [H|H]; [discriminate H|]). exact H.
Defined.

(** ** Missing required parameters *)




Lemma checked_invalid (guard : JsValue -> Completion bool) (args : JsValue)
    (invalid : Thrown) (m : Async JsValue) :
  checked guard args invalid m ->
  guard args = Normal false ->
  forall net log, m net log = (log, Throw invalid).
Proof.
  intros [[_ H] | [Hg _]] Hfalse; [exact H|]. rewrite Hg in Hfalse. discriminate.
Qed.

(** The call-tool handler of mt5-server.ts on arguments that a checking
    handler rejects. *)
Lemma ts_rejected (request params args : JsValue) (name : string)
    (guard : JsValue -> Completion bool) (message : string)
    (handler : JsValue -> Async JsValue) :
  get request (lit "params") = Normal params ->
  get params (lit "name") = Normal (JString (lit name)) ->
  get params (lit "arguments") = Normal args ->
  Mt5Server.route request (JString (lit name)) = Mt5Server.with_arguments request handler ->
  checked guard args (McpError InvalidParams (lit message)) (handler args) ->
  guard args = Normal false ->
  forall net log,
    Mt5Server.callTool request net log
    = (log, Throw (McpError InvalidParams (lit message))).
Proof.
  intros Hparams Hname Hargs Hroute Hchecked Hfalse net log.
  unfold Mt5Server.callTool, try_catch.
  rewrite (ts_dispatch_route _ _ _ Hparams Hname), Hroute.
  rewrite (ts_with_arguments _ _ _ _ Hparams Hargs).
  rewrite (checked_invalid _ _ _ _ Hchecked Hfalse). reflexivity.
Qed.




(** The [call_tool] case of server.js on arguments that a checking handler
    rejects: the plain [Error] of the handler is reported as an internal
    error. *)
Lemma js_rejected (request params args : JsValue) (name : string)
    (guard : JsValue -> Completion bool) (message : string)
    (handler : JsValue -> Async JsValue) :
  is_tool_call request ->
  get request (lit "params") = Normal params ->
  get params (lit "name") = Normal (JString (lit name)) ->
  get params (lit "arguments") = Normal args ->
  ServerJs.route request (JString (lit name))
  = ServerJs.answered request (ServerJs.with_arguments request handler) ->
  checked guard args (Error (lit message)) (handler args) ->
  guard args = Normal false ->
  forall net log,
    ServerJs.handleMcpRequest request net log
    = (log, Normal (js_error request (-32603)
                      (lit "Unexpected error: " ++ lit message))).
Proof.
  intros Hcall Hparams Hname Hargs Hroute Hchecked Hfalse net log.
  rewrite (js_handleMcpRequest_call_tool _ Hcall).
  unfold ServerJs.call_tool, try_catch.
  rewrite (js_dispatch_route _ _ _ Hparams Hname), Hroute.
  unfold ServerJs.answered, bind.
  rewrite (js_with_arguments _ _ _ _ Hparams Hargs).
  rewrite (checked_invalid _ _ _ _ Hchecked Hfalse).
  now rewrite (js_on_error_local _ _ _ _ _ _ Hcall).
Qed.

(** A name that has no case in the switch of server.js. *)
Lemma js_unknown_tool (request params : JsValue) (name : jsstring) (net : Network)
    (log : list HttpRequest) :
  is_tool_call request ->
  get request (lit "params") = Normal params ->
  get params (lit "name") = Normal (JString name) ->
  ~ In name (map Registry.name Registry.trading_tools) ->
  ServerJs.handleMcpRequest request net log
  = (log, Normal (js_error request (-32601) (lit "Unknown tool: " ++ name))).
Proof.
  intros Hcall Hparams Hname Hno. rewrite (js_handleMcpRequest_call_tool _ Hcall).
  unfold ServerJs.call_tool, try_catch.
  rewrite (js_dispatch_route _ _ _ Hparams Hname). unfold ServerJs.route.
  rewrite switch_default by exact Hno.
  destruct (get_again _ _ (lit "id") _ Hcall) as [id Hid].
  unfold ServerJs.error_envelope, js_error, bind, lift, ret.
  rewrite Hid, (get_prop _ "id" _ Hid). reflexivity.
Qed.




(** ** Failures and the envelope *)

Lemma not_initialized_readable : readable not_initialized.
Proof.
  intros n req st body m H Hm. unfold not_initialized in H.
  injection H as <- <-. simpl in Hm. injection Hm as <-.
  eexists; reflexivity.
Qed.

(** With backends whose error bodies carry a printable [message],
    [handleMcpRequest] of server.js returns an envelope for every
    [call_tool] request, whatever the tool name and the arguments, and the
    envelope carries exactly one tag: a result, or an error with its code.
    The call-tool handler of mt5-server.ts then returns its result or throws
    an [McpError], the error the SDK sends back, and nothing else. *)
Lemma failures_are_captured_when_messages_print (request : JsValue) (net : Network)
    (log : list HttpRequest) :
  readable net ->
  (is_tool_call request ->
   exists envelope,
     snd (ServerJs.handleMcpRequest request net log) = Normal envelope
     /\ ((success_tagged envelope /\ forall code, ~ error_tagged envelope code)
         \/ (exists code, error_tagged envelope code /\ ~ success_tagged envelope)))
  /\ ((exists result, snd (Mt5Server.callTool request net log) = Normal result)
      \/ (exists code message,
            snd (Mt5Server.callTool request net log) = Throw (McpError code message))).
Proof.
  intros Hr. split.
  - intros Hcall.
    destruct (js_outcome request net log Hcall Hr) as [log' [envelope [H Henv]]].
    exists envelope. rewrite H. split; [reflexivity | now apply is_envelope_tagged].
  - destruct (ts_outcome request net log Hr) as [log' [c [H Hc]]].
    rewrite H. exact Hc.
Qed.

(** C7 at its failing input.  A backend answers [get_open_positions] with
    the status 500 and the body [{"message":{"toString":null}}].  The
    [catch] clause takes the failure for what it is and builds the text of
    the error block with a template literal; the conversion of the message
    throws a [TypeError], inside the clause that was to capture every
    failure.  The handler of mt5-server.ts rejects with that [TypeError],
    which is no [McpError]; [handleMcpRequest] of server.js rejects too, and
    its caller, the listener, logs the error and writes no reply at all.
    The request has been sent by then.  With a message that prints, the same
    failure is captured in the result. *)
Theorem C7_an_unprintable_message_escapes_the_catch :
  let request := tool_call (JNumber (int 1)) "call_tool" "get_open_positions" JUndefined in
  let positions := {| client := apiClient; method := GET; url := lit "/positions";
                      body := None |} in
  let raised := TypeError (lit "Cannot convert object to primitive value") in
  Mt5Server.callTool request unprintable [] = ([positions], Throw raised)
  /\ ServerJs.handleMcpRequest request unprintable [] = ([positions], Throw raised)
  /\ ServerJs.serve (fun _ => Normal request) unprintable [] idle
     = {| ServerJs.stdout := []; ServerJs.stderr := [raised];
          ServerJs.requests := [positions] |}
  /\ Mt5Server.callTool request not_initialized []
     = ([positions], Normal (api_error_block (lit "MT5 not initialized")))
  /\ ServerJs.handleMcpRequest request not_initialized []
     = ([positions],
        Normal (js_result request (api_error_block (lit "MT5 not initialized")))).
Proof. repeat split. Qed.

(** ** Backend errors *)

Lemma reported_chosen (n : nat) (net : Network) (req : HttpRequest) (text : jsstring) :
  reported (net n req) text ->
  match net n req with
  | HttpResponse st d =>
      ok_status st = false
      /\ chosen_message (lit "Request failed with status code " ++ decimal st)
           (Some {| status := st; data := d |}) = JString text
  | TransportFailure msg => chosen_message msg None = JString text
  end.
Proof.
  unfold reported. destruct (net n req) as [st d|msg].
  - intros [Hst [[Hne Hm] | [Hm ->]]]; (split; [exact Hst|]);
      unfold chosen_message; simpl; rewrite Hm; simpl.
    + destruct text; [contradiction|reflexivity].
    + reflexivity.
  - intros ->. reflexivity.
Qed.

Lemma app_one_inv {A} (l : list A) (x y : A) : l ++ [x] = l ++ [y] -> x = y.
Proof. intros H. apply app_inv_head in H. now injection H. Qed.

Lemma app_one_neq {A} (l : list A) (x : A) : l <> l ++ [x].
Proof.
  intros H. apply (f_equal (@List.length A)) in H.
  rewrite length_app in H. simpl in H. lia.
Qed.

(** C2, as stated, fails when the [message] of the error body is the empty
    string: the text falls back to the client's error text. *)
Lemma C2_empty_message_falls_back :
  let backend : Network := fun _ _ => HttpResponse 500 (JObject [(lit "message", JString [])]) in
  let M : jsstring := [] in
  snd (Mt5Server.callTool (tool_call JNull "tools/call" "get_open_positions" JUndefined)
         backend [])
  = Normal (api_error_block (lit "Request failed with status code 500"))
  /\ snd (Mt5Server.callTool (tool_call JNull "tools/call" "get_open_positions" JUndefined)
            backend [])
     <> Normal (api_error_block M).
Proof. split; [reflexivity | discriminate]. Qed.

(** C2, amended.  When the request of a tool call gets a response with a
    status outside 200..299 whose body has a non-empty string [message],
    the call returns, as a result and not as an error of the protocol, a
    single text block marked [isError] whose text is "MetaTrader 5 API
    error: " followed by that message; without a [message] in the body the
    text of the client's error follows the prefix, and so does the
    transport error when there is no response. *)
Theorem C2_backend_error_is_reported_in_the_result (request : JsValue) (net : Network)
    (log : list HttpRequest) (req : HttpRequest) (text : jsstring) :
  reported (net (List.length log) req) text ->
  (fst (Mt5Server.callTool request net log) = log ++ [req] ->
   snd (Mt5Server.callTool request net log) = Normal (api_error_block text))
  /\ (is_tool_call request ->
      fst (ServerJs.handleMcpRequest request net log) = log ++ [req] ->
      snd (ServerJs.handleMcpRequest request net log)
      = Normal (js_result request (api_error_block text)))
  /\ content_blocks (api_error_block text)
     = [text_block (JString (lit "MetaTrader 5 API error: " ++ text))]
  /\ error_marked (api_error_block text) = true.
Proof.
  intros Hrep. split; [|split; [|split; reflexivity]].
  - destruct (ts_callTool_plan request) as [p [Hl H]]. rewrite H.
    pose proof (plan_outcome ret Mt5Server.on_error p net log) as Hp.
    destruct p as [e|v|req'].
    + rewrite Hp. destruct (ts_on_error_local e net log Hl) as [code [message He]].
      rewrite He. simpl. intros Hlog. now apply app_one_neq in Hlog.
    + rewrite Hp. simpl. intros Hlog. now apply app_one_neq in Hlog.
    + assert (Hfst : fst (try_catch (run_plan ret (Call req')) Mt5Server.on_error net log)
                     = log ++ [req']).
      { destruct (net (List.length log) req') as [st d|msg];
          [destruct (ok_status st)|]; rewrite Hp; try reflexivity;
          rewrite ts_on_error_axios; reflexivity. }
      rewrite Hfst. intros Hreq. apply app_one_inv in Hreq. subst req'.
      pose proof (reported_chosen _ _ _ _ Hrep) as Hc.
      destruct (net (List.length log) req) as [st d|msg].
      * destruct Hc as [Hst Hc]. rewrite Hst in Hp.
        rewrite Hp, ts_on_error_axios, Hc. reflexivity.
      * rewrite Hp, ts_on_error_axios, Hc. reflexivity.
  - intros Hcall. rewrite (js_handleMcpRequest_call_tool _ Hcall).
    destruct (js_call_tool_plan request) as [p [Hl H]]. rewrite H.
    pose proof (plan_outcome (ServerJs.result_envelope request)
                  (ServerJs.on_error request) p net log) as Hp.
    destruct p as [e|v|req'].
    + rewrite Hp, (js_on_error_local _ _ _ _ _ _ Hcall Hl). simpl.
      intros Hlog. now apply app_one_neq in Hlog.
    + rewrite Hp. simpl. intros Hlog. now apply app_one_neq in Hlog.
    + assert (Hfst : fst (try_catch (run_plan (ServerJs.result_envelope request) (Call req'))
                            (ServerJs.on_error request) net log)
                     = log ++ [req']).
      { destruct (net (List.length log) req') as [st d|msg];
          [destruct (ok_status st)|]; rewrite Hp.
        - now rewrite (try_catch_normal _ _ _ _ _ _
                         (result_envelope_run _ _ _ _ _ _ Hcall)).
        - now rewrite (js_on_error_axios _ _ _ _ _ _ _ Hcall).
        - now rewrite (js_on_error_axios _ _ _ _ _ _ _ Hcall). }
      rewrite Hfst. intros Hreq. apply app_one_inv in Hreq. subst req'.
      pose proof (reported_chosen _ _ _ _ Hrep) as Hc.
      destruct (net (List.length log) req) as [st d|msg].
      * destruct Hc as [Hst Hc]. rewrite Hst in Hp.
        rewrite Hp, (js_on_error_axios _ _ _ _ _ _ _ Hcall), Hc. reflexivity.
      * rewrite Hp, (js_on_error_axios _ _ _ _ _ _ _ Hcall), Hc. reflexivity.
Qed.

Lemma C2_backend_error_is_reported_in_the_result_witness :
  snd (Mt5Server.callTool (tool_call JNull "tools/call" "get_open_positions" JUndefined)
         not_initialized [])
  = Normal (api_error_block (lit "MT5 not initialized"))
  /\ snd (ServerJs.handleMcpRequest
            (tool_call JNull "call_tool" "get_open_positions" JUndefined)
            not_initialized [])
     = Normal (js_result (tool_call JNull "call_tool" "get_open_positions" JUndefined)
                 (api_error_block (lit "MT5 not initialized"))).
Proof.
  assert (Hrep : reported
                   (not_initialized (List.length (@nil HttpRequest))
                      {| client := apiClient; method := GET; url := lit "/positions";
                         body := None |})
                   (lit "MT5 not initialized")).
  { split; [reflexivity|]. left. split; [discriminate | reflexivity]. }
  split.
  - apply (C2_backend_error_is_reported_in_the_result
             (tool_call JNull "tools/call" "get_open_positions" JUndefined)
             not_initialized [] _ _ Hrep).
    reflexivity.
  - apply (C2_backend_error_is_reported_in_the_result
             (tool_call JNull "call_tool" "get_open_positions" JUndefined)
             not_initialized [] _ _ Hrep); reflexivity.
Defined.

(** ** Optional parameters *)

Lemma ts_issues (request : JsValue) (req : HttpRequest) :
  (forall net log, Mt5Server.dispatch request net log = run_plan ret (Call req) net log) ->
  forall net log, fst (Mt5Server.callTool request net log) = log ++ [req].
Proof.
  intros H net log. unfold Mt5Server.callTool, try_catch. rewrite H.
  pose proof (plan_outcome ret Mt5Server.on_error (Call req) net log) as Hp.
  unfold try_catch in Hp.
  destruct (net (List.length log) req) as [st d|msg];
    [destruct (ok_status st)|]; rewrite Hp; try reflexivity;
    rewrite ts_on_error_axios; reflexivity.
Qed.

(** C1 at its failing inputs.  The guards of [modify_order] and
    [run_optimization] look at the required parameters only: a [sl] that is
    a string and an [optimization_mode] outside the enumeration pass them,
    and the handler of mt5-server.ts sends the request to the backend and
    returns what the backend answers. *)
Theorem C1_optional_parameters_are_not_checked :
  let bad_sl := JObject [(lit "ticket", JNumber (int 1)); (lit "sl", JString (lit "abc"))] in
  let bad_mode :=
    JObject [(lit "symbol", JString (lit "EURUSD")); (lit "ea", JString (lit "E.ex5"));
             (lit "period", JString (lit "H1"));
             (lit "date_from", JString (lit "2024-01-01"));
             (lit "date_to", JString (lit "2024-03-01"));
             (lit "deposit", JNumber (int 10000)); (lit "params", JObject []);
             (lit "optimization_mode", JString (lit "random"))] in
  isModifyOrderArg bad_sl = Normal true
  /\ isRunOptimizationArg bad_mode = Normal true
  /\ (forall net log,
       fst (Mt5Server.callTool (tool_call JNull "tools/call" "modify_order" bad_sl) net log)
       = log ++ [{| client := apiClient; method := PUT; url := lit "/order/1";
                    body := Some (JObject [(lit "sl", JString (lit "abc"));
                                           (lit "tp", JUndefined)]) |}]
       /\ fst (Mt5Server.callTool (tool_call JNull "tools/call" "run_optimization" bad_mode)
                 net log)
          = log ++ [{| client := flaskClient; method := POST; url := lit "/optimize";
                       body := Some bad_mode |}])
  /\ snd (Mt5Server.callTool (tool_call JNull "tools/call" "modify_order" bad_sl)
            ticket_123 [])
     = Normal (JObject [(lit "content", JArray [text_block (JString ticket_123_text)])])
  /\ snd (Mt5Server.callTool (tool_call JNull "tools/call" "run_optimization" bad_mode)
            ticket_123 [])
     = Normal (JObject [(lit "content", JArray [text_block (JString ticket_123_text)])]).
Proof.
  intros bad_sl bad_mode. split; [reflexivity|]. split; [reflexivity|].
  split; [|split; reflexivity].
  intros net log. split; apply ts_issues; intros net' log'; reflexivity.
Qed.

Lemma js_issues (request : JsValue) (req : HttpRequest) :
  is_tool_call request ->
  (forall net log,
     ServerJs.dispatch request net log
     = run_plan (ServerJs.result_envelope request) (Call req) net log) ->
  forall net log, fst (ServerJs.handleMcpRequest request net log) = log ++ [req].
Proof.
  intros Hcall H net log. rewrite (js_handleMcpRequest_call_tool _ Hcall).
  unfold ServerJs.call_tool, try_catch. rewrite H.
  pose proof (plan_outcome (ServerJs.result_envelope request)
                (ServerJs.on_error request) (Call req) net log) as Hp.
  unfold try_catch in Hp.
  destruct (net (List.length log) req) as [st d|msg];
    [destruct (ok_status st)|]; rewrite Hp.
  - now rewrite (result_envelope_run _ _ _ _ _ _ Hcall).
  - now rewrite (js_on_error_axios _ _ _ _ _ _ _ Hcall).
  - now rewrite (js_on_error_axios _ _ _ _ _ _ _ Hcall).
Qed.

(** ** create_order *)

(** C5, as stated, fails on the text of the block: the handler serializes
    the response with an indentation of two spaces, so the text is not
    [{"ticket":123}]. *)
Lemma C5_text_is_not_the_compact_json :
  snd (Mt5Server.callTool (tool_call JNull "tools/call" "create_order" buy_eurusd)
         ticket_123 [])
  <> Normal (JObject [(lit "content", JArray [text_block (JString ticket_123_compact)])])
  /\ snd (ServerJs.handleMcpRequest (tool_call JNull "call_tool" "create_order" buy_eurusd)
            ticket_123 [])
     <> Normal (js_result (tool_call JNull "call_tool" "create_order" buy_eurusd)
                  (JObject [(lit "content",
                             JArray [text_block (JString ticket_123_compact)])])).
Proof. split; discriminate. Qed.

Lemma js_create_order_buy (net : Network) (log : list HttpRequest) :
  ServerJs.handleCreateOrder buy_eurusd net log
  = run_plan ret (Call {| client := apiClient; method := POST; url := lit "/order";
                          body := Some buy_eurusd |}) net log.
Proof.
  unfold ServerJs.handleCreateOrder.
  change (isOrderArg buy_eurusd) with (@Normal bool true).
  cbv beta iota delta [bind lift negb]. rewrite rethrowing_id. reflexivity.
Qed.

(** C5, amended.  A [create_order] call with the arguments
    [{symbol:"EURUSD", type:"BUY", volume:0.1}] issues exactly one request,
    POST /order with those arguments as its body, through the client of
    the account API; when the response is 200 with the body [{ticket:123}],
    the call returns a result whose single content block is a text block
    holding that body serialized with an indentation of two spaces. *)
Theorem C5_create_order_posts_once (id : JsValue) (net : Network)
    (log : list HttpRequest) :
  let order := {| client := apiClient; method := POST; url := lit "/order";
                  body := Some buy_eurusd |} in
  let result := JObject [(lit "content", JArray [text_block (JString ticket_123_text)])] in
  net (List.length log) order
  = HttpResponse 200 (JObject [(lit "ticket", JNumber (int 123))]) ->
  Mt5Server.callTool (tool_call id "tools/call" "create_order" buy_eurusd) net log
  = (log ++ [order], Normal result)
  /\ ServerJs.handleMcpRequest (tool_call id "call_tool" "create_order" buy_eurusd) net log
     = (log ++ [order],
        Normal (js_result (tool_call id "call_tool" "create_order" buy_eurusd) result))
  /\ content_blocks result = [text_block (JString ticket_123_text)]
  /\ error_marked result = false.
Proof.
  intros order result Hnet. split; [|split; [|split; reflexivity]].
  - unfold Mt5Server.callTool.
    pose proof (plan_outcome ret Mt5Server.on_error (Call order) net log) as Hp.
    cbv beta iota in Hp. rewrite Hnet in Hp. simpl ok_status in Hp. cbv iota in Hp.
    transitivity (try_catch (run_plan ret (Call order)) Mt5Server.on_error net log);
      [reflexivity|].
    rewrite Hp. reflexivity.
  - set (request := tool_call id "call_tool" "create_order" buy_eurusd).
    set (params := JObject [(lit "name", JString (lit "create_order"));
                            (lit "arguments", buy_eurusd)]).
    assert (Hcall : is_tool_call request) by reflexivity.
    assert (Hparams : get request (lit "params") = Normal params) by reflexivity.
    assert (Hname : get params (lit "name") = Normal (JString (lit "create_order")))
      by reflexivity.
    assert (Hargs : get params (lit "arguments") = Normal buy_eurusd) by reflexivity.
    assert (Hd : forall net' log',
               ServerJs.dispatch request net' log'
               = run_plan (ServerJs.result_envelope request) (Call order) net' log').
    { intros net' log'. rewrite (js_dispatch_route _ _ _ Hparams Hname).
      change (ServerJs.route request (JString (lit "create_order")))
        with (ServerJs.answered request
                (ServerJs.with_arguments request ServerJs.handleCreateOrder)).
      apply js_answered_call. intros net'' log''.
      rewrite (js_with_arguments _ _ _ _ Hparams Hargs). apply js_create_order_buy. }
    rewrite (js_handleMcpRequest_call_tool _ Hcall). unfold ServerJs.call_tool.
    pose proof (plan_outcome (ServerJs.result_envelope request)
                  (ServerJs.on_error request) (Call order) net log) as Hp.
    cbv beta iota in Hp. rewrite Hnet in Hp.
    change (ok_status 200) with true in Hp. cbv iota in Hp.
    transitivity (try_catch (run_plan (ServerJs.result_envelope request) (Call order))
                    (ServerJs.on_error request) net log).
    + unfold try_catch. now rewrite Hd.
    + rewrite Hp.
      rewrite (try_catch_normal _ _ _ _ _ _ (result_envelope_run _ _ _ _ _ _ Hcall)).
      reflexivity.
Qed.

Lemma C5_create_order_posts_once_witness :
  Mt5Server.callTool (tool_call (JNumber (int 1)) "tools/call" "create_order" buy_eurusd)
    ticket_123 []
  = ([{| client := apiClient; method := POST; url := lit "/order";
         body := Some buy_eurusd |}],
     Normal (JObject [(lit "content", JArray [text_block (JString ticket_123_text)])]))
  /\ ServerJs.handleMcpRequest
       (tool_call (JNumber (int 1)) "call_tool" "create_order" buy_eurusd) ticket_123 []
     = ([{| client := apiClient; method := POST; url := lit "/order";
            body := Some buy_eurusd |}],
        Normal (js_result (tool_call (JNumber (int 1)) "call_tool" "create_order" buy_eurusd)
                  (JObject [(lit "content",
                             JArray [text_block (JString ticket_123_text)])])))
  /\ content_blocks
       (JObject [(lit "content", JArray [text_block (JString ticket_123_text)])])
     = [text_block (JString ticket_123_text)]
  /\ error_marked
       (JObject [(lit "content", JArray [text_block (JString ticket_123_text)])])
     = false.
Proof.
  apply (C5_create_order_posts_once (JNumber (int 1)) ticket_123 []).
  reflexivity.
Defined.

(** ** get_account_info *)

Lemma account_default_ts (args : JsValue) :
  isAccountInfoArg args = Normal true ->
  truthy (prop args "account") = false ->
  forall net log,
    Mt5Server.handleGetAccountInfo args net log
    = run_plan ret (Call {| client := apiClient; method := GET; url := lit "/account";
                            body := None |}) net log.
Proof.
  intros Hguard Hfalsy net log. unfold Mt5Server.handleGetAccountInfo.
  rewrite Hguard. rewrite isAccountInfoArg_spec in Hguard.
  injection Hguard as Hguard. apply andb_true_iff in Hguard as [Hobj _].
  rewrite (field_object_like args _ Hobj).
  unfold bind, lift. simpl negb. cbv iota. rewrite Hfalsy. reflexivity.
Qed.

Lemma account_default_js (args : JsValue) :
  isAccountInfoArg args = Normal true ->
  truthy (prop args "account") = false ->
  forall net log,
    ServerJs.handleGetAccountInfo args net log
    = run_plan ret (Call {| client := apiClient; method := GET; url := lit "/account";
                            body := None |}) net log.
Proof.
  intros Hguard Hfalsy net log. unfold ServerJs.handleGetAccountInfo.
  rewrite Hguard. rewrite isAccountInfoArg_spec in Hguard.
  injection Hguard as Hguard. apply andb_true_iff in Hguard as [Hobj _].
  rewrite (field_object_like args _ Hobj).
  cbv beta iota delta [bind lift negb]. rewrite rethrowing_id.
  unfold bind, lift. rewrite Hfalsy. reflexivity.
Qed.

(** An account that passes the guard and is falsy is treated as if the
    parameter were absent. *)
Lemma a_falsy_account_that_passes_the_guard (request args : JsValue)
    (net : Network) (log : list HttpRequest) :
  let default_account := {| client := apiClient; method := GET; url := lit "/account";
                            body := None |} in
  names_tool request (lit "get_account_info") args ->
  isAccountInfoArg args = Normal true ->
  truthy (prop args "account") = false ->
  fst (Mt5Server.callTool request net log) = log ++ [default_account]
  /\ Mt5Server.handleGetAccountInfo args net log
     = Mt5Server.handleGetAccountInfo (JObject []) net log
  /\ (is_tool_call request ->
      fst (ServerJs.handleMcpRequest request net log) = log ++ [default_account])
  /\ ServerJs.handleGetAccountInfo args net log
     = ServerJs.handleGetAccountInfo (JObject []) net log.
Proof.
  intros default_account [params [Hparams [Hname Hargs]]] Hguard Hfalsy.
  repeat split.
  - apply ts_issues. intros net' log'.
    rewrite (ts_dispatch_route _ _ _ Hparams Hname).
    change (Mt5Server.route request (JString (lit "get_account_info")))
      with (Mt5Server.with_arguments request Mt5Server.handleGetAccountInfo).
    rewrite (ts_with_arguments _ _ _ _ Hparams Hargs).
    now apply account_default_ts.
  - rewrite (account_default_ts _ Hguard Hfalsy).
    now rewrite (account_default_ts (JObject [])).
  - intros Hcall. apply js_issues; [exact Hcall|]. intros net' log'.
    rewrite (js_dispatch_route _ _ _ Hparams Hname).
    change (ServerJs.route request (JString (lit "get_account_info")))
      with (ServerJs.answered request
              (ServerJs.with_arguments request ServerJs.handleGetAccountInfo)).
    apply js_answered_call. intros net'' log''.
    rewrite (js_with_arguments _ _ _ _ Hparams Hargs).
    now apply account_default_js.
  - rewrite (account_default_js _ Hguard Hfalsy).
    now rewrite (account_default_js (JObject [])).
Qed.

(** An account that is neither [undefined] nor a number does not pass the
    guard: the call is refused and nothing is sent. *)
Lemma an_account_of_another_type_is_refused (request args : JsValue)
    (net : Network) (log : list HttpRequest) :
  names_tool request (lit "get_account_info") args ->
  is_undefined (prop args "account") = false ->
  has_type "number" args "account" = false ->
  Mt5Server.callTool request net log
  = (log, Throw (McpError InvalidParams (lit "Invalid account info arguments")))
  /\ (is_tool_call request ->
      ServerJs.handleMcpRequest request net log
      = (log, Normal (js_error request (-32603)
                        (lit "Unexpected error: "
                         ++ lit "Invalid account info arguments")))).
Proof.
  intros [params [Hparams [Hname Hargs]]] Hu Hn.
  assert (Hfalse : isAccountInfoArg args = Normal false).
  { rewrite isAccountInfoArg_spec, Hu, Hn. now rewrite andb_false_r. }
  split.
  - apply (ts_rejected request params args "get_account_info" isAccountInfoArg
             "Invalid account info arguments" Mt5Server.handleGetAccountInfo
             Hparams Hname Hargs eq_refl (ts_handleGetAccountInfo_checked args) Hfalse).
  - intros Hcall.
    apply (js_rejected request params args "get_account_info" isAccountInfoArg
             "Invalid account info arguments" ServerJs.handleGetAccountInfo
             Hcall Hparams Hname Hargs eq_refl (js_handleGetAccountInfo_checked args)
             Hfalse).
Qed.

(** C9, as stated, fails for the falsy value [null]: the guard refuses it,
    and no request is issued, neither GET /account nor any other. *)
Lemma C9_a_null_account_is_refused :
  let args := JObject [(lit "account", JNull)] in
  let request := tool_call (JNumber (int 1)) "call_tool" "get_account_info" args in
  truthy (prop args "account") = false
  /\ Mt5Server.callTool request ticket_123 []
     = ([], Throw (McpError InvalidParams (lit "Invalid account info arguments")))
  /\ ServerJs.handleMcpRequest request ticket_123 []
     = ([], Normal (js_error request (-32603)
                      (lit "Unexpected error: Invalid account info arguments"))).
Proof. repeat split. Qed.

(** C9, amended.  The arguments of a [get_account_info] call are an object
    and their [account] is falsy.  Seven values are falsy.  For four of
    them, [undefined] (no account) and the numbers 0, -0 and NaN, the call
    issues GET /account, the request of a call without [account], and not
    GET /account/0.  For the other three, [null], [false] and the empty
    string, the guard refuses the call: mt5-server.ts throws InvalidParams,
    server.js answers with the error -32603, and nothing is sent. *)
Theorem C9_falsy_account_uses_the_default_endpoint (request args : JsValue)
    (net : Network) (log : list HttpRequest) :
  let default_account := {| client := apiClient; method := GET; url := lit "/account";
                            body := None |} in
  names_tool request (lit "get_account_info") args ->
  object_like args = true ->
  truthy (prop args "account") = false ->
  match prop args "account" with
  | JUndefined | JNumber NaN | JNumber (Zero _) =>
      fst (Mt5Server.callTool request net log) = log ++ [default_account]
      /\ Mt5Server.handleGetAccountInfo args net log
         = Mt5Server.handleGetAccountInfo (JObject []) net log
      /\ (is_tool_call request ->
          fst (ServerJs.handleMcpRequest request net log) = log ++ [default_account])
      /\ ServerJs.handleGetAccountInfo args net log
         = ServerJs.handleGetAccountInfo (JObject []) net log
  | JNull | JBool false | JString [] =>
      Mt5Server.callTool request net log
      = (log, Throw (McpError InvalidParams (lit "Invalid account info arguments")))
      /\ (is_tool_call request ->
          ServerJs.handleMcpRequest request net log
          = (log, Normal (js_error request (-32603)
                            (lit "Unexpected error: "
                             ++ lit "Invalid account info arguments"))))
  | _ => False
  end.
Proof.
  intros default_account Hnames Hobj Hfalsy.
  assert (Hdefault :
            (is_undefined (prop args "account") || has_type "number" args "account")%bool
            = true ->
            fst (Mt5Server.callTool request net log) = log ++ [default_account]
            /\ Mt5Server.handleGetAccountInfo args net log
               = Mt5Server.handleGetAccountInfo (JObject []) net log
            /\ (is_tool_call request ->
                fst (ServerJs.handleMcpRequest request net log)
                = log ++ [default_account])
            /\ ServerJs.handleGetAccountInfo args net log
               = ServerJs.handleGetAccountInfo (JObject []) net log).
  { intros Hg.
    apply (a_falsy_account_that_passes_the_guard request args net log Hnames);
      [|exact Hfalsy].
    now rewrite isAccountInfoArg_spec, Hobj, Hg. }
  pose proof (an_account_of_another_type_is_refused request args net log Hnames)
    as Hrefused.
  unfold has_type in Hdefault, Hrefused.
  destruct (prop args "account") as [| |[|]|[| | |]|[|]| |];
    try discriminate Hfalsy;
    try (apply Hdefault; reflexivity);
    try (apply Hrefused; reflexivity).
Qed.

Lemma C9_falsy_account_uses_the_default_endpoint_witness :
  let zero := JObject [(lit "account", JNumber (int 0))] in
  let default_account := {| client := apiClient; method := GET; url := lit "/account";
                            body := None |} in
  fst (Mt5Server.callTool (tool_call JNull "call_tool" "get_account_info" zero)
         ticket_123 [])
  = [default_account]
  /\ Mt5Server.handleGetAccountInfo zero ticket_123 []
     = Mt5Server.handleGetAccountInfo (JObject []) ticket_123 []
  /\ (is_tool_call (tool_call JNull "call_tool" "get_account_info" zero) ->
      fst (ServerJs.handleMcpRequest (tool_call JNull "call_tool" "get_account_info" zero)
             ticket_123 [])
      = [default_account])
  /\ ServerJs.handleGetAccountInfo zero ticket_123 []
     = ServerJs.handleGetAccountInfo (JObject []) ticket_123 [].
Proof.
  intros zero default_account.
  apply (C9_falsy_account_uses_the_default_endpoint
           (tool_call JNull "call_tool" "get_account_info" zero) zero ticket_123 []).
  - eexists. repeat split; reflexivity.
  - reflexivity.
  - reflexivity.
Defined.

(** ** Framing: one frame at the head of the buffer *)

Lemma strip_prefix_app (p s : jsstring) : strip_prefix p (p ++ s) = Some s.
Proof. induction p as [|x p IH]; simpl; [reflexivity|]. now rewrite N.eqb_refl. Qed.

Lemma uint_units_digits (d : Decimal.uint) : Forall (fun c => is_digit c = true) (uint_units d).
Proof. induction d; simpl; constructor; auto. Qed.

Lemma units_uint_units (d : Decimal.uint) : units_uint (uint_units d) = d.
Proof. induction d; simpl; congruence. Qed.

Lemma parseInt_decimal (n : N) : parseInt (decimal n) = n.
Proof. unfold parseInt, decimal. rewrite units_uint_units. apply DecimalN.Unsigned.of_to. Qed.

Lemma decimal_not_empty (n : N) : decimal n <> [].
Proof.
  unfold decimal. destruct n as [|p]; [discriminate|].
  simpl. pose proof (DecimalPos.Unsigned.to_uint_nonnil p) as H.
  destruct (Pos.to_uint p); simpl; congruence.
Qed.

Lemma take_digits_app (ds rest : jsstring) :
  Forall (fun c => is_digit c = true) ds ->
  match rest with [] => True | c :: _ => is_digit c = false end ->
  ServerJs.take_digits (ds ++ rest) = ds.
Proof.
  intros Hds Hrest. induction Hds as [|d ds Hd _ IH]; simpl.
  - destruct rest as [|c r]; [reflexivity|]. simpl. now rewrite Hrest.
  - rewrite Hd. now rewrite IH.
Qed.

Lemma skipn_length_app {A} (l r : list A) : skipn (List.length l) (l ++ r) = r.
Proof. induction l; simpl; auto. Qed.

Lemma firstn_length_app {A} (l r : list A) : firstn (List.length l) (l ++ r) = l.
Proof. induction l; simpl; congruence. Qed.

Lemma frame_split (content : jsstring) :
  ServerJs.frame content
  = (ServerJs.header_name ++ decimal (N.of_nat (List.length content))
     ++ ServerJs.blank_line) ++ content.
Proof. unfold ServerJs.frame. now rewrite <- !app_assoc. Qed.

Lemma header_length_spec (content : jsstring) :
  List.length (ServerJs.header_name ++ decimal (N.of_nat (List.length content))
               ++ ServerJs.blank_line)
  = header_length content.
Proof. unfold header_length. rewrite !length_app. lia. Qed.

Lemma match_here_frame (content rest : jsstring) :
  ServerJs.match_here (ServerJs.frame content ++ rest)
  = Some (decimal (N.of_nat (List.length content)), header_length content).
Proof.
  unfold ServerJs.match_here, ServerJs.frame.
  rewrite <- !app_assoc, strip_prefix_app.
  rewrite take_digits_app by (apply uint_units_digits || reflexivity).
  destruct (decimal (N.of_nat (List.length content))) as [|d ds] eqn:Hd.
  - now apply decimal_not_empty in Hd.
  - rewrite skipn_length_app, strip_prefix_app. unfold header_length. now rewrite Hd.
Qed.

Lemma regex_match_eq (index : nat) (s : jsstring) :
  ServerJs.regex_match index s
  = match ServerJs.match_here s with
    | Some (digits, len) => Some (index, digits, len)
    | None =>
        match s with
        | [] => None
        | _ :: rest => ServerJs.regex_match (S index) rest
        end
    end.
Proof. destruct s; reflexivity. Qed.

Lemma regex_match_frame (content rest : jsstring) :
  ServerJs.regex_match 0 (ServerJs.frame content ++ rest)
  = Some (O, decimal (N.of_nat (List.length content)), header_length content).
Proof. now rewrite regex_match_eq, match_here_frame. Qed.

Section Loop.

(** The state that the loop body works on, and the loop body. *)
Context {State : Type} (body : jsstring -> State -> State).

Lemma drain_step (fuel : nat)
    (buffer : jsstring) (st : State) :
  ServerJs.drain body (Datatypes.S fuel) buffer st
  = match ServerJs.regex_match 0 buffer with
    | None => (buffer, st)
    | Some (index, digits, len) =>
        if N.of_nat (List.length buffer) <? N.of_nat (index + len) + parseInt digits
        then (buffer, st)
        else
          ServerJs.drain body fuel
            (skipn (N.to_nat (N.of_nat (index + len) + parseInt digits)) buffer)
            (body (ServerJs.substring (index + len)
                     (N.to_nat (N.of_nat (index + len) + parseInt digits)) buffer) st)
    end.
Proof. reflexivity. Qed.

(** The loop cuts the frame at the head of the buffer, whatever its
    content and whatever follows, and goes on with what follows. *)
Lemma drain_frame (fuel : nat)
    (content rest : jsstring) (st : State) :
  ServerJs.drain body (Datatypes.S fuel) (ServerJs.frame content ++ rest) st
  = ServerJs.drain body fuel rest (body content st).
Proof.
  rewrite drain_step, regex_match_frame, parseInt_decimal.
  change (0 + header_length content)%nat with (header_length content).
  rewrite <- Nnat.Nat2N.inj_add, Nnat.Nat2N.id.
  assert (Hlen : List.length (ServerJs.frame content ++ rest)
                 = (header_length content + List.length content + List.length rest)%nat).
  { rewrite frame_split, length_app, length_app, header_length_spec. lia. }
  rewrite Hlen.
  destruct (N.ltb_spec (N.of_nat (header_length content + List.length content
                                  + List.length rest))
              (N.of_nat (header_length content + List.length content))) as [Hlt|_];
    [lia|].
  pose proof (header_length_spec content) as Hh. rewrite frame_split.
  set (header := ServerJs.header_name ++ decimal (N.of_nat (List.length content))
                 ++ ServerJs.blank_line) in *.
  f_equal.
  - replace (header_length content + List.length content)%nat
      with (List.length (header ++ content)) by (rewrite length_app; lia).
    apply skipn_length_app.
  - f_equal. unfold ServerJs.substring.
    replace (header_length content + List.length content - header_length content)%nat
      with (List.length content) by lia.
    rewrite <- Hh, <- app_assoc, skipn_length_app.
    apply firstn_length_app.
Qed.

(** ** Framing: the loop ends, and consumes whole frames in order *)

Lemma match_here_length (s digits : jsstring) (len : nat) :
  ServerJs.match_here s = Some (digits, len) -> (0 < len)%nat.
Proof.
  unfold ServerJs.match_here.
  destruct (strip_prefix ServerJs.header_name s) as [rest|]; [|discriminate].
  destruct (ServerJs.take_digits rest) as [|d ds]; [discriminate|].
  destruct (strip_prefix ServerJs.blank_line _); [|discriminate].
  intros H. injection H as _ <-. simpl. lia.
Qed.

Lemma regex_match_length (s : jsstring) :
  forall (i index : nat) (digits : jsstring) (len : nat),
    ServerJs.regex_match i s = Some (index, digits, len) -> (0 < len)%nat.
Proof.
  induction s as [|c s IH]; intros i index digits len; rewrite regex_match_eq;
    destruct (ServerJs.match_here _) as [[ds l]|] eqn:Hm;
    try discriminate;
    try (intros H; injection H as _ _ <-; now apply match_here_length in Hm).
  apply IH.
Qed.

(** Fuel above the length of the buffer is never used up. *)
Lemma drain_fuel (f1 : nat) :
  forall (f2 : nat) (buffer : jsstring) (st : State),
    (List.length buffer < f1)%nat -> (List.length buffer < f2)%nat ->
    ServerJs.drain body f1 buffer st = ServerJs.drain body f2 buffer st.
Proof.
  induction f1 as [|f1 IH]; intros f2 buffer st H1 H2; [lia|].
  destruct f2 as [|f2]; [lia|].
  rewrite !drain_step.
  destruct (ServerJs.regex_match 0 buffer) as [[[index digits] len]|] eqn:Hm;
    [|reflexivity].
  apply regex_match_length in Hm.
  destruct (N.ltb_spec (N.of_nat (List.length buffer))
              (N.of_nat (index + len) + parseInt digits)) as [_|Hge]; [reflexivity|].
  apply IH; rewrite length_skipn; lia.
Qed.

Lemma process_nil (st : State) :
  process body [] st = ([], st).
Proof. reflexivity. Qed.

Lemma frame_length (content : jsstring) :
  (0 < List.length (ServerJs.frame content))%nat.
Proof. unfold ServerJs.frame. rewrite length_app. simpl. lia. Qed.

Lemma process_frame (content rest : jsstring)
    (st : State) :
  process body (ServerJs.frame content ++ rest) st = process body rest (body content st).
Proof.
  unfold process. rewrite drain_frame.
  pose proof (frame_length content) as Hf.
  apply drain_fuel; rewrite ?length_app; lia.
Qed.

Lemma process_frames (contents : list jsstring) :
  forall (rest : jsstring) (st : State),
    process body (List.concat (map ServerJs.frame contents) ++ rest) st
    = process body rest (fold_left (fun s content => body content s) contents st).
Proof.
  induction contents as [|c cs IH]; intros rest st; cbn [map List.concat fold_left];
    [reflexivity|].
  rewrite <- app_assoc, process_frame. apply IH.
Qed.

Lemma on_data_process (buffer : jsstring)
    (st : State) (chunk : list byte) :
  ServerJs.on_data body (buffer, st) chunk = process body (buffer ++ utf8_decode chunk) st.
Proof. reflexivity. Qed.


(** ** Framing: an incomplete frame waits in the buffer *)

Lemma strip_prefix_proper (p s rest : jsstring) :
  p = s ++ rest -> rest <> [] -> strip_prefix p s = None.
Proof.
  revert p. induction s as [|c s IH]; intros p -> Hrest; simpl.
  - destruct rest; [contradiction|reflexivity].
  - rewrite N.eqb_refl. now apply IH.
Qed.

Lemma Forall_app_l {A} (P : A -> Prop) (l r : list A) : Forall P (l ++ r) -> Forall P l.
Proof. intros H. now apply Forall_app in H. Qed.

Lemma take_digits_all (ds : jsstring) :
  Forall (fun c => is_digit c = true) ds -> ServerJs.take_digits ds = ds.
Proof.
  intros H. rewrite <- (app_nil_r ds) at 1. now apply take_digits_app.
Qed.

Lemma match_here_header (n : N) (rest : jsstring) :
  ServerJs.match_here (ServerJs.header_name ++ decimal n ++ ServerJs.blank_line ++ rest)
  = Some (decimal n,
          (List.length ServerJs.header_name + List.length (decimal n)
           + List.length ServerJs.blank_line)%nat).
Proof.
  unfold ServerJs.match_here. rewrite strip_prefix_app.
  rewrite take_digits_app by (apply uint_units_digits || reflexivity).
  destruct (decimal n) as [|d ds] eqn:Hd.
  - now apply decimal_not_empty in Hd.
  - rewrite skipn_length_app, strip_prefix_app. reflexivity.
Qed.

(** A proper prefix of a header is not matched at its start. *)
Lemma match_here_proper_prefix (n : N) (X Y : jsstring) :
  X ++ Y = ServerJs.header_name ++ decimal n ++ ServerJs.blank_line ->
  Y <> [] ->
  ServerJs.match_here X = None.
Proof.
  intros H HY. unfold ServerJs.match_here.
  apply app_eq_app in H as [l [[-> H] | [H ->]]].
  - rewrite strip_prefix_app. symmetry in H.
    apply app_eq_app in H as [l2 [[-> H] | [H ->]]].
    + rewrite take_digits_app.
      * destruct (decimal n) as [|d ds] eqn:Hd; [reflexivity|].
        rewrite skipn_length_app.
        now rewrite (strip_prefix_proper _ _ _ H HY).
      * apply uint_units_digits.
      * destruct l2 as [|c l2]; [exact I|].
        injection H as <- _. reflexivity.
    + pose proof (uint_units_digits (N.to_uint n)) as Hd. fold (decimal n) in Hd.
      rewrite H in Hd. apply Forall_app_l in Hd.
      rewrite (take_digits_all _ Hd).
      destruct l as [|d ds]; [reflexivity|].
      now rewrite skipn_all.
  - destruct l as [|c l].
    + rewrite app_nil_r in H. subst X. rewrite <- (app_nil_r ServerJs.header_name) at 2.
      rewrite strip_prefix_app. reflexivity.
    + now rewrite (strip_prefix_proper _ _ (c :: l) H).
Qed.

Lemma strip_header_cons (c : N) (s : jsstring) :
  strip_prefix ServerJs.header_name (c :: s)
  = if 67 =? c then strip_prefix (tl ServerJs.header_name) s else None.
Proof. reflexivity. Qed.

Lemma regex_match_without_C (s : jsstring) :
  forall i, Forall (fun c => c <> 67) s -> ServerJs.regex_match i s = None.
Proof.
  induction s as [|c s IH]; intros i H; rewrite regex_match_eq.
  - reflexivity.
  - inversion H as [|? ? Hc Hs]; subst.
    unfold ServerJs.match_here. rewrite strip_header_cons.
    destruct (N.eqb_spec 67 c) as [<-|_]; [contradiction|].
    now apply IH.
Qed.

Lemma header_tail_without_C (n : N) :
  Forall (fun c => c <> 67)
    (tl (ServerJs.header_name ++ decimal n ++ ServerJs.blank_line)).
Proof.
  simpl. repeat (constructor; [discriminate|]).
  apply Forall_app. split.
  - pose proof (uint_units_digits (N.to_uint n)) as Hd. fold (decimal n) in Hd.
    eapply Forall_impl; [|exact Hd]. intros c Hc ->. discriminate Hc.
  - repeat (constructor; [discriminate|]). constructor.
Qed.

(** In a proper prefix of a header the expression matches nowhere. *)
Lemma regex_match_proper_prefix (n : N) (X Y : jsstring) :
  X ++ Y = ServerJs.header_name ++ decimal n ++ ServerJs.blank_line ->
  Y <> [] ->
  ServerJs.regex_match 0 X = None.
Proof.
  intros H HY. rewrite regex_match_eq, (match_here_proper_prefix n X Y H HY).
  destruct X as [|x X]; [reflexivity|].
  apply regex_match_without_C.
  pose proof (header_tail_without_C n) as Ht. rewrite <- H in Ht. simpl in Ht.
  now apply Forall_app_l in Ht.
Qed.

(** What is left of the stream when a frame is cut short stays in the
    buffer, and nothing is handed to the loop body. *)
Lemma process_proper_prefix (content X Y : jsstring) (st : State) :
  ServerJs.frame content = X ++ Y -> Y <> [] -> process body X st = (X, st).
Proof.
  intros H HY. unfold process. rewrite drain_step.
  unfold ServerJs.frame in H. rewrite !app_assoc in H. symmetry in H.
  apply app_eq_app in H as [l [[-> Hc] | [Hh HYl]]].
  - rewrite <- !app_assoc, regex_match_eq, match_here_header, parseInt_decimal.
    rewrite !length_app, Hc, length_app.
    destruct Y as [|y Y]; [contradiction|]. simpl List.length.
    match goal with
    | |- context [N.ltb ?a ?b] => destruct (N.ltb_spec a b) as [_|Hge]; [reflexivity|lia]
    end.
  - rewrite <- !app_assoc in Hh. symmetry in Hh.
    destruct l as [|c l].
    + rewrite app_nil_r in Hh. subst X. simpl in HYl. subst Y.
      rewrite <- (app_nil_r (ServerJs.header_name ++ _)).
      rewrite <- !app_assoc, regex_match_eq, match_here_header, parseInt_decimal.
      rewrite !length_app. destruct content as [|y Y]; [contradiction|].
      simpl List.length.
      match goal with
      | |- context [N.ltb ?a ?b] => destruct (N.ltb_spec a b) as [_|Hge]; [reflexivity|lia]
      end.
    + rewrite (regex_match_proper_prefix _ X (c :: l) Hh) by discriminate.
      reflexivity.
Qed.

(** ** Framing: any split of the stream *)

(** A prefix of a stream of frames is some whole frames and then nothing
    or a frame cut short. *)
Lemma prefix_of_frames (contents : list jsstring) :
  forall P R : jsstring,
    List.concat (map ServerJs.frame contents) = P ++ R ->
    exists (whole : list jsstring) (X : jsstring),
      P = List.concat (map ServerJs.frame whole) ++ X
      /\ (X = [] \/ exists content Y, ServerJs.frame content = X ++ Y /\ Y <> []).
Proof.
  induction contents as [|c cs IH]; intros P R H; cbn [map List.concat] in H.
  - symmetry in H. apply app_eq_nil in H as [-> _]. exists [], []. split; [reflexivity|].
    now left.
  - apply app_eq_app in H as [l [[Hf HR] | [-> Hl]]].
    + destruct l as [|x l].
      * rewrite app_nil_r in Hf. exists [c], []. cbn [map List.concat].
        rewrite !app_nil_r. split; [now symmetry|now left].
      * exists [], P. split; [reflexivity|]. right. exists c, (x :: l).
        split; [exact Hf|discriminate].
    + destruct (IH l R Hl) as [whole [X [-> HX]]].
      exists (c :: whole), X. cbn [map List.concat]. rewrite <- app_assoc.
      split; [reflexivity|exact HX].
Qed.

Lemma process_prefix (contents : list jsstring)
    (P R : jsstring) (st : State) :
  List.concat (map ServerJs.frame contents) = P ++ R ->
  exists (X : jsstring) (st' : State),
    process body P st = (X, st')
    /\ forall Z, process body (P ++ Z) st = process body (X ++ Z) st'.
Proof.
  intros H. destruct (prefix_of_frames contents P R H) as [whole [X [-> HX]]].
  exists X, (fold_left (fun s content => body content s) whole st). split.
  - rewrite process_frames. destruct HX as [-> | [content [Y [Hf HY]]]].
    + apply process_nil.
    + apply (process_proper_prefix content X Y _ Hf HY).
  - intros Z. now rewrite <- app_assoc, process_frames.
Qed.

Lemma feed_prefix (contents : list jsstring)
    (chunks : list (list byte)) :
  forall (P R : jsstring) (st : State),
    List.concat (map ServerJs.frame contents)
    = P ++ List.concat (map utf8_decode chunks) ++ R ->
    fold_left (ServerJs.on_data body) chunks (process body P st)
    = process body (P ++ List.concat (map utf8_decode chunks)) st.
Proof.
  induction chunks as [|c cs IH]; intros P R st H; cbn [map List.concat fold_left].
  - now rewrite app_nil_r.
  - cbn [map List.concat] in H.
    destruct (process_prefix contents P _ st H) as [X [st' [HP HZ]]].
    rewrite HP, on_data_process, <- HZ, app_assoc.
    apply (IH _ R). now rewrite <- !app_assoc in *.
Qed.

(** The framing round trip in code units: when the chunks, each decoded on
    its own, make up a stream of frames whose headers count code units,
    the loop hands the payloads to its body one by one, in order, and leaves
    the buffer empty, wherever the chunks are split. *)
Lemma framing_round_trip (contents : list jsstring) (chunks : list (list byte)) (st : State) :
  List.concat (map utf8_decode chunks) = List.concat (map ServerJs.frame contents) ->
  ServerJs.feed body st chunks
  = ([], fold_left (fun s content => body content s) contents st).
Proof.
  intros H. unfold ServerJs.feed. rewrite <- (process_nil st).
  rewrite (feed_prefix contents chunks [] [] st)
    by (now rewrite app_nil_r, H).
  cbn [app]. rewrite H, <- (app_nil_r (List.concat _)), process_frames.
  apply process_nil.
Qed.

End Loop.

(** ** A payload that does not parse *)

(** On a stream whose frames are cut as the loop measures them, in code
    units: when the loop cuts a complete frame whose payload [JSON.parse]
    rejects, the error is written to the error stream, nothing is written
    to standard output, the frame is gone from the buffer, and the loop goes
    on with what follows exactly as it would without the bad frame. *)
Lemma a_bad_frame_in_code_units_is_skipped
    (JSON_parse : jsstring -> Completion JsValue) (net : Network)
    (bad : jsstring) (error : Thrown) (buffer : jsstring) (chunk : list byte)
    (rest : jsstring) (p : ServerJs.Process) :
  JSON_parse bad = Throw error ->
  buffer ++ utf8_decode chunk = ServerJs.frame bad ++ rest ->
  let logged := {| ServerJs.stdout := ServerJs.stdout p;
                   ServerJs.stderr := ServerJs.stderr p ++ [error];
                   ServerJs.requests := ServerJs.requests p |} in
  ServerJs.on_data (ServerJs.serve JSON_parse net) (buffer, p) chunk
  = process (ServerJs.serve JSON_parse net) rest logged
  /\ (forall later : list jsstring,
        rest = List.concat (map ServerJs.frame later) ->
        ServerJs.on_data (ServerJs.serve JSON_parse net) (buffer, p) chunk
        = ([], fold_left (fun q content => ServerJs.serve JSON_parse net content q)
                 later logged)).
Proof.
  intros Hbad Hbuf logged.
  assert (Hfirst : ServerJs.on_data (ServerJs.serve JSON_parse net) (buffer, p) chunk
                   = process (ServerJs.serve JSON_parse net) rest logged).
  { rewrite on_data_process, Hbuf, process_frame.
    unfold ServerJs.serve at 2. rewrite Hbad. reflexivity. }
  split; [exact Hfirst|].
  intros later ->. rewrite Hfirst.
  rewrite <- (app_nil_r (List.concat _)), process_frames. apply process_nil.
Qed.

(** C8 at its failing input.  The stream holds two messages, each framed
    with the byte length of its payload: the text of an open brace and the
    letter U+00E9, which is no JSON and takes three bytes, and a well-formed
    [initialize] request.  The loop takes the length 3 for a count of code
    units and cuts the two code units of the bad payload together with the
    [C] of the next header.  The error is logged, but the header of the
    second message is broken: the message stays in the buffer and is never
    processed nor answered.  With a bad payload in ASCII, the same stream is
    recovered from and the request is answered. *)
Theorem C8_a_bad_frame_takes_the_next_message_with_it :
  let stream := SpecFraming.encode brace_e_acute ++ SpecFraming.encode initialize_text in
  let final := ServerJs.feed (ServerJs.serve parse_example not_initialized) idle [stream] in
  let ascii := SpecFraming.encode (lit "{oops") ++ SpecFraming.encode initialize_text in
  let recovered :=
    ServerJs.feed (ServerJs.serve parse_example not_initialized) idle [ascii] in
  SpecFraming.encode brace_e_acute
  = utf8_encode (lit "Content-Length: 3" ++ ServerJs.blank_line ++ brace_e_acute)
  /\ List.length brace_e_acute = 2%nat
  /\ ServerJs.feed ServerJs.collect [] [stream]
     = (lit "ontent-Length: 30" ++ ServerJs.blank_line ++ initialize_text,
        [brace_e_acute ++ lit "C"])
  /\ fst final = lit "ontent-Length: 30" ++ ServerJs.blank_line ++ initialize_text
  /\ ServerJs.stderr (snd final) = [SyntaxError (lit "Unexpected token")]
  /\ ServerJs.stdout (snd final) = []
  /\ fst recovered = []
  /\ ServerJs.stderr (snd recovered) = [SyntaxError (lit "Unexpected token")]
  /\ List.length (ServerJs.stdout (snd recovered)) = 1%nat.
Proof. repeat split; vm_compute; reflexivity. Qed.

Lemma fold_collect (contents seen : list jsstring) :
  fold_left (fun s content => ServerJs.collect content s) contents seen = seen ++ contents.
Proof.
  revert seen. induction contents as [|c cs IH]; intros seen; simpl.
  - now rewrite app_nil_r.
  - rewrite IH. unfold ServerJs.collect. now rewrite <- app_assoc.
Qed.

(** ** Framing: bytes and code units *)

Lemma ascii_not_surrogate (c : N) :
  c < 128 -> is_high_surrogate c = false /\ is_low_surrogate c = false.
Proof.
  intros H. unfold is_high_surrogate, is_low_surrogate.
  destruct (N.leb_spec 55296 c); [lia|]. destruct (N.leb_spec 56320 c); [lia|].
  split; reflexivity.
Qed.

Lemma utf8_encode_ascii (s : jsstring) : ascii_only s -> utf8_encode s = map byte_of s.
Proof.
  induction 1 as [|c s Hc _ IH]; [reflexivity|].
  cbn [utf8_encode map]. destruct (ascii_not_surrogate c Hc) as [-> ->].
  unfold utf8_code_point. destruct (N.ltb_spec c 0x80); [|lia].
  now rewrite IH.
Qed.

Lemma to_N_byte_of (c : N) : c < 256 -> Byte.to_N (byte_of c) = c.
Proof.
  intros H. unfold byte_of. destruct (Byte.of_N c) as [b|] eqn:E.
  - now apply Byte.to_of_N.
  - apply Byte.of_N_None_iff in E. lia.
Qed.

Lemma utf8_decode_ascii (bytes : list byte) :
  Forall (fun b => Byte.to_N b < 128) bytes -> utf8_decode bytes = map Byte.to_N bytes.
Proof.
  unfold utf8_decode. induction 1 as [|b bytes Hb _ IH]; [reflexivity|].
  cbn [utf8_run map]. unfold utf8_step, utf8_lead.
  change (bytes_needed utf8_start =? 0) with true. cbv iota.
  destruct (N.leb_spec (Byte.to_N b) 0x7F); [|lia].
  now rewrite IH.
Qed.

Lemma decode_encoded_ascii (s : jsstring) (chunks : list (list byte)) :
  ascii_only s ->
  List.concat chunks = map byte_of s ->
  List.concat (map utf8_decode chunks) = s.
Proof.
  intros Hs Hc.
  assert (Hb : Forall (fun b => Byte.to_N b < 128) (List.concat chunks)).
  { rewrite Hc. apply Forall_map. eapply Forall_impl; [|exact Hs].
    intros c H. cbv beta in *. rewrite to_N_byte_of; lia. }
  apply Forall_concat in Hb.
  transitivity (List.concat (map (map Byte.to_N) chunks)).
  - f_equal. apply map_ext_Forall. eapply Forall_impl; [|exact Hb].
    intros chunk. apply utf8_decode_ascii.
  - rewrite <- concat_map, Hc, map_map.
    rewrite <- (map_id s) at 2. apply map_ext_Forall.
    eapply Forall_impl; [|exact Hs]. intros c H. cbv beta in *. apply to_N_byte_of. lia.
Qed.

Lemma decimal_ascii (n : N) : ascii_only (decimal n).
Proof.
  eapply Forall_impl; [|apply uint_units_digits]. intros c H. simpl in H.
  unfold is_digit in H. apply andb_true_iff in H as [_ H]. apply N.leb_le in H. lia.
Qed.

Lemma frame_ascii (content : jsstring) : ascii_only content -> ascii_only (ServerJs.frame content).
Proof.
  intros H. unfold ServerJs.frame, ascii_only. rewrite !Forall_app. repeat split.
  - repeat (constructor; [reflexivity|]). constructor.
  - apply decimal_ascii.
  - repeat (constructor; [reflexivity|]). constructor.
  - exact H.
Qed.

(** For ASCII payloads the bytes of the specification's framing are the
    code units of the frames the loop expects. *)
Lemma encode_ascii (payload : jsstring) :
  ascii_only payload -> SpecFraming.encode payload = map byte_of (ServerJs.frame payload).
Proof.
  intros H. unfold SpecFraming.encode, ServerJs.frame.
  rewrite !map_app, (utf8_encode_ascii payload H), length_map.
  rewrite (utf8_encode_ascii (decimal _) (decimal_ascii _)).
  reflexivity.
Qed.

Lemma encode_all_ascii (payloads : list jsstring) :
  Forall ascii_only payloads ->
  SpecFraming.encode_all payloads
  = map byte_of (List.concat (map ServerJs.frame payloads))
  /\ ascii_only (List.concat (map ServerJs.frame payloads)).
Proof.
  unfold SpecFraming.encode_all.
  induction 1 as [|p ps Hp _ [IH1 IH2]]; cbn [map List.concat].
  - split; [reflexivity|constructor].
  - split.
    + now rewrite map_app, IH1, (encode_ascii p Hp).
    + apply Forall_app. split; [now apply frame_ascii|exact IH2].
Qed.

(** The round trip of the specification holds for ASCII payloads: their
    frames, with byte lengths in the headers, split into chunks anywhere,
    come out as the same payloads in the same order. *)
Lemma framing_round_trip_ascii (payloads : list jsstring) (chunks : list (list byte)) :
  Forall ascii_only payloads ->
  List.concat chunks = SpecFraming.encode_all payloads ->
  ServerJs.feed ServerJs.collect [] chunks = ([], payloads).
Proof.
  intros Hp Hc. destruct (encode_all_ascii payloads Hp) as [He Ha].
  rewrite He in Hc.
  rewrite (framing_round_trip ServerJs.collect payloads chunks [])
    by (apply (decode_encoded_ascii _ _ Ha Hc)).
  now rewrite fold_collect.
Qed.

(** C6 at its failing input.  The JSON text of the string U+00E9 takes four
    bytes and three code units.  Framed with its byte length, as the claim
    has it, and fed to the loop in one chunk, it is never handed over: the
    loop waits for a fourth code unit.  Followed by a second message, it is
    cut one code unit too long, and the second message is lost with the
    first letter of its header.  The encoder of server.js writes the code
    unit count, 3, in the header of the same payload. *)
Theorem C6_byte_lengths_misframe_non_ascii_payloads :
  JSON_stringify 0 (JString [233]) = JString e_acute_text
  /\ List.length (utf8_encode e_acute_text) = 4%nat
  /\ List.length e_acute_text = 3%nat
  /\ SpecFraming.encode e_acute_text
     = utf8_encode (lit "Content-Length: 4" ++ ServerJs.blank_line ++ e_acute_text)
  /\ ServerJs.feed ServerJs.collect [] [SpecFraming.encode e_acute_text]
     = (lit "Content-Length: 4" ++ ServerJs.blank_line ++ e_acute_text, [])
  /\ ServerJs.feed ServerJs.collect []
       [SpecFraming.encode e_acute_text ++ SpecFraming.encode (lit "{}")]
     = (lit "ontent-Length: 2" ++ ServerJs.blank_line ++ lit "{}",
        [e_acute_text ++ lit "C"])
  /\ ServerJs.frame e_acute_text
     = lit "Content-Length: 3" ++ ServerJs.blank_line ++ e_acute_text.
Proof. repeat split; vm_compute; reflexivity. Qed.


(* ===================================================================== *)
(** * The rest of server.js and mt5-server.ts *)
(* ===================================================================== *)

(** ** The listener: splits, leftovers and the end of the loop *)

(** X1.  Whatever the payloads hold, when the chunks decode to a stream of frames
    whose headers count code units, the payloads are handed over one by one,
    in order, and the buffer ends empty. *)
Theorem frames_come_out_in_order (contents : list jsstring) (chunks : list (list byte)) :
  List.concat (map utf8_decode chunks) = List.concat (map ServerJs.frame contents) ->
  ServerJs.feed ServerJs.collect [] chunks = ([], contents).
Proof.
  intros H. rewrite (framing_round_trip ServerJs.collect contents chunks [] H).
  now rewrite fold_collect.
Qed.

Lemma frames_come_out_in_order_witness :
  ServerJs.feed ServerJs.collect []
    [utf8_encode (ServerJs.frame e_acute_text ++ firstn 7 (ServerJs.frame (lit "{}")));
     utf8_encode (skipn 7 (ServerJs.frame (lit "{}")))]
  = ([], [e_acute_text; lit "{}"]).
Proof.
  apply (frames_come_out_in_order [e_acute_text; lit "{}"]).
  reflexivity.
Defined.

(** X2.  A frame that arrives in two chunks: after the first nothing is handed
    over and all of it stays in the buffer; after the second the content is
    handed over once and the buffer is empty. *)
Theorem partial_frame_waits {State : Type} (body : jsstring -> State -> State)
    (content X Y : jsstring) (first second : list byte) (st : State) :
  ServerJs.frame content = X ++ Y ->
  Y <> [] ->
  utf8_decode first = X ->
  utf8_decode second = Y ->
  ServerJs.on_data body ([], st) first = (X, st)
  /\ ServerJs.on_data body (X, st) second = ([], body content st).
Proof.
  intros Hf HY H1 H2. rewrite !on_data_process, H1, H2. split.
  - apply (process_proper_prefix body content X Y st Hf HY).
  - rewrite <- Hf, <- (app_nil_r (ServerJs.frame content)), process_frame.
    apply process_nil.
Qed.

Lemma partial_frame_waits_witness :
  ServerJs.on_data ServerJs.collect ([], [])
    (utf8_encode (firstn 19 (ServerJs.frame (lit "hello"))))
  = (firstn 19 (ServerJs.frame (lit "hello")), [])
  /\ ServerJs.on_data ServerJs.collect (firstn 19 (ServerJs.frame (lit "hello")), [])
       (utf8_encode (skipn 19 (ServerJs.frame (lit "hello"))))
     = ([], [lit "hello"]).
Proof.
  apply (partial_frame_waits ServerJs.collect (lit "hello")
           (firstn 19 (ServerJs.frame (lit "hello")))
           (skipn 19 (ServerJs.frame (lit "hello")))).
  - reflexivity.
  - discriminate.
  - reflexivity.
  - reflexivity.
Defined.

Lemma regex_match_skip (junk s : jsstring) :
  forall i,
    Forall (fun c => c <> 67) junk ->
    ServerJs.regex_match i (junk ++ s) = ServerJs.regex_match (i + List.length junk) s.
Proof.
  induction junk as [|c junk IH]; intros i H; cbn [app List.length].
  - now rewrite Nat.add_0_r.
  - inversion H as [|? ? Hc Hj]; subst.
    rewrite regex_match_eq. unfold ServerJs.match_here at 1. rewrite strip_header_cons.
    destruct (N.eqb_spec 67 c) as [<-|_]; [contradiction|].
    rewrite (IH (S i) Hj). f_equal. lia.
Qed.

Lemma regex_match_index (s : jsstring) :
  forall i index digits len,
    ServerJs.regex_match i s = Some (index, digits, len) ->
    forall j, ServerJs.regex_match j s = Some ((j + (index - i))%nat, digits, len)
              /\ (i <= index)%nat.
Proof.
  induction s as [|c s IH]; intros i index digits len; rewrite regex_match_eq;
    destruct (ServerJs.match_here _) as [[ds l]|] eqn:Hm; try discriminate;
    intros H j; rewrite regex_match_eq, Hm;
    try (injection H as -> -> ->; split; [|lia]; do 3 f_equal; lia).
  destruct (IH _ _ _ _ H (S j)) as [Hj Hle].
  rewrite Hj. split; [|lia]. do 3 f_equal. lia.
Qed.

(** X3.  The expression is searched anywhere in the buffer: code units in front
    of a header (here without the letter C, so that no header starts in
    them) are dropped with the frame that follows them, and the content of
    that frame is handed over as if they were not there. *)
Theorem code_units_before_a_header_are_dropped {State : Type}
    (body : jsstring -> State -> State) (junk content rest : jsstring) (st : State) :
  Forall (fun c => c <> 67) junk ->
  process body (junk ++ ServerJs.frame content ++ rest) st
  = process body rest (body content st).
Proof.
  intros Hjunk. unfold process. rewrite drain_step, (regex_match_skip _ _ 0 Hjunk).
  cbn [Nat.add].
  pose proof (regex_match_index _ _ _ _ _ (regex_match_frame content rest)
                (List.length junk)) as [Hm _].
  rewrite Hm, parseInt_decimal, Nat.sub_0_r, Nat.add_0_r.
  rewrite <- Nnat.Nat2N.inj_add, Nnat.Nat2N.id.
  pose proof (header_length_spec content) as Hh. rewrite frame_split.
  set (header := ServerJs.header_name ++ decimal (N.of_nat (List.length content))
                 ++ ServerJs.blank_line) in *.
  assert (Hlen : List.length (junk ++ (header ++ content) ++ rest)
                 = (List.length junk + header_length content + List.length content
                    + List.length rest)%nat).
  { rewrite !length_app, Hh. lia. }
  rewrite Hlen.
  match goal with
  | |- context [N.ltb ?a ?b] => destruct (N.ltb_spec a b) as [Hlt|_]; [lia|]
  end.
  unfold ServerJs.substring.
  replace (List.length junk + header_length content + List.length content
           - (List.length junk + header_length content))%nat
    with (List.length content) by lia.
  assert (Hskip1 : skipn (List.length junk + header_length content)
                     (junk ++ (header ++ content) ++ rest) = content ++ rest).
  { rewrite <- Hh, <- length_app, <- app_assoc, app_assoc. apply skipn_length_app. }
  assert (Hskip2 : skipn (List.length junk + header_length content + List.length content)
                     (junk ++ (header ++ content) ++ rest) = rest).
  { rewrite <- Hh, <- !length_app, app_assoc.
    rewrite <- (app_assoc junk header content). apply skipn_length_app. }
  rewrite Hskip1, Hskip2, firstn_length_app.
  assert (Hpos : (0 < header_length content)%nat)
    by (unfold header_length; simpl List.length; lia).
  apply drain_fuel; lia.
Qed.

Lemma code_units_before_a_header_are_dropped_witness :
  process ServerJs.collect
    (lit "ontent-Length: 2" ++ ServerJs.blank_line ++ lit "{}"
     ++ ServerJs.frame (lit "[]") ++ lit "Cont") []
  = process ServerJs.collect (lit "Cont") [lit "[]"].
Proof.
  apply (code_units_before_a_header_are_dropped ServerJs.collect
           (lit "ontent-Length: 2" ++ ServerJs.blank_line ++ lit "{}")
           (lit "[]") (lit "Cont") []).
  repeat (constructor; [discriminate|]). constructor.
Defined.

Lemma drain_suffix {State : Type} (body : jsstring -> State -> State) (fuel : nat) :
  forall (buffer : jsstring) (st : State),
    exists k, fst (ServerJs.drain body fuel buffer st) = skipn k buffer.
Proof.
  induction fuel as [|fuel IH]; intros buffer st.
  - exists O. reflexivity.
  - rewrite drain_step.
    destruct (ServerJs.regex_match 0 buffer) as [[[index digits] len]|];
      [|exists O; reflexivity].
    match goal with
    | |- context [N.ltb ?a ?b] => destruct (N.ltb a b); [exists O; reflexivity|]
    end.
    match goal with
    | |- context [ServerJs.drain body fuel (skipn ?k buffer) ?s] =>
        destruct (IH (skipn k buffer) s) as [k1 Hk]; exists (k1 + k)%nat
    end.
    rewrite Hk. apply skipn_skipn.
Qed.

(** X4.  The loop ends: the fuel of the listener is never used up, more fuel
    changes nothing, and what is left in the buffer is the buffer without
    some of its first code units. *)
Theorem the_loop_ends {State : Type} (body : jsstring -> State -> State)
    (fuel : nat) (buffer : jsstring) (st : State) :
  (List.length buffer < fuel)%nat ->
  ServerJs.drain body fuel buffer st = process body buffer st
  /\ exists k, fst (process body buffer st) = skipn k buffer.
Proof.
  intros H. split.
  - apply drain_fuel; lia.
  - apply drain_suffix.
Qed.

Lemma the_loop_ends_witness :
  ServerJs.drain ServerJs.collect 100 (ServerJs.frame (lit "{}") ++ lit "Content-") []
  = process ServerJs.collect (ServerJs.frame (lit "{}") ++ lit "Content-") []
  /\ exists k,
       fst (process ServerJs.collect (ServerJs.frame (lit "{}") ++ lit "Content-") [])
       = skipn k (ServerJs.frame (lit "{}") ++ lit "Content-").
Proof.
  apply (the_loop_ends ServerJs.collect 100
           (ServerJs.frame (lit "{}") ++ lit "Content-") []).
  apply Nat.ltb_lt. reflexivity.
Defined.

(** ** The log of the calls of the client *)

Lemma result_envelope_fst (request result : JsValue) (net : Network)
    (log : list HttpRequest) :
  fst (ServerJs.result_envelope request result net log) = log.
Proof.
  unfold ServerJs.result_envelope, bind, lift, ret.
  destruct (get request (lit "id")); reflexivity.
Qed.

Lemma error_envelope_fst (request : JsValue) (code : Z) (message : Async jsstring)
    (net : Network) (log : list HttpRequest) :
  (forall net' log', fst (message net' log') = log') ->
  fst (ServerJs.error_envelope request code message net log) = log.
Proof.
  intros H. unfold ServerJs.error_envelope, bind, lift, ret.
  destruct (get request (lit "id")); [|reflexivity].
  pose proof (H net log) as Hm. destruct (message net log) as [log' [text|e]];
    simpl in Hm; subst; reflexivity.
Qed.

Lemma shown_fst (prefix : jsstring) (v : JsValue) (net : Network) (log : list HttpRequest) :
  fst ((shown <- lift (ToString v) ;; ret (prefix ++ shown)) net log) = log.
Proof. unfold bind, lift, ret. destruct (ToString v); reflexivity. Qed.

Lemma api_error_result_fst (e : Thrown) (net : Network) (log : list HttpRequest) :
  fst (api_error_result e net log) = log.
Proof.
  unfold api_error_result, bind, lift, ret.
  destruct (failure_message e) as [m|e']; [|reflexivity].
  destruct (ToString m); reflexivity.
Qed.

Lemma js_on_error_fst (request : JsValue) (e : Thrown) (net : Network)
    (log : list HttpRequest) :
  fst (ServerJs.on_error request e net log) = log.
Proof.
  unfold ServerJs.on_error. destruct (isAxiosError e).
  - unfold bind. pose proof (api_error_result_fst e net log) as H.
    destruct (api_error_result e net log) as [log' [r|e']]; simpl in H; subst;
      [apply result_envelope_fst | reflexivity].
  - apply error_envelope_fst. reflexivity.
Qed.

Lemma ts_on_error_fst (e : Thrown) (net : Network) (log : list HttpRequest) :
  fst (Mt5Server.on_error e net log) = log.
Proof.
  unfold Mt5Server.on_error. destruct (isAxiosError e).
  - apply api_error_result_fst.
  - destruct e; reflexivity.
Qed.

(** The log after a plan under a [catch] whose handler issues no request. *)
Lemma plan_log (wrap : JsValue -> Async JsValue) (handler : Thrown -> Async JsValue)
    (p : Plan) (net : Network) (log : list HttpRequest) :
  (forall v net' log', fst (wrap v net' log') = log') ->
  (forall e net' log', fst (handler e net' log') = log') ->
  fst (try_catch (run_plan wrap p) handler net log)
  = match p with Call req => log ++ [req] | _ => log end.
Proof.
  intros Hw Hh. destruct p as [e|v|req]; unfold try_catch, run_plan.
  - apply Hh.
  - reflexivity.
  - unfold bind. rewrite request_run.
    destruct (match net (List.length log) req with
              | HttpResponse st d => _
              | TransportFailure msg => _
              end) as [r|e].
    + pose proof (Hw (tool_result r) net (log ++ [req])) as H.
      destruct (wrap (tool_result r) net (log ++ [req])) as [log' [a|e]]; simpl in H; subst;
        [reflexivity | apply Hh].
    + apply Hh.
Qed.

Lemma ts_log_step (request : JsValue) (net : Network) (log : list HttpRequest) :
  fst (Mt5Server.callTool request net log) = log
  \/ exists req, fst (Mt5Server.callTool request net log) = log ++ [req].
Proof.
  destruct (ts_callTool_plan request) as [p [_ H]]. rewrite H.
  rewrite (plan_log ret Mt5Server.on_error p net log)
    by (reflexivity || apply ts_on_error_fst).
  destruct p; eauto.
Qed.

Lemma js_call_tool_log_step (request : JsValue) (net : Network) (log : list HttpRequest) :
  fst (ServerJs.call_tool request net log) = log
  \/ exists req, fst (ServerJs.call_tool request net log) = log ++ [req].
Proof.
  destruct (js_call_tool_plan request) as [p [_ H]]. rewrite H.
  rewrite (plan_log (ServerJs.result_envelope request) (ServerJs.on_error request) p net log)
    by (intros; apply result_envelope_fst || apply js_on_error_fst).
  destruct p; eauto.
Qed.

Lemma js_log_step (request : JsValue) (net : Network) (log : list HttpRequest) :
  fst (ServerJs.handleMcpRequest request net log) = log
  \/ exists req, fst (ServerJs.handleMcpRequest request net log) = log ++ [req].
Proof.
  unfold ServerJs.handleMcpRequest, bind at 1, lift at 1.
  destruct (get request (lit "method")) as [m|e]; [|now left].
  revert net log.
  match goal with
  | |- forall net log, fst (switch m ?cs ?d net log) = _ \/ _ =>
      apply (switch_preserves
               (fun c : Async JsValue =>
                  forall net log,
                    fst (c net log) = log \/ exists req, fst (c net log) = log ++ [req])
               m cs d)
  end.
  - repeat match goal with
           | |- Forall _ (_ :: _) => apply Forall_cons
           | |- Forall _ [] => apply Forall_nil
           end; cbn [snd]; intros net log.
    + left. apply result_envelope_fst.
    + apply js_call_tool_log_step.
    + left. apply result_envelope_fst.
  - intros net log. left. apply error_envelope_fst. intros. apply shown_fst.
Qed.

(** X5.  A message makes at most one call of the HTTP client and leaves the
    calls made before it in the log, whatever the request and whatever the
    client settles with: so does [handleMcpRequest] of server.js for any
    message, and the call-tool handler of mt5-server.ts.  The log counts the
    calls of [get], [post], [put] and [delete] that the code makes; a
    redirect that the client follows on its own, within one call, is not in
    it. *)
Theorem a_message_calls_the_client_at_most_once (request : JsValue) (net : Network)
    (log : list HttpRequest) :
  (exists more,
     fst (ServerJs.handleMcpRequest request net log) = log ++ more
     /\ (List.length more <= 1)%nat)
  /\ (exists more,
        fst (Mt5Server.callTool request net log) = log ++ more
        /\ (List.length more <= 1)%nat).
Proof.
  split.
  - destruct (js_log_step request net log) as [H | [req H]]; rewrite H.
    + exists []. rewrite app_nil_r. split; [reflexivity | simpl; lia].
    + exists [req]. split; [reflexivity | simpl; lia].
  - destruct (ts_log_step request net log) as [H | [req H]]; rewrite H.
    + exists []. rewrite app_nil_r. split; [reflexivity | simpl; lia].
    + exists [req]. split; [reflexivity | simpl; lia].
Qed.

(** ** The length that the writer announces *)

Lemma utf8_code_point_narrow (cp : N) :
  cp < 128 -> List.length (utf8_code_point cp) = 1%nat.
Proof.
  intros H. unfold utf8_code_point. destruct (N.ltb_spec cp 0x80); [reflexivity | lia].
Qed.

Lemma utf8_code_point_wide (cp : N) :
  128 <= cp -> (2 <= List.length (utf8_code_point cp))%nat.
Proof.
  intros H. unfold utf8_code_point.
  destruct (N.ltb_spec cp 0x80); [lia|].
  destruct (N.ltb_spec cp 0x800); [simpl; lia|].
  destruct (N.ltb_spec cp 0x10000); simpl; lia.
Qed.

Lemma utf8_code_point_astral (cp : N) :
  0x10000 <= cp -> List.length (utf8_code_point cp) = 4%nat.
Proof.
  intros H. unfold utf8_code_point.
  destruct (N.ltb_spec cp 0x80); [lia|].
  destruct (N.ltb_spec cp 0x800); [lia|].
  destruct (N.ltb_spec cp 0x10000); [lia | reflexivity].
Qed.

Lemma surrogate_not_ascii (c : N) :
  is_high_surrogate c = true \/ is_low_surrogate c = true -> 128 <= c.
Proof.
  unfold is_high_surrogate, is_low_surrogate.
  intros [H | H]; apply andb_true_iff in H as [H _]; apply N.leb_le in H; lia.
Qed.

(** A string takes at least as many bytes as it has code units, and as many
    only when all of them are ASCII. *)
Lemma utf8_encode_length (n : nat) :
  forall s : jsstring,
    (List.length s <= n)%nat ->
    (List.length s <= List.length (utf8_encode s))%nat
    /\ (List.length (utf8_encode s) = List.length s -> ascii_only s).
Proof.
  induction n as [|n IH]; intros s Hn.
  - destruct s; [|simpl in Hn; lia]. split; [reflexivity | constructor].
  - destruct s as [|c rest]; [split; [reflexivity | constructor]|].
    cbn [List.length] in Hn.
    destruct (IH rest ltac:(lia)) as [Hle Heq].
    cbn [utf8_encode].
    destruct (is_high_surrogate c) eqn:Hh.
    + destruct rest as [|d rest'].
      * cbn. split; [lia | intros H; discriminate H].
      * destruct (is_low_surrogate d) eqn:Hl.
        -- cbn [List.length] in Hn.
           destruct (IH rest' ltac:(lia)) as [Hle' _].
           rewrite length_app, utf8_code_point_astral by lia.
           cbn [List.length]. split; [lia | intros H; lia].
        -- rewrite length_app. change (List.length (utf8_code_point replacement)) with 3%nat.
           cbn [List.length] in *. split; [lia | intros H; lia].
    + destruct (is_low_surrogate c) eqn:Hl.
      * rewrite length_app. change (List.length (utf8_code_point replacement)) with 3%nat.
        cbn [List.length]. split; [lia | intros H; lia].
      * rewrite length_app. cbn [List.length].
        destruct (N.lt_ge_cases c 128) as [Hc | Hc].
        -- rewrite (utf8_code_point_narrow c Hc). split; [lia|].
           intros H. constructor; [exact Hc | apply Heq; lia].
        -- pose proof (utf8_code_point_wide c Hc). split; [lia | intros H'; lia].
Qed.

Lemma utf8_encode_app_ascii (a s : jsstring) :
  ascii_only a -> utf8_encode (a ++ s) = utf8_encode a ++ utf8_encode s.
Proof.
  induction 1 as [|c a Hc _ IH]; [reflexivity|].
  cbn [app utf8_encode]. destruct (ascii_not_surrogate c Hc) as [-> ->].
  now rewrite IH, app_assoc.
Qed.

Lemma decimal_inj (a b : N) : decimal a = decimal b -> a = b.
Proof.
  intros H. apply (f_equal parseInt) in H. now rewrite !parseInt_decimal in H.
Qed.

Lemma byte_of_inj (x y : jsstring) :
  ascii_only x -> ascii_only y -> map byte_of x = map byte_of y -> x = y.
Proof.
  intros Hx. revert y. induction Hx as [|c x Hc _ IH]; intros [|d y] Hy H;
    try discriminate H; [reflexivity|].
  inversion Hy as [|d' y' Hd Hy']; subst. cbn [map] in H. injection H as Hcd Hrest.
  cbv beta in Hc, Hd.
  apply (f_equal Byte.to_N) in Hcd. rewrite !to_N_byte_of in Hcd by lia.
  subst d. f_equal. now apply IH.
Qed.

Lemma header_name_ascii : ascii_only ServerJs.header_name.
Proof. repeat (constructor; [reflexivity|]). constructor. Qed.

Lemma blank_line_ascii : ascii_only ServerJs.blank_line.
Proof. repeat (constructor; [reflexivity|]). constructor. Qed.

(** X6.  The header that server.js writes in front of a reply states the
    number of code units of the reply, [responseContent.length], while the
    reply goes out as UTF-8.  A reply never takes fewer bytes than it has
    code units, and it takes as many exactly when it is ASCII: so the bytes
    written are the frame that the framing rule asks for, with the byte
    length in the header, if and only if the reply is ASCII, and for any
    other reply the header announces fewer bytes than follow. *)
Theorem the_announced_length_is_the_byte_length_for_ascii_only (content : jsstring) :
  (List.length content <= List.length (utf8_encode content))%nat
  /\ (List.length (utf8_encode content) = List.length content <-> ascii_only content)
  /\ (utf8_encode (ServerJs.frame content) = SpecFraming.encode content
      <-> ascii_only content).
Proof.
  destruct (utf8_encode_length (List.length content) content (le_n _)) as [Hle Heq].
  split; [exact Hle|]. split.
  - split; [exact Heq|]. intros Ha. now rewrite (utf8_encode_ascii content Ha), length_map.
  - split.
    + intros H. apply Heq. unfold ServerJs.frame, SpecFraming.encode in H.
      rewrite (utf8_encode_app_ascii _ _ header_name_ascii) in H.
      rewrite (utf8_encode_app_ascii _ _ (decimal_ascii _)) in H.
      rewrite (utf8_encode_app_ascii _ _ blank_line_ascii) in H.
      apply app_inv_head in H. rewrite !app_assoc in H.
      apply app_inv_tail in H. apply app_inv_tail in H.
      rewrite !(utf8_encode_ascii _ (decimal_ascii _)) in H.
      apply (byte_of_inj _ _ (decimal_ascii _) (decimal_ascii _)) in H.
      apply decimal_inj in H. apply Nat2N.inj in H. now symmetry.
    + intros Ha. rewrite (encode_ascii content Ha).
      apply utf8_encode_ascii. now apply frame_ascii.
Qed.

(** ** The replies of the two dispatchers *)

Lemma ToString_TypeError (v : JsValue) (e : Thrown) :
  ToString v = Throw e -> exists m, e = TypeError m.
Proof.
  revert e. induction v as [| | [|] |n|s|items IH|properties _] using JsValue_nested_ind;
    intros e; try (simpl; discriminate).
  - induction IH as [|x rest Hx _ IHrest]; [simpl; discriminate|].
    rewrite ToString_array_cons.
    destruct (match x with JUndefined | JNull => Normal [] | _ => ToString x end)
      as [s|e'] eqn:Ex; cbv beta iota delta [bindC].
    + destruct rest as [|y rest']; [discriminate|].
      destruct (ToString (JArray (y :: rest'))) as [t|e''] eqn:Ej.
      * discriminate.
      * intros H; injection H as <-. now apply IHrest.
    + intros H; injection H as <-.
      destruct x; try discriminate; now apply Hx.
  - simpl. destruct (has_own properties (lit "toString")); [|discriminate].
    intros H; injection H as <-. now eexists.
Qed.

Lemma failure_message_normal (e : Thrown) : exists m, failure_message e = Normal m.
Proof.
  unfold failure_message.
  destruct e as [m|m|m|m [r|]|c m]; cbv beta iota delta [bindC]; try (eexists; reflexivity).
  destruct (data r); cbv beta iota delta [get_opt get bindC]; eexists; reflexivity.
Qed.

Lemma api_error_result_outcome (e : Thrown) (net : Network) (log : list HttpRequest) :
  (exists shown, api_error_result e net log = (log, Normal (api_error_block shown)))
  \/ (exists m, api_error_result e net log = (log, Throw (TypeError m))).
Proof.
  unfold api_error_result, bind, lift, ret.
  destruct (failure_message_normal e) as [m ->].
  destruct (ToString m) as [shown|e'] eqn:E.
  - left. now exists shown.
  - right. destruct (ToString_TypeError _ _ E) as [t ->]. now exists t.
Qed.

Lemma log_not_longer {A} (l : list A) (x : A) : l ++ [x] <> l.
Proof.
  intros H. apply (f_equal (@List.length A)) in H. rewrite length_app in H.
  simpl in H. lia.
Qed.

(** What the call-tool handler of mt5-server.ts does with a plan. *)
Lemma ts_plan_result (p : Plan) (net : Network) (log : list HttpRequest) :
  let r := try_catch (run_plan ret p) Mt5Server.on_error net log in
  match p with
  | Reject e =>
      isAxiosError e = false ->
      fst r = log /\ exists code message, snd r = Throw (McpError code message)
  | Reply v => r = (log, Normal v)
  | Call req =>
      fst r = log ++ [req]
      /\ match net (List.length log) req with
         | HttpResponse st d =>
             if ok_status st
             then snd r = Normal (tool_result {| status := st; data := d |})
             else (exists shown, snd r = Normal (api_error_block shown))
                  \/ (exists m, snd r = Throw (TypeError m))
         | TransportFailure msg => snd r = Normal (api_error_block msg)
         end
  end.
Proof.
  intros r. subst r. pose proof (plan_outcome ret Mt5Server.on_error p net log) as Hp.
  destruct p as [e|v|req].
  - intros Hl. rewrite Hp.
    destruct (ts_on_error_local e net log Hl) as [code [message ->]].
    split; [reflexivity | now exists code, message].
  - exact Hp.
  - split.
    + rewrite (plan_log ret Mt5Server.on_error (Call req) net log)
        by (reflexivity || apply ts_on_error_fst). reflexivity.
    + destruct (net (List.length log) req) as [st d|msg]; [destruct (ok_status st)|];
        rewrite Hp.
      * reflexivity.
      * unfold Mt5Server.on_error. cbn [isAxiosError].
        destruct (api_error_result_outcome
                    (AxiosError (lit "Request failed with status code " ++ decimal st)
                       (Some {| status := st; data := d |})) net (log ++ [req]))
          as [[shown ->] | [m ->]]; [left; now exists shown | right; now exists m].
      * rewrite ts_on_error_axios. reflexivity.
Qed.

(** The same for the [call_tool] case of server.js, for a request whose
    properties can be read. *)
Lemma js_plan_result (request : JsValue) (key : jsstring) (x : JsValue) (p : Plan)
    (net : Network) (log : list HttpRequest) :
  get request key = Normal x ->
  let r := try_catch (run_plan (ServerJs.result_envelope request) p)
             (ServerJs.on_error request) net log in
  match p with
  | Reject e =>
      isAxiosError e = false ->
      r = (log, Normal (js_error request (-32603)
                          (lit "Unexpected error: " ++ error_message e)))
  | Reply v => r = (log, Normal v)
  | Call req =>
      fst r = log ++ [req]
      /\ match net (List.length log) req with
         | HttpResponse st d =>
             if ok_status st
             then snd r = Normal (js_result request
                                    (tool_result {| status := st; data := d |}))
             else (exists shown,
                     snd r = Normal (js_result request (api_error_block shown)))
                  \/ (exists m, snd r = Throw (TypeError m))
         | TransportFailure msg =>
             snd r = Normal (js_result request (api_error_block msg))
         end
  end.
Proof.
  intros Hkey r. subst r.
  pose proof (plan_outcome (ServerJs.result_envelope request)
                (ServerJs.on_error request) p net log) as Hp.
  destruct p as [e|v|req].
  - intros Hl. rewrite Hp. apply (js_on_error_local _ _ _ _ _ _ Hkey Hl).
  - exact Hp.
  - split.
    + rewrite (plan_log (ServerJs.result_envelope request) (ServerJs.on_error request)
                 (Call req) net log)
        by (intros; apply result_envelope_fst || apply js_on_error_fst).
      reflexivity.
    + destruct (net (List.length log) req) as [st d|msg]; [destruct (ok_status st)|];
        rewrite Hp.
      * now rewrite (try_catch_normal _ _ _ _ _ _ (result_envelope_run _ _ _ _ _ _ Hkey)).
      * unfold ServerJs.on_error. cbn [isAxiosError]. unfold bind.
        destruct (api_error_result_outcome
                    (AxiosError (lit "Request failed with status code " ++ decimal st)
                       (Some {| status := st; data := d |})) net (log ++ [req]))
          as [[shown ->] | [m ->]].
        -- left. exists shown. now rewrite (result_envelope_run _ _ _ _ _ _ Hkey).
        -- right. now exists m.
      * now rewrite (js_on_error_axios _ _ _ _ _ _ _ Hkey).
Qed.

(** X7.  When the backend answers a tool call with a status from 200 to 299, the
    call returns one text block, not marked as an error, whose text is the
    response body printed as JSON with an indentation of two spaces: for
    every tool of both servers, whatever the body. *)
Theorem a_successful_response_is_returned_as_text (request : JsValue) (net : Network)
    (log : list HttpRequest) (req : HttpRequest) (st : N) (d : JsValue) :
  net (List.length log) req = HttpResponse st d ->
  ok_status st = true ->
  let result := tool_result {| status := st; data := d |} in
  (fst (Mt5Server.callTool request net log) = log ++ [req] ->
   snd (Mt5Server.callTool request net log) = Normal result)
  /\ (is_tool_call request ->
      fst (ServerJs.handleMcpRequest request net log) = log ++ [req] ->
      snd (ServerJs.handleMcpRequest request net log) = Normal (js_result request result))
  /\ content_blocks result = [text_block (JSON_stringify 2 d)]
  /\ error_marked result = false.
Proof.
  intros Hnet Hok result. subst result. repeat split.
  - destruct (ts_callTool_plan request) as [p [Hl H]]. rewrite H.
    pose proof (ts_plan_result p net log) as Hp. cbv zeta in Hp.
    destruct p as [e|v|req'].
    + destruct (Hp Hl) as [-> _]. intros Hlog. symmetry in Hlog.
      now apply log_not_longer in Hlog.
    + rewrite Hp. cbn [fst]. intros Hlog. symmetry in Hlog.
      now apply log_not_longer in Hlog.
    + destruct Hp as [Hfst Hsnd]. rewrite Hfst. intros Hlog.
      apply app_one_inv in Hlog. subst req'. rewrite Hnet, Hok in Hsnd. exact Hsnd.
  - intros Hcall. rewrite (js_handleMcpRequest_call_tool _ Hcall).
    destruct (js_call_tool_plan request) as [p [Hl H]]. rewrite H.
    pose proof (js_plan_result request _ _ p net log Hcall) as Hp. cbv zeta in Hp.
    destruct p as [e|v|req'].
    + rewrite (Hp Hl). cbn [fst]. intros Hlog. symmetry in Hlog.
      now apply log_not_longer in Hlog.
    + rewrite Hp. cbn [fst]. intros Hlog. symmetry in Hlog.
      now apply log_not_longer in Hlog.
    + destruct Hp as [Hfst Hsnd]. rewrite Hfst. intros Hlog.
      apply app_one_inv in Hlog. subst req'. rewrite Hnet, Hok in Hsnd. exact Hsnd.
Qed.

Lemma a_successful_response_is_returned_as_text_witness :
  let request := tool_call JNull "call_tool" "get_open_positions" JUndefined in
  let result :=
    tool_result {| status := 200; data := JObject [(lit "ticket", JNumber (int 123))] |} in
  snd (Mt5Server.callTool request ticket_123 []) = Normal result
  /\ snd (ServerJs.handleMcpRequest request ticket_123 [])
     = Normal (js_result request result).
Proof.
  intros request result.
  destruct (a_successful_response_is_returned_as_text request ticket_123 []
              {| client := apiClient; method := GET; url := lit "/positions";
                 body := None |}
              200 (JObject [(lit "ticket", JNumber (int 123))]) eq_refl eq_refl)
    as [Hts [Hjs _]].
  split; [apply Hts; reflexivity | apply Hjs; reflexivity].
Defined.

Lemma normal_inj {A} (a b : A) : Normal a = Normal b -> a = b.
Proof. intros H. now injection H. Qed.

Lemma js_result_not_error (request request' result : JsValue) (code : Z)
    (message : jsstring) :
  js_result request result <> js_error request' code message.
Proof.
  intros H. apply (f_equal (fun v => prop v "error")) in H. cbv in H. discriminate.
Qed.

(** X8.  A call that ends with an error was refused before anything was sent.
    In mt5-server.ts, with backends whose messages can be printed, an error
    thrown by the call-tool handler is an [McpError] and no request has been
    issued.  In server.js a reply that carries an [error] means that no
    request has been issued. *)
Theorem an_error_means_nothing_was_sent (request : JsValue) (net : Network)
    (log : list HttpRequest) :
  (readable net ->
   forall e,
     snd (Mt5Server.callTool request net log) = Throw e ->
     fst (Mt5Server.callTool request net log) = log
     /\ exists code message, e = McpError code message)
  /\ (forall code message,
        snd (ServerJs.handleMcpRequest request net log)
        = Normal (js_error request code message) ->
        fst (ServerJs.handleMcpRequest request net log) = log).
Proof.
  split.
  - intros Hr e. destruct (ts_callTool_plan request) as [p [Hl H]]. rewrite H.
    pose proof (ts_plan_result p net log) as Hp. cbv zeta in Hp.
    pose proof (plan_outcome ret Mt5Server.on_error p net log) as Ho.
    destruct p as [e'|v|req].
    + destruct (Hp Hl) as [Hfst [code [message Hsnd]]]. rewrite Hfst, Hsnd.
      intros He. injection He as <-. split; [reflexivity | now exists code, message].
    + rewrite Hp. discriminate.
    + destruct Hp as [_ Hsnd].
      destruct (net (List.length log) req) as [st d|msg] eqn:Hnet;
        [destruct (ok_status st)|].
      * rewrite Hsnd. discriminate.
      * rewrite Ho, ts_on_error_axios.
        destruct (readable_chosen net _ req st d
                    (lit "Request failed with status code " ++ decimal st) Hr Hnet)
          as [shown ->].
        discriminate.
      * rewrite Hsnd. discriminate.
  - unfold ServerJs.handleMcpRequest, bind at 1 2, lift at 1 2.
    destruct (get request (lit "method")) as [m|e] eqn:Hm; [|discriminate].
    revert net log.
    match goal with
    | |- forall net log, forall code message,
           snd (switch m ?cs ?d net log) = _ -> _ =>
        apply (switch_preserves
                 (fun c : Async JsValue =>
                    forall net log code message,
                      snd (c net log) = Normal (js_error request code message) ->
                      fst (c net log) = log)
                 m cs d)
    end.
    + repeat match goal with
             | |- Forall _ (_ :: _) => apply Forall_cons
             | |- Forall _ [] => apply Forall_nil
             end; cbn [snd]; intros net log code message.
      * intros _. apply result_envelope_fst.
      * destruct (js_call_tool_plan request) as [p [Hl H]]. rewrite H.
        pose proof (js_plan_result request _ _ p net log Hm) as Hp. cbv zeta in Hp.
        destruct p as [e|v|req].
        -- rewrite (Hp Hl). reflexivity.
        -- rewrite Hp. reflexivity.
        -- destruct Hp as [_ Hsnd].
           destruct (net (List.length log) req) as [st d|msg];
             [destruct (ok_status st)|].
           ++ rewrite Hsnd. intros He. apply normal_inj in He.
              now apply js_result_not_error in He.
           ++ destruct Hsnd as [[shown ->] | [t ->]]; [|discriminate].
              intros He. apply normal_inj in He. now apply js_result_not_error in He.
           ++ rewrite Hsnd. intros He. apply normal_inj in He.
              now apply js_result_not_error in He.
      * intros _. apply result_envelope_fst.
    + intros net log code message _. apply error_envelope_fst. intros. apply shown_fst.
Qed.

Lemma an_error_means_nothing_was_sent_witness :
  let request := tool_call (JNumber (int 4)) "call_tool" "close_position" JNull in
  (fst (Mt5Server.callTool request not_initialized []) = []
   /\ exists code message,
        McpError InvalidParams (lit "Invalid close position arguments")
        = McpError code message)
  /\ fst (ServerJs.handleMcpRequest request not_initialized []) = [].
Proof.
  intros request.
  destruct (an_error_means_nothing_was_sent request not_initialized []) as [Hts Hjs].
  split.
  - apply (Hts not_initialized_readable). reflexivity.
  - apply (Hjs (-32603)%Z (lit "Unexpected error: Invalid close position arguments")).
    reflexivity.
Defined.

(** *** The shape of a reply of server.js *)

Lemma result_envelope_shape (request result : JsValue) (net : Network)
    (log : list HttpRequest) (envelope : JsValue) :
  snd (ServerJs.result_envelope request result net log) = Normal envelope ->
  envelope = js_result request result.
Proof.
  unfold ServerJs.result_envelope, bind, lift, ret.
  destruct (get request (lit "id")) as [id|e] eqn:E; cbn [snd]; [|discriminate].
  intros H. injection H as <-. unfold js_result. now rewrite (get_prop _ _ _ E).
Qed.

Lemma error_envelope_shape (request : JsValue) (code : Z) (message : Async jsstring)
    (net : Network) (log : list HttpRequest) (envelope : JsValue) :
  snd (ServerJs.error_envelope request code message net log) = Normal envelope ->
  exists text, envelope = js_error request code text.
Proof.
  unfold ServerJs.error_envelope, bind, lift, ret.
  destruct (get request (lit "id")) as [id|e] eqn:E; cbn [snd]; [|discriminate].
  destruct (message net log) as [log' [text|e]]; cbn [snd]; [|discriminate].
  intros H. injection H as <-. exists text. unfold js_error.
  now rewrite (get_prop _ _ _ E).
Qed.

Lemma answered_shape (request : JsValue) (handler : Async JsValue) (net : Network)
    (log : list HttpRequest) (envelope : JsValue) :
  snd (ServerJs.answered request handler net log) = Normal envelope ->
  echoes request envelope.
Proof.
  unfold ServerJs.answered, bind.
  destruct (handler net log) as [log' [result|e]]; [|discriminate].
  intros H. left. exists result. exact (result_envelope_shape _ _ _ _ _ H).
Qed.

Lemma on_error_shape (request : JsValue) (e : Thrown) (net : Network)
    (log : list HttpRequest) (envelope : JsValue) :
  snd (ServerJs.on_error request e net log) = Normal envelope ->
  echoes request envelope.
Proof.
  unfold ServerJs.on_error. destruct (isAxiosError e).
  - unfold bind. destruct (api_error_result e net log) as [log' [result|e']];
      [|discriminate].
    intros H. left. exists result. exact (result_envelope_shape _ _ _ _ _ H).
  - intros H. right. exists (-32603)%Z. exact (error_envelope_shape _ _ _ _ _ _ H).
Qed.

Lemma call_tool_shape (request : JsValue) (net : Network) (log : list HttpRequest)
    (envelope : JsValue) :
  snd (ServerJs.call_tool request net log) = Normal envelope ->
  echoes request envelope.
Proof.
  unfold ServerJs.call_tool, try_catch.
  destruct (ServerJs.dispatch request net log) as [log' [answer|e]] eqn:Hd.
  - cbn [snd]. intros H. injection H as <-.
    assert (Hs : snd (ServerJs.dispatch request net log) = Normal answer)
      by now rewrite Hd.
    clear Hd. revert Hs. unfold ServerJs.dispatch, bind at 1 2, lift at 1 2.
    destruct (get request (lit "params")) as [params|e]; [|discriminate].
    destruct (get params (lit "name")) as [name|e]; [|discriminate].
    revert net log answer. unfold ServerJs.route.
    match goal with
    | |- forall net log answer, snd (switch name ?cs ?d net log) = _ -> _ =>
        apply (switch_preserves
                 (fun c : Async JsValue =>
                    forall net log answer,
                      snd (c net log) = Normal answer -> echoes request answer)
                 name cs d)
    end.
    + repeat match goal with
             | |- Forall _ (_ :: _) => apply Forall_cons
             | |- Forall _ [] => apply Forall_nil
             end; cbn [snd]; intros net log answer; apply answered_shape.
    + intros net log answer H. right. exists (-32601)%Z.
      exact (error_envelope_shape _ _ _ _ _ _ H).
  - apply on_error_shape.
Qed.

Lemma js_reply_shape (request : JsValue) (net : Network) (log : list HttpRequest)
    (envelope : JsValue) :
  snd (ServerJs.handleMcpRequest request net log) = Normal envelope ->
  echoes request envelope.
Proof.
  unfold ServerJs.handleMcpRequest, bind at 1, lift at 1.
  destruct (get request (lit "method")) as [m|e]; [|discriminate].
  revert net log envelope.
  match goal with
  | |- forall net log envelope, snd (switch m ?cs ?d net log) = _ -> _ =>
      apply (switch_preserves
               (fun c : Async JsValue =>
                  forall net log envelope,
                    snd (c net log) = Normal envelope -> echoes request envelope)
               m cs d)
  end.
  - repeat match goal with
           | |- Forall _ (_ :: _) => apply Forall_cons
           | |- Forall _ [] => apply Forall_nil
           end; cbn [snd]; intros net log envelope H.
    + left. eexists. exact (result_envelope_shape _ _ _ _ _ H).
    + exact (call_tool_shape _ _ _ _ H).
    + left. eexists. exact (result_envelope_shape _ _ _ _ _ H).
  - intros net log envelope H. right. exists (-32601)%Z.
    exact (error_envelope_shape _ _ _ _ _ _ H).
Qed.

(** X9.  Every reply of [handleMcpRequest] answers the request it was given: it
    is a JSON-RPC 2.0 object that carries the [id] of the request and
    either a [result] or an [error] with a code and a message. *)
Theorem every_reply_echoes_the_request (request : JsValue) (net : Network)
    (log : list HttpRequest) (envelope : JsValue) :
  snd (ServerJs.handleMcpRequest request net log) = Normal envelope ->
  echoes request envelope
  /\ prop envelope "jsonrpc" = JString (lit "2.0")
  /\ prop envelope "id" = prop request "id"
  /\ (is_undefined (prop envelope "error") = false ->
      exists code message,
        prop envelope "error"
        = JObject [(lit "code", JNumber (int code)); (lit "message", JString message)]).
Proof.
  intros H. pose proof (js_reply_shape _ _ _ _ H) as Hs. split; [exact Hs|].
  destruct Hs as [[result ->] | [code [message ->]]].
  - repeat split. intros Hu. discriminate Hu.
  - repeat split. intros _. now exists code, message.
Qed.

Lemma every_reply_echoes_the_request_witness :
  let request := tool_call (JNumber (int 9)) "call_tool" "format_disk" JUndefined in
  let envelope := js_error request (-32601) (lit "Unknown tool: format_disk") in
  echoes request envelope
  /\ prop envelope "jsonrpc" = JString (lit "2.0")
  /\ prop envelope "id" = JNumber (int 9)
  /\ (is_undefined (prop envelope "error") = false ->
      exists code message,
        prop envelope "error"
        = JObject [(lit "code", JNumber (int code)); (lit "message", JString message)]).
Proof.
  intros request envelope.
  apply (every_reply_echoes_the_request request ticket_123 [] envelope). reflexivity.
Defined.

(** ** The methods of server.js *)

Lemma is_string_eq (s : jsstring) (v : JsValue) : is_string s v = true -> v = JString s.
Proof.
  destruct v; try discriminate. unfold is_string. intros H.
  apply jsstring_eqb_eq in H. now subst.
Qed.

Lemma switch_skips {A} (v : JsValue) (cases : list (jsstring * Async A))
    (default : Async A) :
  (forall label, In label (map fst cases) -> v <> JString label) ->
  switch v cases default = default.
Proof.
  induction cases as [|[label body] rest IH]; intros H; [reflexivity|].
  cbn [switch]. destruct (is_string label v) eqn:E.
  - apply is_string_eq in E. exfalso. apply (H label); [now left | exact E].
  - apply IH. intros l Hl. apply H. now right.
Qed.

(** X10.  Only the method [call_tool] reaches a backend: for any other request,
    [list_tools], [initialize], an unknown method or no method at all,
    [handleMcpRequest] issues no HTTP request. *)
Theorem only_tool_calls_reach_the_backends (request : JsValue) (net : Network)
    (log : list HttpRequest) :
  ~ is_tool_call request ->
  fst (ServerJs.handleMcpRequest request net log) = log.
Proof.
  intros Hno. unfold ServerJs.handleMcpRequest, bind at 1, lift at 1.
  unfold is_tool_call in Hno.
  destruct (get request (lit "method")) as [m|e]; [|reflexivity].
  cbn [switch].
  destruct (is_string (lit "list_tools") m); [apply result_envelope_fst|].
  destruct (is_string (lit "call_tool") m) eqn:E.
  - apply is_string_eq in E. subst m. now contradiction Hno.
  - destruct (is_string (lit "initialize") m); [apply result_envelope_fst|].
    apply error_envelope_fst. intros. apply shown_fst.
Qed.

Lemma only_tool_calls_reach_the_backends_witness :
  fst (ServerJs.handleMcpRequest
         (tool_call (JNumber (int 2)) "list_tools" "create_order" buy_eurusd)
         ticket_123 [])
  = [].
Proof.
  apply (only_tool_calls_reach_the_backends
           (tool_call (JNumber (int 2)) "list_tools" "create_order" buy_eurusd)
           ticket_123 []).
  unfold is_tool_call. cbv. discriminate.
Defined.

(** X11.  A method that is none of [list_tools], [call_tool] and [initialize] is
    answered with the error -32601 and the text [Method not found: ]
    followed by the method as the template prints it: so are the method
    names of the MCP standard, [tools/list] and [tools/call], and a request
    without any method. *)
Theorem an_unknown_method_is_reported (request m : JsValue) (shown : jsstring)
    (net : Network) (log : list HttpRequest) :
  get request (lit "method") = Normal m ->
  ~ In m [JString (lit "list_tools"); JString (lit "call_tool");
          JString (lit "initialize")] ->
  ToString m = Normal shown ->
  ServerJs.handleMcpRequest request net log
  = (log, Normal (js_error request (-32601) (lit "Method not found: " ++ shown))).
Proof.
  intros Hm Hno Hshown. unfold ServerJs.handleMcpRequest, bind at 1, lift at 1.
  rewrite Hm. rewrite switch_skips.
  - destruct (get_again _ _ (lit "id") _ Hm) as [id Hid].
    unfold ServerJs.error_envelope, js_error, bind, lift, ret.
    rewrite Hid, Hshown, (get_prop _ "id" _ Hid). reflexivity.
  - intros label Hl ->. apply Hno. cbn [map fst] in Hl.
    destruct Hl as [<- | [<- | [<- | []]]]; cbn [In]; auto.
Qed.

Lemma an_unknown_method_is_reported_witness :
  ServerJs.handleMcpRequest
    (tool_call (JNumber (int 3)) "tools/call" "get_open_positions" JUndefined)
    ticket_123 []
  = ([], Normal (js_error
                   (tool_call (JNumber (int 3)) "tools/call" "get_open_positions"
                      JUndefined)
                   (-32601) (lit "Method not found: " ++ lit "tools/call"))).
Proof.
  apply (an_unknown_method_is_reported
           (tool_call (JNumber (int 3)) "tools/call" "get_open_positions" JUndefined)
           (JString (lit "tools/call")) (lit "tools/call") ticket_123 []).
  - reflexivity.
  - cbv. intros [H | [H | [H | []]]]; discriminate H.
  - reflexivity.
Defined.

Lemma js_answers (request m : JsValue) (shown : jsstring) (net : Network)
    (log : list HttpRequest) :
  readable net ->
  get request (lit "method") = Normal m ->
  ToString m = Normal shown ->
  exists envelope, snd (ServerJs.handleMcpRequest request net log) = Normal envelope.
Proof.
  intros Hr Hm Hshown.
  destruct (is_string (lit "call_tool") m) eqn:E.
  - apply is_string_eq in E. subst m.
    destruct (js_outcome request net log Hm Hr) as [log' [envelope [H _]]].
    exists envelope. now rewrite H.
  - unfold ServerJs.handleMcpRequest, bind at 1, lift at 1. rewrite Hm.
    cbn [switch]. rewrite E.
    destruct (is_string (lit "list_tools") m);
      [rewrite (result_envelope_run _ _ _ _ _ _ Hm); now eexists|].
    destruct (is_string (lit "initialize") m);
      [rewrite (result_envelope_run _ _ _ _ _ _ Hm); now eexists|].
    destruct (get_again _ _ (lit "id") _ Hm) as [id Hid].
    unfold ServerJs.error_envelope, bind, lift, ret. rewrite Hid, Hshown.
    now eexists.
Qed.

Lemma stringify_object (space : nat) (properties : list (jsstring * JsValue)) :
  exists text, JSON_stringify space (JObject properties) = JString text.
Proof. unfold JSON_stringify. cbn [serialize]. now eexists. Qed.

(** X12.  Every message that [JSON.parse] decodes to something other than [null]
    is answered with exactly one frame on standard output and nothing on the
    error stream, when the backends' messages and the method can be
    printed: a tool call, a listing, an unknown method, and also a message
    without an [id], which a JSON-RPC server is expected not to answer. *)
Theorem every_message_is_answered_by_one_frame
    (JSON_parse : jsstring -> Completion JsValue) (net : Network)
    (content : jsstring) (request m : JsValue) (shown : jsstring)
    (p : ServerJs.Process) :
  readable net ->
  JSON_parse content = Normal request ->
  get request (lit "method") = Normal m ->
  ToString m = Normal shown ->
  exists envelope text,
    echoes request envelope
    /\ JSON_stringify 0 envelope = JString text
    /\ ServerJs.stdout (ServerJs.serve JSON_parse net content p)
       = ServerJs.stdout p ++ [ServerJs.frame text]
    /\ ServerJs.stderr (ServerJs.serve JSON_parse net content p) = ServerJs.stderr p.
Proof.
  intros Hr Hparse Hm Hshown.
  destruct (js_answers request m shown net (ServerJs.requests p) Hr Hm Hshown)
    as [envelope He].
  pose proof (js_reply_shape _ _ _ _ He) as Hs.
  assert (Ht : exists text, JSON_stringify 0 envelope = JString text).
  { destruct Hs as [[result ->] | [code [message ->]]]; apply stringify_object. }
  destruct Ht as [text Ht]. exists envelope, text.
  split; [exact Hs|]. split; [exact Ht|].
  unfold ServerJs.serve. rewrite Hparse.
  destruct (ServerJs.handleMcpRequest request net (ServerJs.requests p))
    as [log' [response|e]]; cbn [snd] in He; [|discriminate].
  injection He as ->. rewrite Ht. split; reflexivity.
Qed.

Lemma every_message_is_answered_by_one_frame_witness :
  exists envelope text,
    echoes (JObject [(lit "id", JNumber (int 1)); (lit "method", JString (lit "initialize"))])
      envelope
    /\ JSON_stringify 0 envelope = JString text
    /\ ServerJs.stdout (ServerJs.serve parse_example not_initialized initialize_text idle)
       = ServerJs.stdout idle ++ [ServerJs.frame text]
    /\ ServerJs.stderr (ServerJs.serve parse_example not_initialized initialize_text idle)
       = ServerJs.stderr idle.
Proof.
  apply (every_message_is_answered_by_one_frame parse_example not_initialized
           initialize_text
           (JObject [(lit "id", JNumber (int 1)); (lit "method", JString (lit "initialize"))])
           (JString (lit "initialize")) (lit "initialize") idle).
  - apply not_initialized_readable.
  - reflexivity.
  - reflexivity.
  - reflexivity.
Defined.

(** ** Validation, tool by tool *)

Lemma ts_dispatch_handler (request params args : JsValue) (name : string)
    (handler : JsValue -> Async JsValue) :
  get request (lit "params") = Normal params ->
  get params (lit "name") = Normal (JString (lit name)) ->
  get params (lit "arguments") = Normal args ->
  Mt5Server.route request (JString (lit name)) = Mt5Server.with_arguments request handler ->
  forall net log, Mt5Server.dispatch request net log = handler args net log.
Proof.
  intros Hparams Hname Hargs Hroute net log.
  rewrite (ts_dispatch_route _ _ _ Hparams Hname), Hroute.
  now apply (ts_with_arguments request params args).
Qed.

Lemma ts_guarded (request params args : JsValue) (name : string)
    (guard : JsValue -> Completion bool) (invalid : string)
    (handler : JsValue -> Async JsValue) (net : Network) (log : list HttpRequest) :
  get request (lit "params") = Normal params ->
  get params (lit "name") = Normal (JString (lit name)) ->
  get params (lit "arguments") = Normal args ->
  Mt5Server.route request (JString (lit name)) = Mt5Server.with_arguments request handler ->
  checked guard args (McpError InvalidParams (lit invalid)) (handler args) ->
  (guard args = Normal true
   /\ exists req, fst (Mt5Server.callTool request net log) = log ++ [req])
  \/ (guard args = Normal false
      /\ Mt5Server.callTool request net log
         = (log, Throw (McpError InvalidParams (lit invalid)))).
Proof.
  intros Hparams Hname Hargs Hroute [[Hg H] | [Hg [req H]]].
  - right. split; [exact Hg|]. unfold Mt5Server.callTool, try_catch.
    rewrite (ts_dispatch_handler _ _ _ _ _ Hparams Hname Hargs Hroute), H. reflexivity.
  - left. split; [exact Hg|]. exists req. apply ts_issues. intros net' log'.
    rewrite (ts_dispatch_handler _ _ _ _ _ Hparams Hname Hargs Hroute). apply H.
Qed.

Lemma ts_validated (request params args : JsValue) (name : string)
    (guard : JsValue -> Completion bool) (invalid : string)
    (handler : JsValue -> Async JsValue) (valid : bool) (net : Network)
    (log : list HttpRequest) :
  get request (lit "params") = Normal params ->
  get params (lit "name") = Normal (JString (lit name)) ->
  get params (lit "arguments") = Normal args ->
  Mt5Server.route request (JString (lit name)) = Mt5Server.with_arguments request handler ->
  checked guard args (McpError InvalidParams (lit invalid)) (handler args) ->
  guard args = Normal valid ->
  if valid
  then exists req, fst (Mt5Server.callTool request net log) = log ++ [req]
  else exists message,
         Mt5Server.callTool request net log = (log, Throw (McpError InvalidParams message)).
Proof.
  intros Hparams Hname Hargs Hroute Hchecked Hvalid.
  destruct (ts_guarded request params args name guard invalid handler net log
              Hparams Hname Hargs Hroute Hchecked) as [[Hg H] | [Hg H]];
    rewrite Hg in Hvalid; injection Hvalid as <-; [exact H | eauto].
Qed.

Lemma js_dispatch_handler (request params args : JsValue) (name : string)
    (handler : JsValue -> Async JsValue) :
  get request (lit "params") = Normal params ->
  get params (lit "name") = Normal (JString (lit name)) ->
  get params (lit "arguments") = Normal args ->
  ServerJs.route request (JString (lit name))
  = ServerJs.answered request (ServerJs.with_arguments request handler) ->
  forall net log,
    ServerJs.dispatch request net log
    = ServerJs.answered request (handler args) net log.
Proof.
  intros Hparams Hname Hargs Hroute net log.
  rewrite (js_dispatch_route _ _ _ Hparams Hname), Hroute.
  unfold ServerJs.answered, bind.
  now rewrite (js_with_arguments request params args handler Hparams Hargs).
Qed.

Lemma js_guarded (request params args : JsValue) (name : string)
    (guard : JsValue -> Completion bool) (invalid : string)
    (handler : JsValue -> Async JsValue) (net : Network) (log : list HttpRequest) :
  is_tool_call request ->
  get request (lit "params") = Normal params ->
  get params (lit "name") = Normal (JString (lit name)) ->
  get params (lit "arguments") = Normal args ->
  ServerJs.route request (JString (lit name))
  = ServerJs.answered request (ServerJs.with_arguments request handler) ->
  checked guard args (Error (lit invalid)) (handler args) ->
  (guard args = Normal true
   /\ exists req, fst (ServerJs.handleMcpRequest request net log) = log ++ [req])
  \/ (guard args = Normal false
      /\ ServerJs.handleMcpRequest request net log
         = (log, Normal (js_error request (-32603)
                           (lit "Unexpected error: " ++ lit invalid)))).
Proof.
  intros Hcall Hparams Hname Hargs Hroute [[Hg H] | [Hg [req H]]].
  - right. split; [exact Hg|]. rewrite (js_handleMcpRequest_call_tool _ Hcall).
    unfold ServerJs.call_tool, try_catch.
    rewrite (js_dispatch_handler _ _ _ _ _ Hparams Hname Hargs Hroute).
    unfold ServerJs.answered, bind. rewrite H.
    now rewrite (js_on_error_local _ _ _ _ _ _ Hcall).
  - left. split; [exact Hg|]. exists req. apply (js_issues _ _ Hcall). intros net' log'.
    rewrite (js_dispatch_handler _ _ _ _ _ Hparams Hname Hargs Hroute).
    apply (js_answered_call request (handler args) req H).
Qed.


(** Rewrites a guard into the check of the required parameters. *)
Ltac typed spec :=
  rewrite spec; f_equal;
  etransitivity; [symmetry; apply andb_true_r|];
  rewrite <- !andb_assoc; reflexivity.

(** X13.  What mt5-server.ts validates, for each of the nine tools that require
    a parameter: the arguments are an object or an array, and every required
    parameter has the [typeof] that the schema of the tool declares.  If so,
    a request is issued; if not, the call ends with InvalidParams and nothing
    is sent.  No optional parameter, [enum] or range takes part. *)
Theorem validation_is_the_types_of_the_required_parameters (tool : Registry.Tool)
    (request args : JsValue) (net : Network) (log : list HttpRequest) :
  In tool Registry.tools ->
  Registry.required tool <> [] ->
  names_tool request (Registry.name tool) args ->
  if object_like args && required_typed tool args
  then exists req, fst (Mt5Server.callTool request net log) = log ++ [req]
  else exists message,
         Mt5Server.callTool request net log = (log, Throw (McpError InvalidParams message)).
Proof.
  intros Htool Hreq [params [Hparams [Hname Hargs]]].
  simpl in Htool.
  repeat (destruct Htool as [<- | Htool]; [|]); try contradiction;
    try (exfalso; apply Hreq; reflexivity).
  all: first
    [ apply (ts_validated request params args "get_symbol_price" isSymbolPriceArg
               _ _ _ net log Hparams Hname Hargs eq_refl
               (ts_handleGetSymbolPrice_checked args));
      typed isSymbolPriceArg_spec
    | apply (ts_validated request params args "create_order" isOrderArg
               _ _ _ net log Hparams Hname Hargs eq_refl
               (ts_handleCreateOrder_checked args));
      typed isOrderArg_spec
    | apply (ts_validated request params args "modify_order" isModifyOrderArg
               _ _ _ net log Hparams Hname Hargs eq_refl
               (ts_handleModifyOrder_checked args));
      typed isModifyOrderArg_spec
    | apply (ts_validated request params args "close_position" isCloseOrderArg
               _ _ _ net log Hparams Hname Hargs eq_refl
               (ts_handleClosePosition_checked args));
      typed isCloseOrderArg_spec
    | apply (ts_validated request params args "delete_order" isCloseOrderArg
               _ _ _ net log Hparams Hname Hargs eq_refl
               (ts_handleDeleteOrder_checked args));
      typed isCloseOrderArg_spec
    | apply (ts_validated request params args "run_optimization" isRunOptimizationArg
               _ _ _ net log Hparams Hname Hargs eq_refl
               (ts_handleRunOptimization_checked args));
      typed isRunOptimizationArg_spec
    | apply (ts_validated request params args "get_optimization_status"
               isOptimizationIdArg
               _ _ _ net log Hparams Hname Hargs eq_refl
               (ts_handleGetOptimizationStatus_checked args));
      typed isOptimizationIdArg_spec
    | apply (ts_validated request params args "get_optimization_results"
               isOptimizationIdArg
               _ _ _ net log Hparams Hname Hargs eq_refl
               (ts_handleGetOptimizationResults_checked args));
      typed isOptimizationIdArg_spec
    | apply (ts_validated request params args "save_optimization_results"
               isSaveOptimizationResultsArg
               _ _ _ net log Hparams Hname Hargs eq_refl
               (ts_handleSaveOptimizationResults_checked args));
      typed isSaveOptimizationResultsArg_spec ].
Qed.

Lemma validation_is_the_types_of_the_required_parameters_witness :
  let volume_as_text :=
    JObject [(lit "symbol", JString (lit "EURUSD")); (lit "type", JString (lit "BUY"));
             (lit "volume", JString (lit "0.1"))] in
  exists message,
    Mt5Server.callTool (tool_call JNull "tools/call" "create_order" volume_as_text)
      ticket_123 []
    = ([], Throw (McpError InvalidParams message)).
Proof.
  intros volume_as_text.
  apply (validation_is_the_types_of_the_required_parameters Registry.create_order
           (tool_call JNull "tools/call" "create_order" volume_as_text) volume_as_text
           ticket_123 []).
  - simpl. auto 10.
  - discriminate.
  - eexists. repeat split; reflexivity.
Defined.



(** ** The catalogue and the dispatcher *)

Lemma ts_sent_outcome (request : JsValue) (net : Network) (log : list HttpRequest)
    (req : HttpRequest) :
  fst (Mt5Server.callTool request net log) = log ++ [req] ->
  (exists result, snd (Mt5Server.callTool request net log) = Normal result)
  \/ (exists m, snd (Mt5Server.callTool request net log) = Throw (TypeError m)).
Proof.
  destruct (ts_callTool_plan request) as [p [Hl H]]. rewrite H.
  pose proof (ts_plan_result p net log) as Hp. cbv zeta in Hp.
  destruct p as [e|v|req'].
  - destruct (Hp Hl) as [-> _]. intros Hlog. symmetry in Hlog.
    now apply log_not_longer in Hlog.
  - rewrite Hp. cbn [fst snd]. eauto.
  - destruct Hp as [_ Hsnd]. intros _.
    destruct (net (List.length log) req') as [st d|msg]; [destruct (ok_status st)|].
    + left. eauto.
    + destruct Hsnd as [[shown Hs] | [m Hs]]; [left | right]; eauto.
    + left. eauto.
Qed.

Lemma js_sent_outcome (request : JsValue) (net : Network) (log : list HttpRequest)
    (req : HttpRequest) :
  is_tool_call request ->
  fst (ServerJs.handleMcpRequest request net log) = log ++ [req] ->
  (exists result,
     snd (ServerJs.handleMcpRequest request net log) = Normal (js_result request result))
  \/ (exists m, snd (ServerJs.handleMcpRequest request net log) = Throw (TypeError m)).
Proof.
  intros Hcall. rewrite (js_handleMcpRequest_call_tool _ Hcall).
  destruct (js_call_tool_plan request) as [p [Hl H]]. rewrite H.
  pose proof (js_plan_result request _ _ p net log Hcall) as Hp. cbv zeta in Hp.
  destruct p as [e|v|req'].
  - rewrite (Hp Hl). cbn [fst]. intros Hlog. symmetry in Hlog.
    now apply log_not_longer in Hlog.
  - rewrite Hp. cbn [fst]. intros Hlog. symmetry in Hlog.
    now apply log_not_longer in Hlog.
  - destruct Hp as [_ Hsnd]. intros _.
    destruct (net (List.length log) req') as [st d|msg]; [destruct (ok_status st)|].
    + left. eauto.
    + destruct Hsnd as [[shown Hs] | [m Hs]]; [left | right]; eauto.
    + left. eauto.
Qed.

(** A tool that has a case in the switch of mt5-server.ts is refused for
    its arguments or reaches a backend. *)
Lemma ts_known_tool (request params : JsValue) (name : jsstring) (net : Network)
    (log : list HttpRequest) :
  get request (lit "params") = Normal params ->
  get params (lit "name") = Normal (JString name) ->
  In name (map Registry.name Registry.tools) ->
  (exists req, fst (Mt5Server.callTool request net log) = log ++ [req])
  \/ (exists message,
        Mt5Server.callTool request net log = (log, Throw (McpError InvalidParams message))).
Proof.
  intros Hparams Hname Hin.
  destruct (get_again _ _ (lit "arguments") _ Hname) as [args Hargs].
  simpl in Hin.
  repeat (destruct Hin as [<- | Hin]; [|]); try contradiction.
  all: first
    [ left; eexists; apply ts_issues; intros net' log';
      rewrite (ts_dispatch_route _ _ _ Hparams Hname);
      first [ apply ts_handleGetOpenPositions_plan | apply ts_handleGetPendingOrders_plan ]
    | destruct (ts_guarded request params args "get_account_info" _ _ _ net log
                  Hparams Hname Hargs eq_refl (ts_handleGetAccountInfo_checked args))
        as [[_ H] | [_ H]]; [left; exact H | right; eexists; exact H]
    | destruct (ts_guarded request params args "get_symbol_price" _ _ _ net log
                  Hparams Hname Hargs eq_refl (ts_handleGetSymbolPrice_checked args))
        as [[_ H] | [_ H]]; [left; exact H | right; eexists; exact H]
    | destruct (ts_guarded request params args "create_order" _ _ _ net log
                  Hparams Hname Hargs eq_refl (ts_handleCreateOrder_checked args))
        as [[_ H] | [_ H]]; [left; exact H | right; eexists; exact H]
    | destruct (ts_guarded request params args "modify_order" _ _ _ net log
                  Hparams Hname Hargs eq_refl (ts_handleModifyOrder_checked args))
        as [[_ H] | [_ H]]; [left; exact H | right; eexists; exact H]
    | destruct (ts_guarded request params args "close_position" _ _ _ net log
                  Hparams Hname Hargs eq_refl (ts_handleClosePosition_checked args))
        as [[_ H] | [_ H]]; [left; exact H | right; eexists; exact H]
    | destruct (ts_guarded request params args "delete_order" _ _ _ net log
                  Hparams Hname Hargs eq_refl (ts_handleDeleteOrder_checked args))
        as [[_ H] | [_ H]]; [left; exact H | right; eexists; exact H]
    | destruct (ts_guarded request params args "run_optimization" _ _ _ net log
                  Hparams Hname Hargs eq_refl (ts_handleRunOptimization_checked args))
        as [[_ H] | [_ H]]; [left; exact H | right; eexists; exact H]
    | destruct (ts_guarded request params args "get_optimization_status" _ _ _ net log
                  Hparams Hname Hargs eq_refl
                  (ts_handleGetOptimizationStatus_checked args))
        as [[_ H] | [_ H]]; [left; exact H | right; eexists; exact H]
    | destruct (ts_guarded request params args "get_optimization_results" _ _ _ net log
                  Hparams Hname Hargs eq_refl
                  (ts_handleGetOptimizationResults_checked args))
        as [[_ H] | [_ H]]; [left; exact H | right; eexists; exact H]
    | destruct (ts_guarded request params args "save_optimization_results" _ _ _ net log
                  Hparams Hname Hargs eq_refl
                  (ts_handleSaveOptimizationResults_checked args))
        as [[_ H] | [_ H]]; [left; exact H | right; eexists; exact H] ].
Qed.

Lemma js_known_tool (request params : JsValue) (name : jsstring) (net : Network)
    (log : list HttpRequest) :
  is_tool_call request ->
  get request (lit "params") = Normal params ->
  get params (lit "name") = Normal (JString name) ->
  In name (map Registry.name Registry.trading_tools) ->
  (exists req, fst (ServerJs.handleMcpRequest request net log) = log ++ [req])
  \/ (exists message,
        ServerJs.handleMcpRequest request net log
        = (log, Normal (js_error request (-32603) message))).
Proof.
  intros Hcall Hparams Hname Hin.
  destruct (get_again _ _ (lit "arguments") _ Hname) as [args Hargs].
  simpl in Hin.
  repeat (destruct Hin as [<- | Hin]; [|]); try contradiction.
  all: first
    [ left; eexists; apply (js_issues _ _ Hcall); intros net' log';
      rewrite (js_dispatch_route _ _ _ Hparams Hname);
      first [ apply (js_answered_call request _ _ js_handleGetOpenPositions_plan)
            | apply (js_answered_call request _ _ js_handleGetPendingOrders_plan) ]
    | destruct (js_guarded request params args "get_account_info" _ _ _ net log
                  Hcall Hparams Hname Hargs eq_refl (js_handleGetAccountInfo_checked args))
        as [[_ H] | [_ H]]; [left; exact H | right; eexists; exact H]
    | destruct (js_guarded request params args "get_symbol_price" _ _ _ net log
                  Hcall Hparams Hname Hargs eq_refl (js_handleGetSymbolPrice_checked args))
        as [[_ H] | [_ H]]; [left; exact H | right; eexists; exact H]
    | destruct (js_guarded request params args "create_order" _ _ _ net log
                  Hcall Hparams Hname Hargs eq_refl (js_handleCreateOrder_checked args))
        as [[_ H] | [_ H]]; [left; exact H | right; eexists; exact H]
    | destruct (js_guarded request params args "modify_order" _ _ _ net log
                  Hcall Hparams Hname Hargs eq_refl (js_handleModifyOrder_checked args))
        as [[_ H] | [_ H]]; [left; exact H | right; eexists; exact H]
    | destruct (js_guarded request params args "close_position" _ _ _ net log
                  Hcall Hparams Hname Hargs eq_refl (js_handleClosePosition_checked args))
        as [[_ H] | [_ H]]; [left; exact H | right; eexists; exact H]
    | destruct (js_guarded request params args "delete_order" _ _ _ net log
                  Hcall Hparams Hname Hargs eq_refl (js_handleDeleteOrder_checked args))
        as [[_ H] | [_ H]]; [left; exact H | right; eexists; exact H] ].
Qed.

Lemma tool_js_name (t : Registry.Tool) :
  prop (Registry.tool_js t) "name" = JString (Registry.name t).
Proof. reflexivity. Qed.

Lemma tool_names_listed (catalogue : list Registry.Tool) :
  tool_names (JObject [(lit "tools", JArray (map Registry.tool_js catalogue))])
  = map JString (map Registry.name catalogue).
Proof.
  unfold tool_names.
  change (prop (JObject [(lit "tools", JArray (map Registry.tool_js catalogue))]) "tools")
    with (JArray (map Registry.tool_js catalogue)).
  rewrite !map_map. apply map_ext. intros t. apply tool_js_name.
Qed.

Lemma In_JString (name : jsstring) (names : list jsstring) :
  In (JString name) (map JString names) <-> In name names.
Proof.
  split.
  - intros H. apply in_map_iff in H as [x [Hx Hin]]. injection Hx as ->. exact Hin.
  - apply in_map.
Qed.

Lemma jsstring_In_dec (name : jsstring) (names : list jsstring) :
  {In name names} + {~ In name names}.
Proof. apply in_dec. apply list_eq_dec. apply N.eq_dec. Qed.

Lemma ts_unknown_tool (request params : JsValue) (name : jsstring) (net : Network)
    (log : list HttpRequest) :
  get request (lit "params") = Normal params ->
  get params (lit "name") = Normal (JString name) ->
  ~ In name (map Registry.name Registry.tools) ->
  Mt5Server.callTool request net log
  = (log, Throw (McpError MethodNotFound (lit "Unknown tool: " ++ name))).
Proof.
  intros Hparams Hname Hno. unfold Mt5Server.callTool, try_catch.
  rewrite (ts_dispatch_route _ _ _ Hparams Hname). unfold Mt5Server.route.
  rewrite switch_default by exact Hno. reflexivity.
Qed.

(** X15.  In mt5-server.ts the tools that the list-tools handler announces are
    exactly the tools that the call-tool handler knows: a call is refused
    with MethodNotFound if and only if its tool name is not one of the
    twelve names of the listing. *)
Theorem the_listed_tools_are_the_ones_that_can_be_called (request params : JsValue)
    (name : jsstring) (listing : JsValue) (net : Network) (log : list HttpRequest) :
  get request (lit "params") = Normal params ->
  get params (lit "name") = Normal (JString name) ->
  snd (Mt5Server.listTools net log) = Normal listing ->
  (exists message,
     snd (Mt5Server.callTool request net log) = Throw (McpError MethodNotFound message))
  <-> ~ In (JString name) (tool_names listing).
Proof.
  intros Hparams Hname Hlist. unfold Mt5Server.listTools, ret in Hlist.
  cbn [snd] in Hlist. apply normal_inj in Hlist. subst listing.
  rewrite tool_names_listed, In_JString. split.
  - intros [message Hm] Hin.
    destruct (ts_known_tool request params name net log Hparams Hname Hin)
      as [[req Hreq] | [message' Hrej]].
    + destruct (ts_sent_outcome _ _ _ _ Hreq) as [[r Hr] | [m Hr]];
        rewrite Hr in Hm; discriminate.
    + rewrite Hrej in Hm. discriminate.
  - intros Hno. rewrite (ts_unknown_tool _ _ _ net log Hparams Hname Hno).
    now eexists.
Qed.

Lemma the_listed_tools_are_the_ones_that_can_be_called_witness :
  (exists message,
     snd (Mt5Server.callTool (tool_call JNull "tools/call" "get_balance" (JObject []))
            ticket_123 [])
     = Throw (McpError MethodNotFound message))
  <-> ~ In (JString (lit "get_balance"))
          (tool_names (JObject [(lit "tools",
                                 JArray (map Registry.tool_js Registry.tools))])).
Proof.
  apply (the_listed_tools_are_the_ones_that_can_be_called
           (tool_call JNull "tools/call" "get_balance" (JObject []))
           (JObject [(lit "name", JString (lit "get_balance"));
                     (lit "arguments", JObject [])])
           (lit "get_balance") _ ticket_123 []); reflexivity.
Defined.

(** X16.  server.js announces and knows the eight trading tools only: a tool
    call is answered with the error -32601 [Unknown tool] if and only if its
    name is not in the listing that [list_tools] returns; the four
    optimization tools of mt5-server.ts are unknown to it. *)
Theorem server_js_knows_the_trading_tools_only (request params : JsValue)
    (name : jsstring) (asked listing : JsValue) (net : Network)
    (log : list HttpRequest) :
  is_tool_call request ->
  get request (lit "params") = Normal params ->
  get params (lit "name") = Normal (JString name) ->
  get asked (lit "method") = Normal (JString (lit "list_tools")) ->
  snd (ServerJs.handleMcpRequest asked net log) = Normal (js_result asked listing) ->
  (ServerJs.handleMcpRequest request net log
   = (log, Normal (js_error request (-32601) (lit "Unknown tool: " ++ name)))
   <-> ~ In (JString name) (tool_names listing))
  /\ (In name (map Registry.name Registry.tools) ->
      ~ In (JString name) (tool_names listing) ->
      In name [lit "run_optimization"; lit "get_optimization_status";
               lit "get_optimization_results"; lit "save_optimization_results"]).
Proof.
  intros Hcall Hparams Hname Hasked Hlist.
  assert (Hl : listing = JObject [(lit "tools", ServerJs.tools)]).
  { revert Hlist. unfold ServerJs.handleMcpRequest, bind at 1, lift at 1.
    rewrite Hasked. cbn [switch is_string]. rewrite jsstring_eqb_refl.
    rewrite (result_envelope_run _ _ _ _ _ _ Hasked). cbn [snd]. intros H.
    apply normal_inj in H. unfold js_result in H. now injection H. }
  subst listing. unfold ServerJs.tools. rewrite tool_names_listed, In_JString.
  split; [split|].
  - intros Hm Hin.
    destruct (js_known_tool request params name net log Hcall Hparams Hname Hin)
      as [[req Hreq] | [message' Hrej]].
    + destruct (js_sent_outcome _ _ _ _ Hcall Hreq) as [[r Hr] | [m Hr]];
        rewrite Hm in Hr; cbn [snd] in Hr; [|discriminate].
      apply normal_inj in Hr. symmetry in Hr. now apply js_result_not_error in Hr.
    + rewrite Hrej in Hm. apply (f_equal snd) in Hm. cbn [snd] in Hm.
      apply normal_inj in Hm.
      apply (f_equal (fun v => prop (prop v "error") "code")) in Hm. cbv in Hm.
      discriminate.
  - intros Hno. apply (js_unknown_tool _ _ _ net log Hcall Hparams Hname Hno).
  - intros Hin Hno. unfold Registry.tools in Hin. rewrite map_app in Hin.
    apply in_app_or in Hin as [Hin | Hin]; [contradiction|]. exact Hin.
Qed.

Lemma server_js_knows_the_trading_tools_only_witness :
  let request := tool_call (JNumber (int 6)) "call_tool" "run_optimization" (JObject []) in
  let listing := JObject [(lit "tools", ServerJs.tools)] in
  (ServerJs.handleMcpRequest request ticket_123 []
   = ([], Normal (js_error request (-32601) (lit "Unknown tool: " ++ lit "run_optimization")))
   <-> ~ In (JString (lit "run_optimization")) (tool_names listing))
  /\ (In (lit "run_optimization") (map Registry.name Registry.tools) ->
      ~ In (JString (lit "run_optimization")) (tool_names listing) ->
      In (lit "run_optimization")
        [lit "run_optimization"; lit "get_optimization_status";
         lit "get_optimization_results"; lit "save_optimization_results"]).
Proof.
  intros request listing.
  apply (server_js_knows_the_trading_tools_only request
           (JObject [(lit "name", JString (lit "run_optimization"));
                     (lit "arguments", JObject [])])
           (lit "run_optimization")
           (tool_call JNull "list_tools" "none" JUndefined) listing ticket_123 []);
    reflexivity.
Defined.

(** ** The call of the client that each tool makes *)

Lemma ts_calls (request params args : JsValue) (name : string)
    (handler : JsValue -> Async JsValue) (req : HttpRequest) :
  get request (lit "params") = Normal params ->
  get params (lit "name") = Normal (JString (lit name)) ->
  get params (lit "arguments") = Normal args ->
  Mt5Server.route request (JString (lit name)) = Mt5Server.with_arguments request handler ->
  (forall net log, handler args net log = run_plan ret (Call req) net log) ->
  forall net log, fst (Mt5Server.callTool request net log) = log ++ [req].
Proof.
  intros Hparams Hname Hargs Hroute H. apply ts_issues. intros net log.
  rewrite (ts_dispatch_handler _ _ _ _ _ Hparams Hname Hargs Hroute). apply H.
Qed.

Lemma js_calls (request params args : JsValue) (name : string)
    (handler : JsValue -> Async JsValue) (req : HttpRequest) :
  is_tool_call request ->
  get request (lit "params") = Normal params ->
  get params (lit "name") = Normal (JString (lit name)) ->
  get params (lit "arguments") = Normal args ->
  ServerJs.route request (JString (lit name))
  = ServerJs.answered request (ServerJs.with_arguments request handler) ->
  (forall net log, handler args net log = run_plan ret (Call req) net log) ->
  forall net log, fst (ServerJs.handleMcpRequest request net log) = log ++ [req].
Proof.
  intros Hcall Hparams Hname Hargs Hroute H. apply (js_issues _ _ Hcall). intros net log.
  rewrite (js_dispatch_handler _ _ _ _ _ Hparams Hname Hargs Hroute).
  apply (js_answered_call request (handler args) req H).
Qed.

(** Computes the request of a handler of mt5-server.ts from the property
    [Hp] that its guard tests. *)
Ltac ts_request spec Hobj Hp :=
  intros net log; rewrite spec; unfold has_type;
  rewrite ?(field_object_like _ _ Hobj); rewrite ?Hp, ?Hobj; reflexivity.

(** The same for server.js. *)
Ltac js_request spec Hobj Hp :=
  intros net log; rewrite spec; unfold has_type;
  rewrite ?(field_object_like _ _ Hobj); rewrite ?Hp, ?Hobj;
  cbn [typeof]; rewrite ?jsstring_eqb_refl;
  cbv beta iota delta [bind lift negb andb];
  rewrite rethrowing_id; reflexivity.

Lemma ts_handleGetSymbolPrice_request (args : JsValue) (id : jsstring) :
  object_like args = true ->
  prop args "symbol" = JString id ->
  forall net log,
    Mt5Server.handleGetSymbolPrice args net log
    = run_plan ret (Call {| client := apiClient; method := GET;
                            url := lit "/symbol/" ++ id; body := None |}) net log.
Proof.
  intros Hobj Hp. unfold Mt5Server.handleGetSymbolPrice.
  ts_request isSymbolPriceArg_spec Hobj Hp.
Qed.

Lemma js_handleGetSymbolPrice_request (args : JsValue) (id : jsstring) :
  object_like args = true ->
  prop args "symbol" = JString id ->
  forall net log,
    ServerJs.handleGetSymbolPrice args net log
    = run_plan ret (Call {| client := apiClient; method := GET;
                            url := lit "/symbol/" ++ id; body := None |}) net log.
Proof.
  intros Hobj Hp. unfold ServerJs.handleGetSymbolPrice.
  js_request isSymbolPriceArg_spec Hobj Hp.
Qed.

Lemma ts_handleGetOptimizationStatus_request (args : JsValue) (id : jsstring) :
  object_like args = true ->
  prop args "optimization_id" = JString id ->
  forall net log,
    Mt5Server.handleGetOptimizationStatus args net log
    = run_plan ret (Call {| client := flaskClient; method := GET;
                            url := lit "/optimization_status/" ++ id;
                            body := None |}) net log.
Proof.
  intros Hobj Hp. unfold Mt5Server.handleGetOptimizationStatus.
  ts_request isOptimizationIdArg_spec Hobj Hp.
Qed.

Lemma ts_handleGetOptimizationResults_request (args : JsValue) (id : jsstring) :
  object_like args = true ->
  prop args "optimization_id" = JString id ->
  forall net log,
    Mt5Server.handleGetOptimizationResults args net log
    = run_plan ret (Call {| client := flaskClient; method := GET;
                            url := lit "/optimization_results/" ++ id;
                            body := None |}) net log.
Proof.
  intros Hobj Hp. unfold Mt5Server.handleGetOptimizationResults.
  ts_request isOptimizationIdArg_spec Hobj Hp.
Qed.

(** X17.  The three look-ups build the path they pass to the client from a
    fixed prefix and the identifier exactly as they are given it: no handler
    escapes, encodes or checks the identifier, whatever characters it holds.
    [get_symbol_price] calls [get] of the account client with
    [/symbol/<symbol>], and the two tools that take an [optimization_id]
    call [get] of the optimization client.  What the client makes of such a
    path on the wire is not stated here. *)
Theorem a_lookup_passes_the_identifier_on_as_given (name key prefix : jsstring)
    (backend : Client) (request args : JsValue) (id : jsstring) (net : Network)
    (log : list HttpRequest) :
  In (name, key, prefix, backend)
     [(lit "get_symbol_price", lit "symbol", lit "/symbol/", apiClient);
      (lit "get_optimization_status", lit "optimization_id",
       lit "/optimization_status/", flaskClient);
      (lit "get_optimization_results", lit "optimization_id",
       lit "/optimization_results/", flaskClient)] ->
  names_tool request name args ->
  object_like args = true ->
  property args key = JString id ->
  let req := {| client := backend; method := GET; url := prefix ++ id; body := None |} in
  fst (Mt5Server.callTool request net log) = log ++ [req]
  /\ (In name (map Registry.name Registry.trading_tools) ->
      is_tool_call request ->
      fst (ServerJs.handleMcpRequest request net log) = log ++ [req]).
Proof.
  intros Hin [params [Hparams [Hname Hargs]]] Hobj Hp req. subst req.
  destruct Hin as [Heq | [Heq | [Heq | []]]]; injection Heq as <- <- <- <-; split.
  - apply (ts_calls request params args "get_symbol_price" _ _ Hparams Hname Hargs eq_refl
             (ts_handleGetSymbolPrice_request args id Hobj Hp)).
  - intros _ Hcall.
    apply (js_calls request params args "get_symbol_price" _ _ Hcall Hparams Hname Hargs
             eq_refl (js_handleGetSymbolPrice_request args id Hobj Hp)).
  - apply (ts_calls request params args "get_optimization_status" _ _ Hparams Hname Hargs
             eq_refl (ts_handleGetOptimizationStatus_request args id Hobj Hp)).
  - intros Htrading. exfalso. cbv in Htrading.
    repeat (destruct Htrading as [Htrading | Htrading]; [discriminate Htrading|]).
    destruct Htrading.
  - apply (ts_calls request params args "get_optimization_results" _ _ Hparams Hname Hargs
             eq_refl (ts_handleGetOptimizationResults_request args id Hobj Hp)).
  - intros Htrading. exfalso. cbv in Htrading.
    repeat (destruct Htrading as [Htrading | Htrading]; [discriminate Htrading|]).
    destruct Htrading.
Qed.

Lemma a_lookup_passes_the_identifier_on_as_given_witness :
  let args := JObject [(lit "symbol", JString (lit "EUR/USD?x=1"))] in
  let request := tool_call JNull "call_tool" "get_symbol_price" args in
  let req := {| client := apiClient; method := GET;
                url := lit "/symbol/" ++ lit "EUR/USD?x=1"; body := None |} in
  fst (Mt5Server.callTool request ticket_123 []) = [] ++ [req]
  /\ (In (lit "get_symbol_price") (map Registry.name Registry.trading_tools) ->
      is_tool_call request ->
      fst (ServerJs.handleMcpRequest request ticket_123 []) = [] ++ [req]).
Proof.
  intros args request req.
  apply (a_lookup_passes_the_identifier_on_as_given
           (lit "get_symbol_price") (lit "symbol") (lit "/symbol/") apiClient
           request args (lit "EUR/USD?x=1") ticket_123 []).
  - left. reflexivity.
  - eexists. repeat split; reflexivity.
  - reflexivity.
  - reflexivity.
Defined.

Lemma ts_handleClosePosition_request (args : JsValue) (n : Number) :
  object_like args = true ->
  prop args "ticket" = JNumber n ->
  forall net log,
    Mt5Server.handleClosePosition args net log
    = run_plan ret (Call {| client := apiClient; method := DELETE;
                            url := lit "/position/" ++ Number_toString n;
                            body := None |}) net log.
Proof.
  intros Hobj Hp. unfold Mt5Server.handleClosePosition.
  ts_request isCloseOrderArg_spec Hobj Hp.
Qed.

Lemma js_handleClosePosition_request (args : JsValue) (n : Number) :
  object_like args = true ->
  prop args "ticket" = JNumber n ->
  forall net log,
    ServerJs.handleClosePosition args net log
    = run_plan ret (Call {| client := apiClient; method := DELETE;
                            url := lit "/position/" ++ Number_toString n;
                            body := None |}) net log.
Proof.
  intros Hobj Hp. unfold ServerJs.handleClosePosition.
  js_request isCloseOrderArg_spec Hobj Hp.
Qed.

Lemma ts_handleDeleteOrder_request (args : JsValue) (n : Number) :
  object_like args = true ->
  prop args "ticket" = JNumber n ->
  forall net log,
    Mt5Server.handleDeleteOrder args net log
    = run_plan ret (Call {| client := apiClient; method := DELETE;
                            url := lit "/order/" ++ Number_toString n;
                            body := None |}) net log.
Proof.
  intros Hobj Hp. unfold Mt5Server.handleDeleteOrder.
  ts_request isCloseOrderArg_spec Hobj Hp.
Qed.

Lemma js_handleDeleteOrder_request (args : JsValue) (n : Number) :
  object_like args = true ->
  prop args "ticket" = JNumber n ->
  forall net log,
    ServerJs.handleDeleteOrder args net log
    = run_plan ret (Call {| client := apiClient; method := DELETE;
                            url := lit "/order/" ++ Number_toString n;
                            body := None |}) net log.
Proof.
  intros Hobj Hp. unfold ServerJs.handleDeleteOrder.
  js_request isCloseOrderArg_spec Hobj Hp.
Qed.

Lemma ts_handleModifyOrder_request (args : JsValue) (n : Number) :
  object_like args = true ->
  prop args "ticket" = JNumber n ->
  forall net log,
    Mt5Server.handleModifyOrder args net log
    = run_plan ret (Call {| client := apiClient; method := PUT;
                            url := lit "/order/" ++ Number_toString n;
                            body := Some (JObject [(lit "sl", prop args "sl");
                                                   (lit "tp", prop args "tp")]) |})
        net log.
Proof.
  intros Hobj Hp. unfold Mt5Server.handleModifyOrder.
  ts_request isModifyOrderArg_spec Hobj Hp.
Qed.

Lemma js_handleModifyOrder_request (args : JsValue) (n : Number) :
  object_like args = true ->
  prop args "ticket" = JNumber n ->
  forall net log,
    ServerJs.handleModifyOrder args net log
    = run_plan ret (Call {| client := apiClient; method := PUT;
                            url := lit "/order/" ++ Number_toString n;
                            body := Some (JObject [(lit "sl", prop args "sl");
                                                   (lit "tp", prop args "tp")]) |})
        net log.
Proof.
  intros Hobj Hp. unfold ServerJs.handleModifyOrder.
  js_request isModifyOrderArg_spec Hobj Hp.
Qed.

(** X18.  The three tools that take a [ticket] put the number, as JavaScript
    prints it, into the path of a request to the account API:
    [close_position] deletes [/position/<ticket>], [delete_order] deletes
    [/order/<ticket>], and [modify_order] puts to [/order/<ticket>] a body
    with exactly the two properties [sl] and [tp] of the arguments, whatever
    else the arguments hold. *)
Theorem the_ticket_goes_into_the_path (name prefix : jsstring) (verb : Method)
    (payload : option JsValue) (request args : JsValue) (n : Number) (net : Network)
    (log : list HttpRequest) :
  In (name, verb, prefix, payload)
     [(lit "close_position", DELETE, lit "/position/", None);
      (lit "delete_order", DELETE, lit "/order/", None);
      (lit "modify_order", PUT, lit "/order/",
       Some (JObject [(lit "sl", property args (lit "sl"));
                      (lit "tp", property args (lit "tp"))]))] ->
  names_tool request name args ->
  object_like args = true ->
  property args (lit "ticket") = JNumber n ->
  both_send request net log
    {| client := apiClient; method := verb; url := prefix ++ Number_toString n;
       body := payload |}.
Proof.
  intros Hin [params [Hparams [Hname Hargs]]] Hobj Hp.
  destruct Hin as [Heq | [Heq | [Heq | []]]]; injection Heq as <- <- <- <-; split.
  - apply (ts_calls request params args "close_position" _ _ Hparams Hname Hargs eq_refl
             (ts_handleClosePosition_request args n Hobj Hp)).
  - intros Hcall.
    apply (js_calls request params args "close_position" _ _ Hcall Hparams Hname Hargs
             eq_refl (js_handleClosePosition_request args n Hobj Hp)).
  - apply (ts_calls request params args "delete_order" _ _ Hparams Hname Hargs eq_refl
             (ts_handleDeleteOrder_request args n Hobj Hp)).
  - intros Hcall.
    apply (js_calls request params args "delete_order" _ _ Hcall Hparams Hname Hargs
             eq_refl (js_handleDeleteOrder_request args n Hobj Hp)).
  - apply (ts_calls request params args "modify_order" _ _ Hparams Hname Hargs eq_refl
             (ts_handleModifyOrder_request args n Hobj Hp)).
  - intros Hcall.
    apply (js_calls request params args "modify_order" _ _ Hcall Hparams Hname Hargs
             eq_refl (js_handleModifyOrder_request args n Hobj Hp)).
Qed.

Lemma the_ticket_goes_into_the_path_witness :
  let args := JObject [(lit "ticket", JNumber (int 42)); (lit "sl", JNumber (int 1));
                       (lit "magic", JNumber (int 7))] in
  both_send (tool_call JNull "call_tool" "modify_order" args) ticket_123 []
    {| client := apiClient; method := PUT; url := lit "/order/" ++ lit "42";
       body := Some (JObject [(lit "sl", JNumber (int 1)); (lit "tp", JUndefined)]) |}.
Proof.
  intros args.
  apply (the_ticket_goes_into_the_path (lit "modify_order") (lit "/order/") PUT
           (Some (JObject [(lit "sl", property args (lit "sl"));
                           (lit "tp", property args (lit "tp"))]))
           (tool_call JNull "call_tool" "modify_order" args) args (int 42) ticket_123 []).
  - right. right. left. reflexivity.
  - eexists. repeat split; reflexivity.
  - reflexivity.
  - reflexivity.
Defined.

Lemma ts_handleCreateOrder_request (args : JsValue) :
  isOrderArg args = Normal true ->
  forall net log,
    Mt5Server.handleCreateOrder args net log
    = run_plan ret (Call {| client := apiClient; method := POST; url := lit "/order";
                            body := Some args |}) net log.
Proof. intros Hg net log. unfold Mt5Server.handleCreateOrder. now rewrite Hg. Qed.

Lemma js_handleCreateOrder_request (args : JsValue) :
  isOrderArg args = Normal true ->
  forall net log,
    ServerJs.handleCreateOrder args net log
    = run_plan ret (Call {| client := apiClient; method := POST; url := lit "/order";
                            body := Some args |}) net log.
Proof.
  intros Hg net log. unfold ServerJs.handleCreateOrder. rewrite Hg.
  cbv beta iota delta [bind lift negb]. now rewrite rethrowing_id.
Qed.

Lemma ts_handleRunOptimization_request (args : JsValue) :
  isRunOptimizationArg args = Normal true ->
  forall net log,
    Mt5Server.handleRunOptimization args net log
    = run_plan ret (Call {| client := flaskClient; method := POST; url := lit "/optimize";
                            body := Some args |}) net log.
Proof. intros Hg net log. unfold Mt5Server.handleRunOptimization. now rewrite Hg. Qed.

Lemma ts_handleSaveOptimizationResults_request (args : JsValue) :
  isSaveOptimizationResultsArg args = Normal true ->
  forall net log,
    Mt5Server.handleSaveOptimizationResults args net log
    = run_plan ret (Call {| client := flaskClient; method := POST;
                            url := lit "/save_results"; body := Some args |}) net log.
Proof.
  intros Hg net log. unfold Mt5Server.handleSaveOptimizationResults. now rewrite Hg.
Qed.

(** X19.  The three tools that post send the arguments object itself as the
    body, once the guard has accepted it: every property of the arguments
    reaches the backend, also those the schema does not name.
    [create_order] posts to [/order] of the account API, [run_optimization]
    to [/optimize] and [save_optimization_results] to [/save_results] of the
    optimization API. *)
Theorem the_arguments_are_posted_as_they_are (name path : jsstring)
    (guard : JsValue -> Completion bool) (backend : Client) (request args : JsValue)
    (net : Network) (log : list HttpRequest) :
  In (name, guard, path, backend)
     [(lit "create_order", isOrderArg, lit "/order", apiClient);
      (lit "run_optimization", isRunOptimizationArg, lit "/optimize", flaskClient);
      (lit "save_optimization_results", isSaveOptimizationResultsArg,
       lit "/save_results", flaskClient)] ->
  names_tool request name args ->
  guard args = Normal true ->
  let req := {| client := backend; method := POST; url := path; body := Some args |} in
  fst (Mt5Server.callTool request net log) = log ++ [req]
  /\ (In name (map Registry.name Registry.trading_tools) ->
      is_tool_call request ->
      fst (ServerJs.handleMcpRequest request net log) = log ++ [req]).
Proof.
  intros Hin [params [Hparams [Hname Hargs]]] Hg req. subst req.
  destruct Hin as [Heq | [Heq | [Heq | []]]]; injection Heq as <- <- <- <-; split.
  - apply (ts_calls request params args "create_order" _ _ Hparams Hname Hargs eq_refl
             (ts_handleCreateOrder_request args Hg)).
  - intros _ Hcall.
    apply (js_calls request params args "create_order" _ _ Hcall Hparams Hname Hargs
             eq_refl (js_handleCreateOrder_request args Hg)).
  - apply (ts_calls request params args "run_optimization" _ _ Hparams Hname Hargs eq_refl
             (ts_handleRunOptimization_request args Hg)).
  - intros Htrading. exfalso. cbv in Htrading.
    repeat (destruct Htrading as [Htrading | Htrading]; [discriminate Htrading|]).
    destruct Htrading.
  - apply (ts_calls request params args "save_optimization_results" _ _ Hparams Hname
             Hargs eq_refl (ts_handleSaveOptimizationResults_request args Hg)).
  - intros Htrading. exfalso. cbv in Htrading.
    repeat (destruct Htrading as [Htrading | Htrading]; [discriminate Htrading|]).
    destruct Htrading.
Qed.

Lemma the_arguments_are_posted_as_they_are_witness :
  let args := JObject [(lit "optimization_id", JString (lit "run-7"));
                       (lit "format", JString (lit "xml"));
                       (lit "overwrite", JBool true)] in
  let request := tool_call JNull "tools/call" "save_optimization_results" args in
  let req := {| client := flaskClient; method := POST; url := lit "/save_results";
                body := Some args |} in
  fst (Mt5Server.callTool request ticket_123 []) = [] ++ [req]
  /\ (In (lit "save_optimization_results") (map Registry.name Registry.trading_tools) ->
      is_tool_call request ->
      fst (ServerJs.handleMcpRequest request ticket_123 []) = [] ++ [req]).
Proof.
  intros args request req.
  apply (the_arguments_are_posted_as_they_are (lit "save_optimization_results")
           (lit "/save_results") isSaveOptimizationResultsArg flaskClient request args
           ticket_123 []).
  - right. right. left. reflexivity.
  - eexists. repeat split; reflexivity.
  - reflexivity.
Defined.

(** X20.  The two listings take no arguments and check none: whatever the
    arguments of the call are, and also when there are none, they ask the
    account API for [/positions] and for [/orders]. *)
Theorem the_listings_ignore_their_arguments (name path : jsstring)
    (request params : JsValue) (net : Network) (log : list HttpRequest) :
  In (name, path) [(lit "get_open_positions", lit "/positions");
                   (lit "get_pending_orders", lit "/orders")] ->
  get request (lit "params") = Normal params ->
  get params (lit "name") = Normal (JString name) ->
  both_send request net log
    {| client := apiClient; method := GET; url := path; body := None |}.
Proof.
  intros Hin Hparams Hname.
  destruct Hin as [Heq | [Heq | []]]; injection Heq as <- <-; split.
  - apply ts_issues. intros net' log'. rewrite (ts_dispatch_route _ _ _ Hparams Hname).
    apply ts_handleGetOpenPositions_plan.
  - intros Hcall. apply (js_issues _ _ Hcall). intros net' log'.
    rewrite (js_dispatch_route _ _ _ Hparams Hname).
    apply (js_answered_call request _ _ js_handleGetOpenPositions_plan).
  - apply ts_issues. intros net' log'. rewrite (ts_dispatch_route _ _ _ Hparams Hname).
    apply ts_handleGetPendingOrders_plan.
  - intros Hcall. apply (js_issues _ _ Hcall). intros net' log'.
    rewrite (js_dispatch_route _ _ _ Hparams Hname).
    apply (js_answered_call request _ _ js_handleGetPendingOrders_plan).
Qed.

Lemma the_listings_ignore_their_arguments_witness :
  both_send
    (JObject [(lit "method", JString (lit "call_tool"));
              (lit "params", JObject [(lit "name", JString (lit "get_pending_orders"))])])
    not_initialized []
    {| client := apiClient; method := GET; url := lit "/orders"; body := None |}.
Proof.
  apply (the_listings_ignore_their_arguments (lit "get_pending_orders") (lit "/orders")
           (JObject [(lit "method", JString (lit "call_tool"));
                     (lit "params",
                      JObject [(lit "name", JString (lit "get_pending_orders"))])])
           (JObject [(lit "name", JString (lit "get_pending_orders"))])
           not_initialized []).
  - right. left. reflexivity.
  - reflexivity.
  - reflexivity.
Defined.

Lemma ts_handleGetAccountInfo_request (args : JsValue) (n : Number) :
  object_like args = true ->
  prop args "account" = JNumber n ->
  truthy (JNumber n) = true ->
  forall net log,
    Mt5Server.handleGetAccountInfo args net log
    = run_plan ret (Call {| client := apiClient; method := GET;
                            url := lit "/account/" ++ Number_toString n;
                            body := None |}) net log.
Proof.
  intros Hobj Hp Ht net log. unfold Mt5Server.handleGetAccountInfo.
  rewrite isAccountInfoArg_spec. unfold has_type.
  rewrite (field_object_like _ _ Hobj), Hp, Hobj.
  unfold bind, lift. cbn [typeof is_undefined negb andb orb]. rewrite jsstring_eqb_refl.
  cbv iota. rewrite Ht. reflexivity.
Qed.

Lemma js_handleGetAccountInfo_request (args : JsValue) (n : Number) :
  object_like args = true ->
  prop args "account" = JNumber n ->
  truthy (JNumber n) = true ->
  forall net log,
    ServerJs.handleGetAccountInfo args net log
    = run_plan ret (Call {| client := apiClient; method := GET;
                            url := lit "/account/" ++ Number_toString n;
                            body := None |}) net log.
Proof.
  intros Hobj Hp Ht net log. unfold ServerJs.handleGetAccountInfo.
  rewrite isAccountInfoArg_spec. unfold has_type.
  rewrite (field_object_like _ _ Hobj), Hp, Hobj.
  cbn [typeof is_undefined]. rewrite jsstring_eqb_refl.
  cbv beta iota delta [bind lift negb andb orb]. rewrite rethrowing_id.
  unfold bind, lift. rewrite Ht. reflexivity.
Qed.

(** X21.  An account number that is not zero (and not NaN) is put into the path:
    [get_account_info] then asks the account API for [/account/<account>],
    the number printed as JavaScript prints it. *)
Theorem an_account_number_goes_into_the_path (request args : JsValue) (n : Number)
    (net : Network) (log : list HttpRequest) :
  names_tool request (lit "get_account_info") args ->
  object_like args = true ->
  property args (lit "account") = JNumber n ->
  truthy (JNumber n) = true ->
  both_send request net log
    {| client := apiClient; method := GET; url := lit "/account/" ++ Number_toString n;
       body := None |}.
Proof.
  intros [params [Hparams [Hname Hargs]]] Hobj Hp Ht. split.
  - apply (ts_calls request params args "get_account_info" _ _ Hparams Hname Hargs eq_refl
             (ts_handleGetAccountInfo_request args n Hobj Hp Ht)).
  - intros Hcall.
    apply (js_calls request params args "get_account_info" _ _ Hcall Hparams Hname Hargs
             eq_refl (js_handleGetAccountInfo_request args n Hobj Hp Ht)).
Qed.

Lemma an_account_number_goes_into_the_path_witness :
  both_send
    (tool_call JNull "call_tool" "get_account_info"
       (JObject [(lit "account", JNumber (int 5012345))]))
    ticket_123 []
    {| client := apiClient; method := GET; url := lit "/account/" ++ lit "5012345";
       body := None |}.
Proof.
  apply (an_account_number_goes_into_the_path
           (tool_call JNull "call_tool" "get_account_info"
              (JObject [(lit "account", JNumber (int 5012345))]))
           (JObject [(lit "account", JNumber (int 5012345))]) (int 5012345)
           ticket_123 []).
  - eexists. repeat split; reflexivity.
  - reflexivity.
  - reflexivity.
  - reflexivity.
Defined.
